(** * CivicPulse complaint intake pipeline (server.ts)

    A shallow embedding of the intake code of [server.ts]: the helpers
    ([assignPriority], [normalizeCategory], [detectSpamSignals], ...), the
    moderation coordinator [runImageModeration], the ward router and the
    handler of [POST /api/complaints].

    Conventions of the embedding.
    - A JavaScript string is a [string]: the sequence of the bytes of its
      UTF-8 form.  Its [length] counts UTF-16 code units and is computed
      from the bytes by [jsLength].  Case mapping and the white-space
      classes are those of the ASCII range; bytes above 127 are left alone
      by [toLowerCase] and are neither letters nor white space.
    - A JavaScript number is a binary64 [float].
    - In the request body the description is any JSON value, since the
      handler calls a string method on it outside its [try] block; the user
      id, the category and the photo are texts and the coordinates numbers,
      the types the client sends.  The HTML body of the officer's e-mail is
      left out.
    - The SQLite file is a record of three tables; [INSERT] raises on a
      duplicate primary key or when the store reports a fault.
    - Everything outside the process (the vision model, the geocoder, the
      mailer, the random source, the clock, store faults) is a field of a
      [World] record passed to the handler. *)

From Stdlib Require Import Bool List NArith ZArith Lia.
From Stdlib Require Import Ascii String.
From Stdlib Require Import Floats.
From Stdlib Require Import Permutation Sorted.
Import ListNotations.

Set Warnings "-inexact-float".

Local Open Scope string_scope.
Local Open Scope bool_scope.

(* ================================================================== *)
(** ** JavaScript strings *)
(* ================================================================== *)

Module JS.

Definition code (c : ascii) : N := N_of_ascii c.

Definition between (lo hi : N) (c : ascii) : bool :=
  (lo <=? code c)%N && (code c <=? hi)%N.

Definition isUpper (c : ascii) : bool := between 65 90 c.
Definition isLower (c : ascii) : bool := between 97 122 c.
Definition isDigit (c : ascii) : bool := between 48 57 c.
(** The class [[a-zA-Z]]. *)
Definition isLetter (c : ascii) : bool := isUpper c || isLower c.

(** White space removed by [trim] and matched by [\s]: TAB, LF, VT, FF, CR
    and SPACE. *)
Definition isSpace (c : ascii) : bool := between 9 13 c || (code c =? 32)%N.

Definition lowerChar (c : ascii) : ascii :=
  if isUpper c then ascii_of_N (code c + 32) else c.

(** [s.toLowerCase()] *)
Fixpoint toLowerCase (s : string) : string :=
  match s with
  | EmptyString => EmptyString
  | String c r => String (lowerChar c) (toLowerCase r)
  end.

(** [s.trimStart()] *)
Fixpoint trimStart (s : string) : string :=
  match s with
  | EmptyString => EmptyString
  | String c r => if isSpace c then trimStart r else s
  end.

Definition isEmpty (s : string) : bool :=
  match s with EmptyString => true | _ => false end.

(** [s.trimEnd()] *)
Fixpoint trimEnd (s : string) : string :=
  match s with
  | EmptyString => EmptyString
  | String c r =>
      let r' := trimEnd r in
      if isSpace c && isEmpty r' then EmptyString else String c r'
  end.

(** [s.trim()] *)
Definition trim (s : string) : string := trimEnd (trimStart s).

(** [s.startsWith(k)] *)
Fixpoint startsWith (s k : string) {struct k} : bool :=
  match k, s with
  | EmptyString, _ => true
  | String _ _, EmptyString => false
  | String a k', String b s' => Ascii.eqb a b && startsWith s' k'
  end.

(** [s.includes(k)] *)
Fixpoint includes (s k : string) : bool :=
  startsWith s k ||
  match s with
  | EmptyString => false
  | String _ r => includes r k
  end.

(** [ks.some(k => s.includes(k))] *)
Definition includesAny (s : string) (ks : list string) : bool :=
  existsb (includes s) ks.

(** Truthiness of a string: every string but the empty one. *)
Definition truthy (s : string) : bool := negb (isEmpty s).

(** The UTF-16 code units a byte of a UTF-8 text opens: one for an ASCII
    byte and for the lead byte of a sequence of two or three bytes, two (a
    surrogate pair) for the lead byte of a sequence of four bytes, none for
    a continuation byte. *)
Definition unitsOpened (c : ascii) : nat :=
  if (code c <? 128)%N then 1
  else if (code c <? 192)%N then 0
  else if (code c <? 240)%N then 1
  else 2.

(** [s.length]: the number of UTF-16 code units of the text. *)
Fixpoint jsLength (s : string) : nat :=
  match s with
  | EmptyString => O
  | String c r => (unitsOpened c + jsLength r)%nat
  end.

(** [parts.join(sep)] *)
Fixpoint join (sep : string) (parts : list string) : string :=
  match parts with
  | [] => EmptyString
  | [p] => p
  | p :: rest => p ++ sep ++ join sep rest
  end.

(** [c] repeated [n] times. *)
Fixpoint repeatChar (c : ascii) (n : nat) : string :=
  match n with
  | O => EmptyString
  | S n' => String c (repeatChar c n')
  end.

(** Drop the characters for which [p] holds: [s.replace(/[p]+/g, "")]. *)
Fixpoint removeAll (p : ascii -> bool) (s : string) : string :=
  match s with
  | EmptyString => EmptyString
  | String c r => if p c then removeAll p r else String c (removeAll p r)
  end.

Fixpoint forallChars (p : ascii -> bool) (s : string) : bool :=
  match s with
  | EmptyString => true
  | String c r => p c && forallChars p r
  end.

(** The longest prefix of [s] whose characters satisfy [p], and the rest. *)
Fixpoint span (p : ascii -> bool) (s : string) : string * string :=
  match s with
  | EmptyString => (EmptyString, EmptyString)
  | String c r =>
      if p c then let (a, b) := span p r in (String c a, b)
      else (EmptyString, s)
  end.

(** [stripPrefix k s] is what follows [k] in [s] when [s] starts with [k]. *)
Fixpoint stripPrefix (k s : string) {struct k} : option string :=
  match k, s with
  | EmptyString, _ => Some s
  | String _ _, EmptyString => None
  | String a k', String b s' =>
      if Ascii.eqb a b then stripPrefix k' s' else None
  end.

(** The specification of [includes]: [k] occurs in [s]. *)
Definition Occurs (k s : string) : Prop :=
  exists pre post, s = pre ++ k ++ post.

End JS.

(* ================================================================== *)
(** ** JavaScript numbers *)
(* ================================================================== *)

Module Num.

Local Open Scope float_scope.

(** [a >= b] and [a <= b] on numbers; false as soon as one side is NaN. *)
Definition ge (a b : float) : bool := PrimFloat.leb b a.
Definition le (a b : float) : bool := PrimFloat.leb a b.
Definition lt (a b : float) : bool := PrimFloat.ltb a b.

(** [Number.isFinite(x)] for a value that is a number. *)
Definition isFinite (x : float) : bool := PrimFloat.is_finite x.

Definition isNegZero (x : float) : bool :=
  PrimFloat.is_zero x && PrimFloat.get_sign x.

(** [Math.min(a, b)]: NaN if either is NaN, and [-0] is below [+0]. *)
Definition min (a b : float) : float :=
  if PrimFloat.is_nan a || PrimFloat.is_nan b then PrimFloat.nan
  else if PrimFloat.ltb a b then a
  else if PrimFloat.ltb b a then b
  else if isNegZero a then a else b.

(** [Math.max(a, b)]: NaN if either is NaN, and [+0] is above [-0]. *)
Definition max (a b : float) : float :=
  if PrimFloat.is_nan a || PrimFloat.is_nan b then PrimFloat.nan
  else if PrimFloat.ltb a b then b
  else if PrimFloat.ltb b a then a
  else if isNegZero a then b else a.

End Num.

(* ================================================================== *)
(** ** SHA-256 ([crypto.createHash("sha256")], FIPS 180-4) *)
(* ================================================================== *)

Module SHA256.

Local Open Scope N_scope.

Definition mask32 (x : N) : N := N.land x 0xffffffff.
Definition add32 (a b : N) : N := mask32 (a + b).
Definition rotr (n x : N) : N :=
  N.lor (N.shiftr x n) (mask32 (N.shiftl x (32 - n))).
Definition not32 (x : N) : N := N.lxor x 0xffffffff.

Definition Ch (x y z : N) : N := N.lxor (N.land x y) (N.land (not32 x) z).
Definition Maj (x y z : N) : N :=
  N.lxor (N.lxor (N.land x y) (N.land x z)) (N.land y z).
Definition Sigma0 (x : N) : N := N.lxor (N.lxor (rotr 2 x) (rotr 13 x)) (rotr 22 x).
Definition Sigma1 (x : N) : N := N.lxor (N.lxor (rotr 6 x) (rotr 11 x)) (rotr 25 x).
Definition sigma0 (x : N) : N := N.lxor (N.lxor (rotr 7 x) (rotr 18 x)) (N.shiftr x 3).
Definition sigma1 (x : N) : N := N.lxor (N.lxor (rotr 17 x) (rotr 19 x)) (N.shiftr x 10).

(** The round constants and the initial hash value are the first 32 bits of
    the fractional parts of the cube roots of the first 64 primes and of the
    square roots of the first 8 primes. *)
Definition isPrime (n : N) : bool :=
  (1 <? n) && forallb (fun d => negb (n mod d =? 0))
                      (map N.of_nat (seq 2 (N.to_nat n - 2))).

Definition primes : list N :=
  filter isPrime (map N.of_nat (seq 2 310)).

(** The integer cube root, found bit by bit from bit [b - 1] down. *)
Fixpoint cubeRoot (b : nat) (n r : N) : N :=
  match b with
  | O => r
  | S b' =>
      let r' := r + N.shiftl 1 (N.of_nat b') in
      cubeRoot b' n (if r' * r' * r' <=? n then r' else r)
  end.

Definition K : list N :=
  Eval vm_compute in
    map (fun q => mask32 (cubeRoot 36 (N.shiftl q 96) 0)) primes.

Definition H0 : list N :=
  Eval vm_compute in
    map (fun q => mask32 (N.sqrt (N.shiftl q 64))) (firstn 8 primes).

(** Big-endian bytes of a [k]-byte quantity. *)
Fixpoint bytesBE (k : nat) (x : N) : list N :=
  match k with
  | O => []
  | S k' => N.land (N.shiftr x (8 * N.of_nat k')) 0xff :: bytesBE k' x
  end.

(** Message padding: a one bit, zeros up to 56 modulo 64, the bit length. *)
Definition pad (msg : list N) : list N :=
  let len := List.length msg in
  let zeros := Nat.modulo (64 - Nat.modulo (len + 9) 64) 64 in
  msg ++ [0x80] ++ List.repeat 0 zeros ++ bytesBE 8 (8 * N.of_nat len).

Definition word (a b c d : N) : N :=
  N.lor (N.lor (N.shiftl a 24) (N.shiftl b 16)) (N.lor (N.shiftl c 8) d).

Fixpoint words (n : nat) (bs : list N) : list N :=
  match n, bs with
  | S n', a :: b :: c :: d :: rest => word a b c d :: words n' rest
  | _, _ => []
  end.

(** The message schedule, kept newest first: [w] holds W(t-1), W(t-2), ... *)
Fixpoint extend (n : nat) (w : list N) : list N :=
  match n with
  | O => w
  | S n' =>
      let w2 := nth 1 w 0 in
      let w7 := nth 6 w 0 in
      let w15 := nth 14 w 0 in
      let w16 := nth 15 w 0 in
      extend n' (add32 (add32 (sigma1 w2) w7) (add32 (sigma0 w15) w16) :: w)
  end.

Definition schedule (block : list N) : list N :=
  rev (extend 48 (rev (words 16 block))).

Record regs := Regs { ra : N; rb : N; rc : N; rd : N; re : N; rf : N; rg : N; rh : N }.

Definition round (s : regs) (kw : N * N) : regs :=
  let (k, w) := kw in
  let t1 := add32 (add32 (add32 (rh s) (Sigma1 (re s))) (Ch (re s) (rf s) (rg s)))
                  (add32 k w) in
  let t2 := add32 (Sigma0 (ra s)) (Maj (ra s) (rb s) (rc s)) in
  Regs (add32 t1 t2) (ra s) (rb s) (rc s) (add32 (rd s) t1) (re s) (rf s) (rg s).

Definition ofList (h : list N) : regs :=
  Regs (nth 0 h 0) (nth 1 h 0) (nth 2 h 0) (nth 3 h 0)
       (nth 4 h 0) (nth 5 h 0) (nth 6 h 0) (nth 7 h 0).

Definition toList (s : regs) : list N :=
  [ra s; rb s; rc s; rd s; re s; rf s; rg s; rh s].

Definition compress (h : list N) (block : list N) : list N :=
  let s := fold_left round (combine K (schedule block)) (ofList h) in
  map (fun p => add32 (fst p) (snd p)) (combine h (toList s)).

Fixpoint blocks (n : nat) (h : list N) (bs : list N) : list N :=
  match n with
  | O => h
  | S n' => blocks n' (compress h (firstn 64 bs)) (skipn 64 bs)
  end.

Definition digest (msg : list N) : list N :=
  let p := pad msg in
  flat_map (bytesBE 4) (blocks (Nat.div (List.length p) 64) H0 p).

Definition hexDigit (n : N) : ascii :=
  if n <? 10 then ascii_of_N (48 + n) else ascii_of_N (87 + n).

Fixpoint hex (bs : list N) : string :=
  match bs with
  | [] => EmptyString
  | b :: rest => String (hexDigit (N.shiftr b 4)) (String (hexDigit (N.land b 0xf)) (hex rest))
  end.

Definition bytesOf (s : string) : list N := map N_of_ascii (list_ascii_of_string s).

(** [crypto.createHash("sha256").update(s, "utf8").digest("hex")] *)
Definition sha256Hex (s : string) : string := hex (digest (bytesOf s)).

End SHA256.

(* ================================================================== *)
(** ** Helpers of server.ts *)
(* ================================================================== *)

Import JS.

(** [assignPriority(category, description)] *)
Definition assignPriority (category description : string) : string :=
  let desc := toLowerCase description in
  if String.eqb category "Water" &&
     (includes desc "leak" || includes desc "burst" || includes desc "overflow")
  then "High"
  else if String.eqb category "Road" &&
     (includes desc "accident" || includes desc "pothole" || includes desc "big")
  then "High"
  else if String.eqb category "Garbage" &&
     (includes desc "overflow" || includes desc "too much")
  then "High"
  else
    let lowKeywords := ["minor"; "small"; "request"; "info"] in
    if existsb (fun k => includes desc k) lowKeywords then "Low"
    else "Medium".

(** [isResolvedStatus(status)] *)
Definition isResolvedStatus (status : string) : bool :=
  let value := toLowerCase (trim status) in
  String.eqb value "closed" || String.eqb value "resolved" ||
  String.eqb value "resolved (pending admin)".

Record ImageData := { mimeType : string; data : string }.

Definition isOneOf (cs : list ascii) (c : ascii) : bool :=
  existsb (Ascii.eqb c) cs.

(** The class [[a-zA-Z0-9.+-]] of the MIME subtype. *)
Definition isMimeChar (c : ascii) : bool :=
  isLetter c || isDigit c || isOneOf ["."; "+"; "-"]%char c.

(** The class [[A-Za-z0-9+/=\r\n]] of the payload. *)
Definition isPayloadChar (c : ascii) : bool :=
  isLetter c || isDigit c ||
  isOneOf ["+"; "/"; "="; ascii_of_N 13; ascii_of_N 10]%char c.

(** [parseImageDataUrl(photoUrl)]: the match of
    [/^data:(image\/[a-zA-Z0-9.+-]+);base64,([A-Za-z0-9+/=\r\n]+)$/]
    on the trimmed text, white space removed from the second group. *)
Definition parseImageDataUrl (photoUrl : string) : option ImageData :=
  let trimmed := trim photoUrl in
  match stripPrefix "data:image/" trimmed with
  | None => None
  | Some afterSlash =>
      let (subtype, afterType) := span isMimeChar afterSlash in
      if isEmpty subtype then None
      else
        match stripPrefix ";base64," afterType with
        | None => None
        | Some payload =>
            if isEmpty payload then None
            else if forallChars isPayloadChar payload then
              Some {| mimeType := "image/" ++ subtype;
                      data := removeAll isSpace payload |}
            else None
        end
  end.

(** [normalizeCategory(value)] *)
Definition normalizeCategory (value : string) : string :=
  let normalized := toLowerCase (trim value) in
  if String.eqb normalized "garbage" then "Garbage"
  else if String.eqb normalized "road" then "Road"
  else if String.eqb normalized "water" then "Water"
  else if String.eqb normalized "streetlight" then "Streetlight"
  else "Other".

Record Classification := { category : string; confidence : float }.

(** [classifyFromText(description, submittedCategory)] *)
Definition classifyFromText (description submittedCategory : string)
  : Classification :=
  let text := toLowerCase description in
  if includesAny text ["garbage"; "trash"; "waste"; "dump"; "bin"]
  then {| category := "Garbage"; confidence := 0.75 |}
  else if includesAny text ["pothole"; "road"; "asphalt"; "traffic"; "street crack"]
  then {| category := "Road"; confidence := 0.75 |}
  else if includesAny text ["water"; "pipe"; "leak"; "sewage"; "drain"; "overflow"]
  then {| category := "Water"; confidence := 0.75 |}
  else if includesAny text
            ["streetlight"; "street light"; "lamp"; "dark street"; "light pole"]
  then {| category := "Streetlight"; confidence := 0.75 |}
  else {| category := normalizeCategory submittedCategory; confidence := 0.55 |}.

(* ------------------------------------------------------------------ *)
(** *** The store *)

Record ComplaintRow := {
  c_id : string;
  c_userId : string;
  c_category : string;
  c_description : string;
  c_photoUrl : string;
  c_latitude : float;
  c_longitude : float;
  c_priority : string;
  c_status : string;
  c_workerName : option string;
  c_area : string;
  c_city : string;
  c_state : string;
  c_fullAddress : string;
  c_ward : string;
  c_division : string;
  c_department : string;
  c_assignedOfficerId : option string;
  c_assignedOfficerName : option string;
  c_imageHash : option string;
  c_model : string;
  c_aiGeneratedFlag : bool;
  c_spamFlag : bool;
  c_duplicateFlag : bool;
  c_classifiedCategory : string;
  c_classificationConfidence : float;
  c_createdAt : Z
}.

Record NotificationRow := {
  n_id : string;
  n_complaintId : string;
  n_type : string;
  n_message : string;
  n_isRead : bool
}.

Record OfficerRow := {
  o_id : string;
  o_name : string;
  o_email : option string;
  o_ward : string;
  o_division : string;
  o_department : option string
}.

Record Database := {
  complaints : list ComplaintRow;
  notifications : list NotificationRow;
  officers : list OfficerRow
}.

(** SQLite's [trim(X)] removes spaces only; its [lower(X)] maps ASCII
    letters. *)
Definition isBlank (c : ascii) : bool := (code c =? 32)%N.

Fixpoint sqlTrimStart (s : string) : string :=
  match s with
  | EmptyString => EmptyString
  | String c r => if isBlank c then sqlTrimStart r else s
  end.

Fixpoint sqlTrimEnd (s : string) : string :=
  match s with
  | EmptyString => EmptyString
  | String c r =>
      let r' := sqlTrimEnd r in
      if isBlank c && isEmpty r' then EmptyString else String c r'
  end.

Definition sqlTrim (s : string) : string := sqlTrimEnd (sqlTrimStart s).
Definition sqlLower (s : string) : string := toLowerCase s.

Definition sevenDays : Z := 7 * 86400.

(** [SELECT COUNT( * ) FROM complaints WHERE userId = ? AND
    lower(trim(description)) = lower(trim(?)) AND
    createdAt >= datetime('now', '-7 day')] *)
Definition countRepeatedByUser (db : Database) (now : Z)
    (userId text : string) : nat :=
  List.length
    (filter (fun r =>
       String.eqb (c_userId r) userId &&
       String.eqb (sqlLower (sqlTrim (c_description r))) (sqlLower (sqlTrim text)) &&
       (now - sevenDays <=? c_createdAt r)%Z)
     (complaints db)).

(** The newest row of a list of rows (the first of the newest ones). *)
Fixpoint newest (rows : list ComplaintRow) : option ComplaintRow :=
  match rows with
  | [] => None
  | r :: rest =>
      match newest rest with
      | Some r' => if (c_createdAt r <? c_createdAt r')%Z then Some r' else Some r
      | None => Some r
      end
  end.

Definition hashIs (h : string) (r : ComplaintRow) : bool :=
  match c_imageHash r with
  | Some h' => String.eqb h' h
  | None => false
  end.

(** [SELECT id, status FROM complaints WHERE imageHash = ?
    ORDER BY datetime(createdAt) DESC LIMIT 1] *)
Definition selectDuplicate (db : Database) (imageHash : string)
  : option ComplaintRow :=
  newest (filter (hashIs imageHash) (complaints db)).

(* ------------------------------------------------------------------ *)
(** *** Spam heuristics *)

(** Some suffix of [s] satisfies [p]: an unanchored pattern matches. *)
Fixpoint existsSuffix (p : string -> bool) (s : string) : bool :=
  p s ||
  match s with
  | EmptyString => false
  | String _ r => existsSuffix p r
  end.

(** [/([a-zA-Z])\1{6,}/] at the start of [s]. *)
Definition letterRunAt (s : string) : bool :=
  match s with
  | EmptyString => false
  | String c r => isLetter c && startsWith r (repeatChar c 6)
  end.

(** [/test\s*test/] at the start of [s]. *)
Definition testTestAt (s : string) : bool :=
  match stripPrefix "test" s with
  | Some r => startsWith (trimStart r) "test"
  | None => false
  end.

Record SpamSignals := { s_isSpam : bool; s_reason : string }.

(** [if (b) reasons.push(reason)] *)
Definition when (b : bool) (reason : string) : list string :=
  if b then [reason] else [].

(** [detectSpamSignals(userId, description)] *)
Definition detectSpamSignals (db : Database) (now : Z)
    (userId description : string) : SpamSignals :=
  let text := trim description in
  let lower := toLowerCase text in
  let reasons := (
    when (jsLength text <? 8)%nat "Description is too short." ++
    when (includes lower "http://" || includes lower "https://" ||
          includes lower "www.")
         "Description contains promotional links." ++
    when (existsSuffix letterRunAt lower)
         "Description has repeated characters." ++
    when (existsSuffix testTestAt lower || includes lower "asdf" ||
          includes lower "qwerty" || includes lower "dummy")
         "Description looks like spam/test content." ++
    when (2 <=? countRepeatedByUser db now userId text)%nat
         "Same description was already submitted repeatedly by this user."
    )%list in
  {| s_isSpam := negb (Nat.eqb (List.length reasons) 0);
     s_reason := join " " reasons |}.

(* ------------------------------------------------------------------ *)
(** *** Values parsed from the vision model's reply *)

(** A property of the parsed reply.  An array or object is kept as the
    string its conversion to a primitive yields. *)
Inductive JsValue :=
| JUndefined
| JNull
| JBool (b : bool)
| JNum (x : float)
| JStr (s : string)
| JObject (prim : string).

(** The six properties read from the reply; [JUndefined] when missing. *)
Record GeminiDoc := {
  d_isLikelyAiGenerated : JsValue;
  d_aiGeneratedReason : JsValue;
  d_isSpam : JsValue;
  d_spamReason : JsValue;
  d_problemCategory : JsValue;
  d_categoryConfidence : JsValue
}.

(** What [generateContent] followed by [JSON.parse] gives: an exception
    (transport error, empty or malformed text, a [null] document) or a
    document. *)
Inductive GeminiReply :=
| GeminiThrows
| GeminiJson (doc : GeminiDoc).

Record Address := {
  suburb : option string;
  neighbourhood : option string;
  village : option string;
  town : option string;
  city_district : option string;
  district : option string;
  municipality : option string;
  county : option string;
  state_district : option string;
  city : option string;
  state : option string
}.

Definition noAddress : Address :=
  {| suburb := None; neighbourhood := None; village := None; town := None;
     city_district := None; district := None; municipality := None;
     county := None; state_district := None; city := None; state := None |}.

(** The body of the geocoder's response as [r.json()] sees it. *)
Inductive GeoBody :=
| BodyInvalid                       (* not JSON: [r.json()] rejects *)
| BodyNull                          (* JSON [null]: [data.address] raises *)
| BodyData (address : option Address) (display_name : option string).

Inductive FetchReply :=
| FetchRejects                      (* network error *)
| FetchResponse (ok : bool) (body : GeoBody).

Inductive Table := Complaints | Notifications.

(** Everything the handler takes from outside the process during one
    submission. *)
Record World := {
  GEMINI_API_KEY : option string;
  geminiReply : GeminiReply;
  StringToNumber : string -> float;
  NumberToString : float -> string;
  geocodeReply : FetchReply;
  mailerFails : bool;
  (** [crypto.randomBytes(4).toString("hex")], by call number *)
  randomHex : nat -> string;
  (** the clock, in seconds *)
  now : Z;
  (** the error a table's [INSERT] raises for a reason of the store's own
      (disk full, database locked), if any *)
  storeFault : Table -> option string
}.

Definition isTruthy (v : JsValue) : bool :=
  match v with
  | JUndefined | JNull => false
  | JBool b => b
  | JNum x => negb (PrimFloat.is_zero x || PrimFloat.is_nan x)
  | JStr s => truthy s
  | JObject _ => true
  end.

(** [String(v)] *)
Definition ToString (w : World) (v : JsValue) : string :=
  match v with
  | JUndefined => "undefined"
  | JNull => "null"
  | JBool true => "true"
  | JBool false => "false"
  | JNum x => NumberToString w x
  | JStr s => s
  | JObject prim => prim
  end.

(** [Number(v)] *)
Definition ToNumber (w : World) (v : JsValue) : float :=
  match v with
  | JUndefined => PrimFloat.nan
  | JNull => 0
  | JBool true => 1
  | JBool false => 0
  | JNum x => x
  | JStr s => StringToNumber w s
  | JObject prim => StringToNumber w prim
  end.

(** [String(v || "")] *)
Definition stringOrEmpty (w : World) (v : JsValue) : string :=
  if isTruthy v then ToString w v else EmptyString.

(** The value is a string that is not empty. *)
Definition isText (v : JsValue) : bool :=
  match v with
  | JStr s => truthy s
  | _ => false
  end.

Record GeminiImageScan := {
  g_isLikelyAiGenerated : bool;
  g_aiGeneratedReason : string;
  g_isSpam : bool;
  g_spamReason : string;
  g_problemCategory : string;
  g_categoryConfidence : float
}.

(** [Number.isFinite(confidence) ? Math.max(0, Math.min(1, confidence)) : 0.6] *)
Definition clampConfidence (confidence : float) : float :=
  if Num.isFinite confidence then Num.max 0 (Num.min 1 confidence) else 0.6%float.

(** The object built from a parsed reply. *)
Definition scanOfDoc (w : World) (doc : GeminiDoc) : GeminiImageScan :=
  let category := normalizeCategory (stringOrEmpty w (d_problemCategory doc)) in
  let confidence := ToNumber w (d_categoryConfidence doc) in
  {| g_isLikelyAiGenerated := isTruthy (d_isLikelyAiGenerated doc);
     g_aiGeneratedReason := stringOrEmpty w (d_aiGeneratedReason doc);
     g_isSpam := isTruthy (d_isSpam doc);
     g_spamReason := stringOrEmpty w (d_spamReason doc);
     g_problemCategory := category;
     g_categoryConfidence := clampConfidence confidence |}.

Definition keyPresent (w : World) : bool :=
  match GEMINI_API_KEY w with
  | Some k => truthy k
  | None => false
  end.

(** [scanWithGeminiIfAvailable(photoUrl, description)] *)
Definition scanWithGeminiIfAvailable (w : World) (photoUrl description : string)
  : option GeminiImageScan :=
  match keyPresent w, parseImageDataUrl photoUrl with
  | true, Some _ =>
      match geminiReply w with
      | GeminiThrows => None
      | GeminiJson doc => Some (scanOfDoc w doc)
      end
  | _, _ => None
  end.

(* ------------------------------------------------------------------ *)
(** *** The moderation coordinator *)

Record ImageModerationResult := {
  imageHash : option string;
  isLikelyAiGenerated : bool;
  aiGeneratedReason : string;
  isSpam : bool;
  spamReason : string;
  isDuplicate : bool;
  duplicateAgainst : option (string * string);
  classifiedCategory : string;
  classificationConfidence : float;
  model : string
}.

(** The text handed to the digest: the payload of an image data URL, or the
    whole trimmed text. *)
Definition hashedText (normalizedPhoto : string) : string :=
  match parseImageDataUrl normalizedPhoto with
  | Some parsed => data parsed
  | None => normalizedPhoto
  end.

(** The [imageHash] computed at the head of [runImageModeration]. *)
Definition computeImageHash (photoUrl : string) : option string :=
  let normalizedPhoto := trim photoUrl in
  if truthy normalizedPhoto
  then Some (SHA256.sha256Hex (hashedText normalizedPhoto))
  else None.

Definition orElse (s fallback : string) : string :=
  if truthy s then s else fallback.

(** [runImageModeration(userId, photoUrl, description, submittedCategory)] *)
Definition runImageModeration (w : World) (db : Database)
    (userId photoUrl description submittedCategory : string)
  : ImageModerationResult :=
  let normalizedPhoto := trim photoUrl in
  let hash := computeImageHash photoUrl in
  let duplicate :=
    match hash with
    | Some h => if truthy h then selectDuplicate db h else None
    | None => None
    end in
  let spamHeuristic := detectSpamSignals db (now w) userId description in
  let textClassification := classifyFromText description submittedCategory in
  let gemini := scanWithGeminiIfAvailable w normalizedPhoto description in
  let duplicateIsResolved :=
    match duplicate with
    | Some d => isResolvedStatus (c_status d)
    | None => false
    end in
  let duplicateSpamReason :=
    match duplicate with
    | Some d =>
        if duplicateIsResolved
        then "Same image was previously reported and resolved (Complaint "
             ++ c_id d ++ ")."
        else EmptyString
    | None => EmptyString
    end in
  let geminiSpam :=
    match gemini with Some g => g_isSpam g | None => false end in
  let geminiSpamReason :=
    match gemini with Some g => g_spamReason g | None => EmptyString end in
  {| imageHash := hash;
     isLikelyAiGenerated :=
       match gemini with Some g => g_isLikelyAiGenerated g | None => false end;
     aiGeneratedReason :=
       match gemini with Some g => g_aiGeneratedReason g | None => EmptyString end;
     isSpam := s_isSpam spamHeuristic || geminiSpam || duplicateIsResolved;
     spamReason :=
       trim (join " " (filter truthy
         [s_reason spamHeuristic; geminiSpamReason; duplicateSpamReason]));
     isDuplicate :=
       match duplicate with Some _ => true | None => false end;
     duplicateAgainst :=
       match duplicate with
       | Some d => Some (c_id d, c_status d)
       | None => None
       end;
     classifiedCategory :=
       match gemini with
       | Some g => orElse (g_problemCategory g) (category textClassification)
       | None => category textClassification
       end;
     classificationConfidence :=
       match gemini with
       | Some g => g_categoryConfidence g
       | None => confidence textClassification
       end;
     model :=
       match gemini with Some _ => "gemini-2.5-flash" | None => "heuristic" end |}.

(* ------------------------------------------------------------------ *)
(** *** Geocoder and ward router *)

Record GeocodeResult := {
  area : string;
  l_city : string;
  l_state : string;
  fullAddress : string;
  ward : string
}.

(** [a || b || ... || fallback] over optional strings. *)
Fixpoint firstTruthy (candidates : list (option string)) (fallback : string)
  : string :=
  match candidates with
  | [] => fallback
  | Some s :: rest => if truthy s then s else firstTruthy rest fallback
  | None :: rest => firstTruthy rest fallback
  end.

(** [reverseGeocode(lat, lon)]: [None] when it raises. *)
Definition reverseGeocode (w : World) (lat lon : float) : option GeocodeResult :=
  match geocodeReply w with
  | FetchRejects => None
  | FetchResponse false _ => None
  | FetchResponse true BodyInvalid => None
  | FetchResponse true BodyNull => None
  | FetchResponse true (BodyData address display_name) =>
      let a := match address with Some a => a | None => noAddress end in
      Some {|
        area := firstTruthy [suburb a; neighbourhood a; village a; town a;
                             city_district a; city a] "Unknown";
        l_city := firstTruthy [city a; town a; village a; county a] "Unknown";
        l_state := firstTruthy [state a] "Unknown";
        fullAddress := firstTruthy [display_name] "Unknown";
        ward := firstTruthy [suburb a; neighbourhood a; city_district a;
                             district a; municipality a; county a;
                             state_district a] "Unknown"
      |}
  end.

(** The location used when [reverseGeocode] raises. *)
Definition fallbackLocation : GeocodeResult :=
  {| area := "Unknown"; l_city := "Amravati"; l_state := "Maharashtra";
     fullAddress := "Unknown"; ward := "Unknown" |}.

Definition inBox (lat lon latLo latHi lonLo lonHi : float) : bool :=
  Num.ge lat latLo && Num.le lat latHi && Num.ge lon lonLo && Num.le lon lonHi.

Definition inPushpak (lat lon : float) : bool :=
  inBox lat lon 20.870 20.890 77.730 77.760.
Definition inRajapeth (lat lon : float) : bool :=
  inBox lat lon 20.900 20.930 77.740 77.770.
Definition inPanchvati (lat lon : float) : bool :=
  inBox lat lon 20.940 20.970 77.750 77.790.
Definition inOldCity (lat lon : float) : bool :=
  inBox lat lon 20.910 20.930 77.720 77.740.

(** [mapToAmravatiWard(lat, lon, fallbackWard)] *)
Definition mapToAmravatiWard (lat lon : float) (fallbackWard : option string)
  : string :=
  if inPushpak lat lon then "Amravati Ward – Pushpak Colony Zone"
  else if inRajapeth lat lon then "Amravati Ward – Rajapeth Zone"
  else if inPanchvati lat lon then "Amravati Ward – Panchvati Zone"
  else if inOldCity lat lon then "Amravati Ward – Old City Zone"
  else
    match fallbackWard with
    | Some fw =>
        if truthy fw && negb (String.eqb fw "Unknown")
        then "Amravati Ward – " ++ fw
        else "Amravati Ward – Unassigned"
    | None => "Amravati Ward – Unassigned"
    end.

(** [mapWardToDivision(ward)] *)
Definition mapWardToDivision (ward : string) : string :=
  if includes ward "Pushpak Colony" then "Zone-1"
  else if includes ward "Rajapeth" then "Zone-2"
  else if includes ward "Panchvati" then "Zone-3"
  else if includes ward "Old City" then "Zone-4"
  else if includes ward "Amravati Ward –" then "Zone-Unmapped"
  else "Zone-Unmapped".

(** [pickOfficerForWardOrDivision(ward, division)] *)
Definition pickOfficerForWardOrDivision (db : Database) (ward division : string)
  : option OfficerRow :=
  match find (fun o => String.eqb (o_ward o) ward) (officers db) with
  | Some byWard => Some byWard
  | None => find (fun o => String.eqb (o_division o) division) (officers db)
  end.

(* ------------------------------------------------------------------ *)
(** *** Effects: the store, the outbox, exceptions *)

Record Email := { e_to : string; e_subject : string }.

Record Store := { db : Database; outbox : list Email }.

Inductive Outcome (A : Type) :=
| Return (a : A)
| Throw (message : string).
Arguments Return {A} a.
Arguments Throw {A} message.

(** A computation reads and writes the store and may raise; what it wrote
    before raising stays written. *)
Definition IO (A : Type) : Type := Store -> Store * Outcome A.

Definition ret {A} (a : A) : IO A := fun st => (st, Return a).

(** [throw new Error(message)] *)
Definition throw {A} (message : string) : IO A := fun st => (st, Throw message).

Definition bind {A B} (m : IO A) (k : A -> IO B) : IO B :=
  fun st =>
    match m st with
    | (st', Return a) => k a st'
    | (st', Throw e) => (st', Throw e)
    end.

Definition tryCatch {A} (m : IO A) (handler : string -> IO A) : IO A :=
  fun st =>
    match m st with
    | (st', Return a) => (st', Return a)
    | (st', Throw e) => handler e st'
    end.

Definition getDb : IO Database := fun st => (st, Return (db st)).

Notation "x <- m ;; k" := (bind m (fun x => k))
  (at level 61, m at next level, right associativity).
Notation "m ;;; k" := (bind m (fun _ => k))
  (at level 61, right associativity).

(** [uid(prefix)]; [call] numbers the calls made while one request is
    handled: 0 for the complaint id, 1 for the notification id. *)
Definition uid (w : World) (call : nat) (prefix : string) : string :=
  prefix ++ "-" ++ randomHex w call.

(** [INSERT INTO notifications ...] *)
Definition insertNotification (w : World) (row : NotificationRow) : IO unit :=
  fun st =>
    match storeFault w Notifications with
    | Some e => (st, Throw e)
    | None =>
        if existsb (fun r => String.eqb (n_id r) (n_id row)) (notifications (db st))
        then (st, Throw "UNIQUE constraint failed: notifications.id")
        else ({| db := {| complaints := complaints (db st);
                          notifications := (notifications (db st) ++ [row])%list;
                          officers := officers (db st) |};
                 outbox := outbox st |}, Return tt)
    end.

(** [INSERT INTO complaints ...] *)
Definition insertComplaint (w : World) (row : ComplaintRow) : IO unit :=
  fun st =>
    match storeFault w Complaints with
    | Some e => (st, Throw e)
    | None =>
        if existsb (fun r => String.eqb (c_id r) (c_id row)) (complaints (db st))
        then (st, Throw "UNIQUE constraint failed: complaints.id")
        else ({| db := {| complaints := (complaints (db st) ++ [row])%list;
                          notifications := notifications (db st);
                          officers := officers (db st) |};
                 outbox := outbox st |}, Return tt)
    end.

(** [notifyAdminAssignment(complaintId, workerName, category, ward)] *)
Definition notifyAdminAssignment (w : World) (call : nat)
    (complaintId workerName category ward : string) : IO unit :=
  let id := uid w call "NTF" in
  let msg := "Complaint " ++ complaintId ++ " auto-assigned to " ++ workerName ++
             " (" ++ category ++ ") in " ++ ward ++ "." in
  insertNotification w
    {| n_id := id; n_complaintId := complaintId; n_type := "ASSIGNED";
       n_message := msg; n_isRead := false |}.

(** [sendOfficerEmail(to, subject, html)]: a transport failure is logged and
    swallowed.  The HTML body is not part of the model. *)
Definition sendOfficerEmail (w : World) (to subject : string) : IO unit :=
  fun st =>
    if negb (truthy to) then (st, Return tt)
    else if mailerFails w then (st, Return tt)
    else ({| db := db st;
             outbox := (outbox st ++ [{| e_to := to; e_subject := subject |}])%list |},
          Return tt).

(* ------------------------------------------------------------------ *)
(** *** POST /api/complaints *)

(** The JSON body of the request.  The description is any JSON value.  The
    other properties are at the types the client sends: texts for the user
    id, the category and the photo, numbers for the coordinates; [None] for
    a property that is absent or [null]. *)
Record Request := {
  r_userId : option string;
  r_category : option string;
  r_description : JsValue;
  r_photoUrl : option string;
  r_latitude : option float;
  r_longitude : option float
}.

Inductive Response :=
| Res400 (error : string)
| Res409 (error : string) (duplicateOf : string * string)
| Res422 (error reason : string)
| Res201 (created : ComplaintRow)
| Res500 (error details : string).

Definition statusCode (r : Response) : nat :=
  match r with
  | Res400 _ => 400
  | Res409 _ _ => 409
  | Res422 _ _ => 422
  | Res201 _ => 201
  | Res500 _ _ => 500
  end.

Definition orEmpty (v : option string) : string :=
  match v with Some s => s | None => EmptyString end.

Definition present (v : option string) : bool := truthy (orEmpty v).

Definition msgAiGenerated : string :=
  "Uploaded image appears AI-generated. Please upload a real issue photo.".
Definition msgDuplicate : string :=
  "Problem already reported and not resolved yet.".
Definition msgSpam : string :=
  "Upload flagged as spam. Please provide a valid civic issue report.".

(** The duplicate test of the handler:
    [isDuplicate && duplicateAgainst && !isResolvedStatus(duplicateAgainst.status)]. *)
Definition openDuplicate (m : ImageModerationResult) : option (string * string) :=
  if isDuplicate m then
    match duplicateAgainst m with
    | Some (id, status) =>
        if negb (isResolvedStatus status) then Some (id, status) else None
    | None => None
    end
  else None.

(** The category kept for the complaint. *)
Definition finalCategory (m : ImageModerationResult) (category : string) : string :=
  if Num.ge (classificationConfidence m) 0.6
  then classifiedCategory m
  else normalizeCategory category.

Definition nameOf (officer : option OfficerRow) : option string :=
  option_map o_name officer.

(** The body of the handler's [try] block. *)
Definition createComplaint (w : World) (id userId category description
    rawPhotoUrl : string) (lat lon : float) (m : ImageModerationResult)
    (classified priority : string) : IO Response :=
  let loc :=
    match reverseGeocode w lat lon with
    | Some l => l
    | None => fallbackLocation
    end in
  let ward := mapToAmravatiWard lat lon (Some (ward loc)) in
  let division := mapWardToDivision ward in
  d <- getDb ;;
  let officer := pickOfficerForWardOrDivision d ward division in
  match officer with
  | Some o =>
      if present (o_email o)
      then sendOfficerEmail w (orEmpty (o_email o)) "New Complaint Assigned"
      else ret tt
  | None => ret tt
  end ;;;
  let assignedOfficerId := option_map o_id officer in
  let assignedOfficerName := nameOf officer in
  let workerName := assignedOfficerName in
  let status := if present assignedOfficerName then "In Progress" else "Submitted" in
  let department :=
    match officer with
    | Some o => match o_department o with Some d => d | None => category end
    | None => category
    end in
  (if present assignedOfficerName
   then notifyAdminAssignment w 1 id (orEmpty assignedOfficerName) classified ward
   else ret tt) ;;;
  let row :=
    {| c_id := id; c_userId := userId; c_category := classified;
       c_description := description; c_photoUrl := rawPhotoUrl;
       c_latitude := lat; c_longitude := lon;
       c_priority := priority; c_status := status;
       c_workerName := workerName;
       c_area := area loc; c_city := l_city loc; c_state := l_state loc;
       c_fullAddress := fullAddress loc;
       c_ward := ward; c_division := division;
       c_department := department;
       c_assignedOfficerId := assignedOfficerId;
       c_assignedOfficerName := assignedOfficerName;
       c_imageHash := imageHash m;
       c_model := model m;
       c_aiGeneratedFlag := isLikelyAiGenerated m;
       c_spamFlag := isSpam m;
       c_duplicateFlag := isDuplicate m;
       c_classifiedCategory := classified;
       c_classificationConfidence := classificationConfidence m;
       c_createdAt := now w |} in
  insertComplaint w row ;;;
  ret (Res201 row).

(** The handler of [POST /api/complaints].  [assignPriority] is called on
    the description as it came, before the [try] block: on a description
    that is not a string (it is truthy, having passed the first test)
    [(description || ...).toLowerCase()] raises a [TypeError] that nothing
    catches, and the handler ends without a response.  The outcome [Throw]
    of the handler stands for that. *)
Definition postComplaint (w : World) (req : Request) : IO Response :=
  if negb (present (r_userId req) && present (r_category req) &&
           isTruthy (r_description req))
  then ret (Res400 "Missing required fields")
  else
    match r_latitude req, r_longitude req with
    | Some lat, Some lon =>
        let userId := orEmpty (r_userId req) in
        let category := orEmpty (r_category req) in
        let id := uid w 0 "CMP" in
        let rawPhotoUrl := trim (orEmpty (r_photoUrl req)) in
        d <- getDb ;;
        let moderation :=
          runImageModeration w d userId rawPhotoUrl
            (ToString w (r_description req)) category in
        if isLikelyAiGenerated moderation then
          ret (Res422 msgAiGenerated
                 (orElse (aiGeneratedReason moderation)
                         "Image authenticity check failed."))
        else
          match openDuplicate moderation with
          | Some dup => ret (Res409 msgDuplicate dup)
          | None =>
              if isSpam moderation then
                ret (Res422 msgSpam
                       (orElse (spamReason moderation) "Spam signal detected."))
              else
                let classified := finalCategory moderation category in
                match r_description req with
                | JStr description =>
                    let priority := assignPriority classified description in
                    tryCatch
                      (createComplaint w id userId category description
                         rawPhotoUrl lat lon moderation classified priority)
                      (fun e => ret (Res500 "Failed to create complaint" e))
                | _ => throw "TypeError"
                end
          end
    | _, _ => ret (Res400 "Missing location")
    end.

(* ------------------------------------------------------------------ *)
(** *** The other complaint routes *)

(** [UPDATE complaints SET status = ?] on one row *)
Definition setStatus (status : string) (r : ComplaintRow) : ComplaintRow :=
  {| c_id := c_id r; c_userId := c_userId r; c_category := c_category r;
     c_description := c_description r; c_photoUrl := c_photoUrl r;
     c_latitude := c_latitude r; c_longitude := c_longitude r;
     c_priority := c_priority r; c_status := status;
     c_workerName := c_workerName r;
     c_area := c_area r; c_city := c_city r; c_state := c_state r;
     c_fullAddress := c_fullAddress r; c_ward := c_ward r;
     c_division := c_division r; c_department := c_department r;
     c_assignedOfficerId := c_assignedOfficerId r;
     c_assignedOfficerName := c_assignedOfficerName r;
     c_imageHash := c_imageHash r; c_model := c_model r;
     c_aiGeneratedFlag := c_aiGeneratedFlag r; c_spamFlag := c_spamFlag r;
     c_duplicateFlag := c_duplicateFlag r;
     c_classifiedCategory := c_classifiedCategory r;
     c_classificationConfidence := c_classificationConfidence r;
     c_createdAt := c_createdAt r |}.

(** [UPDATE complaints SET workerName = ?] on one row *)
Definition setWorkerName (name : string) (r : ComplaintRow) : ComplaintRow :=
  {| c_id := c_id r; c_userId := c_userId r; c_category := c_category r;
     c_description := c_description r; c_photoUrl := c_photoUrl r;
     c_latitude := c_latitude r; c_longitude := c_longitude r;
     c_priority := c_priority r; c_status := c_status r;
     c_workerName := Some name;
     c_area := c_area r; c_city := c_city r; c_state := c_state r;
     c_fullAddress := c_fullAddress r; c_ward := c_ward r;
     c_division := c_division r; c_department := c_department r;
     c_assignedOfficerId := c_assignedOfficerId r;
     c_assignedOfficerName := c_assignedOfficerName r;
     c_imageHash := c_imageHash r; c_model := c_model r;
     c_aiGeneratedFlag := c_aiGeneratedFlag r; c_spamFlag := c_spamFlag r;
     c_duplicateFlag := c_duplicateFlag r;
     c_classifiedCategory := c_classifiedCategory r;
     c_classificationConfidence := c_classificationConfidence r;
     c_createdAt := c_createdAt r |}.

Definition idIs (id : string) (r : ComplaintRow) : bool := String.eqb (c_id r) id.

(** [SELECT * FROM complaints WHERE id = ?] *)
Definition selectComplaint (d : Database) (id : string) : option ComplaintRow :=
  find (idIs id) (complaints d).

(** [UPDATE complaints SET ... WHERE id = ?]; updates and deletes are taken
    not to raise. *)
Definition updateComplaint (id : string) (change : ComplaintRow -> ComplaintRow)
  : IO unit :=
  fun st =>
    ({| db := {| complaints :=
                   map (fun r => if idIs id r then change r else r)
                       (complaints (db st));
                 notifications := notifications (db st);
                 officers := officers (db st) |};
        outbox := outbox st |}, Return tt).

(** The answers of the routes below. *)
Inductive Reply :=
| Success                              (* [{ success: true }] *)
| SuccessStatus (status : string)      (* [{ success: true, status }] *)
| UpdatedRows (rows : nat)             (* [{ success: true, updatedRows }] *)
| Failure (code : nat) (error : string).

(** [notifyAdminResolved(complaintId, workerName)]; [random6] is the six
    digits of [Math.floor(100000 + Math.random() * 900000)]. *)
Definition notifyAdminResolved (w : World) (random6 : string)
    (complaintId workerName : string) : IO unit :=
  let id := "NTF" ++ "-" ++ random6 in
  let msg := "Complaint " ++ complaintId ++ " marked resolved by " ++ workerName ++
             ". Awaiting admin approval." in
  insertNotification w
    {| n_id := id; n_complaintId := complaintId; n_type := "RESOLVED_PENDING";
       n_message := msg; n_isRead := false |}.

(** [a || b || "Worker"] *)
Definition firstName (a b : option string) : string :=
  firstTruthy [a; b] "Worker".

(** The handler of [PATCH /api/complaints/:id]. *)
Definition patchComplaint (w : World) (random6 : string) (id : string)
    (status workerName : option string) : IO Reply :=
  tryCatch
    (d <- getDb ;;
     match selectComplaint d id with
     | None => ret (Failure 404 "Complaint not found")
     | Some existing =>
         (if present status && present workerName then
            updateComplaint id
              (fun r => setWorkerName (orEmpty workerName)
                          (setStatus (orEmpty status) r))
          else if present status then
            updateComplaint id (setStatus (orEmpty status))
          else if present workerName then
            updateComplaint id (setWorkerName (orEmpty workerName))
          else ret tt) ;;;
         (if String.eqb (orEmpty status) "Resolved" then
            updateComplaint id (setStatus "Resolved (Pending Admin)") ;;;
            (if negb (String.eqb (c_status existing) "Resolved (Pending Admin)")
             then notifyAdminResolved w random6 id
                    (firstName workerName (c_workerName existing))
             else ret tt)
          else ret tt) ;;;
         ret Success
     end)
    (fun _ => ret (Failure 500 "Failed to update complaint")).

(** The handler of [DELETE /api/complaints/:id]. *)
Definition deleteComplaint (rawId : string) : IO Reply :=
  fun st =>
    let id := trim rawId in
    let changes := List.length (filter (idIs id) (complaints (db st))) in
    let st' :=
      {| db := {| complaints :=
                    filter (fun r => negb (idIs id r)) (complaints (db st));
                  notifications := notifications (db st);
                  officers := officers (db st) |};
         outbox := outbox st |} in
    if (0 <? changes)%nat then (st', Return Success)
    else (st', Return (Failure 404 "Complaint not found")).

(** The handler of [PATCH /api/admin/notifications/:id/read]. *)
Definition markNotificationRead (id : string) : IO Reply :=
  fun st =>
    let hit := fun n => String.eqb (n_id n) id in
    ({| db := {| complaints := complaints (db st);
                 notifications :=
                   map (fun n =>
                          if hit n
                          then {| n_id := n_id n; n_complaintId := n_complaintId n;
                                  n_type := n_type n; n_message := n_message n;
                                  n_isRead := true |}
                          else n)
                       (notifications (db st));
                 officers := officers (db st) |};
        outbox := outbox st |},
     Return (UpdatedRows (List.length (filter hit (notifications (db st)))))).

(** The handler of [POST /api/admin/complaints/:id/decision]. *)
Definition adminDecision (id : string) (decision : option string) : IO Reply :=
  d <- getDb ;;
  match selectComplaint d id with
  | None => ret (Failure 404 "Complaint not found")
  | Some _ =>
      if String.eqb (orEmpty decision) "approve" then
        updateComplaint id (setStatus "Closed") ;;;
        ret (SuccessStatus "Closed")
      else if String.eqb (orEmpty decision) "reject" then
        updateComplaint id (setStatus "In Progress") ;;;
        ret (SuccessStatus "In Progress")
      else ret (Failure 400 "Invalid decision")
  end.

(** [ORDER BY createdAt DESC]: insertion into a list kept newest first. *)
Fixpoint insertNewestFirst (r : ComplaintRow) (rows : list ComplaintRow)
  : list ComplaintRow :=
  match rows with
  | [] => [r]
  | x :: rest =>
      if (c_createdAt x <? c_createdAt r)%Z then r :: x :: rest
      else x :: insertNewestFirst r rest
  end.

Definition newestFirst (rows : list ComplaintRow) : list ComplaintRow :=
  fold_right insertNewestFirst [] rows.

Definition optionIs (v : option string) (s : string) : bool :=
  match v with
  | Some x => String.eqb x s
  | None => false
  end.

(** The rows answered by [GET /api/complaints]. *)
Definition listComplaints (queryUserId queryWorkerName : option string)
    (d : Database) : list ComplaintRow :=
  let userId := trim (orEmpty queryUserId) in
  let workerName := trim (orEmpty queryWorkerName) in
  if truthy userId then
    newestFirst (filter (fun r => String.eqb (c_userId r) userId) (complaints d))
  else if truthy workerName then
    newestFirst
      (filter (fun r => optionIs (c_workerName r) workerName ||
                        optionIs (c_assignedOfficerName r) workerName)
              (complaints d))
  else newestFirst (complaints d).

(** [ISSUE_CATEGORIES] *)
Definition ISSUE_CATEGORIES : list string :=
  ["Garbage"; "Road"; "Water"; "Streetlight"; "Other"].

(* ------------------------------------------------------------------ *)
(** *** The account routes *)

Record UserRow := {
  u_id : string;
  u_name : string;
  u_email : string;
  u_password : string;
  u_role : string
}.

Inductive AuthReply :=
| Registered (id name email role : string)     (* 201 *)
| LoggedIn (id name email role : string)       (* 200 *)
| AuthFailure (code : nat) (error : string).

(** The handler of [POST /api/auth/signup] on the users table; the insert
    raises on a taken [id] or a taken [email]. *)
Definition signup (w : World) (name email password role : option string)
    (users : list UserRow) : list UserRow * AuthReply :=
  if negb (present name && present email && present password)
  then (users, AuthFailure 400 "Missing fields")
  else
    let safeRole :=
      if optionIs role "worker" || optionIs role "citizen"
      then orEmpty role else "citizen" in
    let id := uid w 0 "USR" in
    if existsb (fun u => String.eqb (u_id u) id ||
                         String.eqb (u_email u) (orEmpty email)) users
    then (users, AuthFailure 400 "Email already exists")
    else ((users ++ [{| u_id := id; u_name := orEmpty name;
                        u_email := orEmpty email;
                        u_password := orEmpty password;
                        u_role := safeRole |}])%list,
          Registered id (orEmpty name) (orEmpty email) safeRole).

(** The handler of [POST /api/auth/login]. *)
Definition login (email password role : option string) (users : list UserRow)
  : AuthReply :=
  if negb (present email && present password && present role)
  then AuthFailure 400 "Missing credentials"
  else
    match find (fun u => String.eqb (u_email u) (orEmpty email) &&
                         String.eqb (u_password u) (orEmpty password)) users with
    | None => AuthFailure 401 "Invalid credentials"
    | Some user =>
        if negb (String.eqb (u_role user) (orEmpty role))
        then AuthFailure 403 "Invalid credentials or unauthorized role"
        else LoggedIn (u_id user) (u_name user) (u_email user) (u_role user)
    end.

(* ================================================================== *)
(** * Vocabulary of the statements *)
(* ================================================================== *)

(** ** Priority rules *)

Module Priority.

(** The high-priority rules, read on the lower-cased description. *)
Definition HighRule (category description : string) : Prop :=
  let d := toLowerCase description in
  (category = "Water" /\
     (Occurs "leak" d \/ Occurs "burst" d \/ Occurs "overflow" d)) \/
  (category = "Road" /\
     (Occurs "accident" d \/ Occurs "pothole" d \/ Occurs "big" d)) \/
  (category = "Garbage" /\
     (Occurs "overflow" d \/ Occurs "too much" d)).

(** The low-priority rule. *)
Definition LowRule (description : string) : Prop :=
  exists k, In k ["minor"; "small"; "request"; "info"] /\
            Occurs k (toLowerCase description).

Definition highb (category desc : string) : bool :=
  String.eqb category "Water" &&
    (includes desc "leak" || includes desc "burst" || includes desc "overflow")
  || String.eqb category "Road" &&
    (includes desc "accident" || includes desc "pothole" || includes desc "big")
  || String.eqb category "Garbage" &&
    (includes desc "overflow" || includes desc "too much").

Definition lowb (desc : string) : bool :=
  existsb (fun k => includes desc k) ["minor"; "small"; "request"; "info"].

End Priority.

(** ** The handler on one request *)

Section Terms.

Variable w : World.

(** The request passes the two validation tests. *)
Definition Validated (req : Request) (lat lon : float) : Prop :=
  present (r_userId req) = true /\ present (r_category req) = true /\
  isTruthy (r_description req) = true /\
  r_latitude req = Some lat /\ r_longitude req = Some lon.

(** The request passes the two validation tests and its description is a
    text. *)
Definition WellFormed (req : Request) (lat lon : float) : Prop :=
  present (r_userId req) = true /\ present (r_category req) = true /\
  isText (r_description req) = true /\
  r_latitude req = Some lat /\ r_longitude req = Some lon.

(** The moderation result the handler computes for a request. *)
Definition moderationOf (req : Request) (st : Store) : ImageModerationResult :=
  runImageModeration w (db st) (orEmpty (r_userId req))
    (trim (orEmpty (r_photoUrl req))) (ToString w (r_description req))
    (orEmpty (r_category req)).

(** The three rejection tests all fail. *)
Definition Accepted (req : Request) (st : Store) : Prop :=
  isLikelyAiGenerated (moderationOf req st) = false /\
  openDuplicate (moderationOf req st) = None /\
  isSpam (moderationOf req st) = false.

Definition locationOf (lat lon : float) : GeocodeResult :=
  match reverseGeocode w lat lon with
  | Some l => l
  | None => fallbackLocation
  end.

Definition wardOf (lat lon : float) : string :=
  mapToAmravatiWard lat lon (Some (ward (locationOf lat lon))).

Definition officerOf (st : Store) (lat lon : float) : option OfficerRow :=
  pickOfficerForWardOrDivision (db st) (wardOf lat lon)
    (mapWardToDivision (wardOf lat lon)).

(** The row the handler inserts for an accepted request. *)
Definition rowOf (req : Request) (st : Store) (lat lon : float) : ComplaintRow :=
  let m := moderationOf req st in
  let category := orEmpty (r_category req) in
  let classified := finalCategory m category in
  let loc := locationOf lat lon in
  let officer := officerOf st lat lon in
  {| c_id := uid w 0 "CMP"; c_userId := orEmpty (r_userId req);
     c_category := classified;
     c_description := ToString w (r_description req);
     c_photoUrl := trim (orEmpty (r_photoUrl req));
     c_latitude := lat; c_longitude := lon;
     c_priority := assignPriority classified (ToString w (r_description req));
     c_status := if present (nameOf officer) then "In Progress" else "Submitted";
     c_workerName := nameOf officer;
     c_area := area loc; c_city := l_city loc; c_state := l_state loc;
     c_fullAddress := fullAddress loc;
     c_ward := wardOf lat lon; c_division := mapWardToDivision (wardOf lat lon);
     c_department :=
       match officer with
       | Some o => match o_department o with Some d => d | None => category end
       | None => category
       end;
     c_assignedOfficerId := option_map o_id officer;
     c_assignedOfficerName := nameOf officer;
     c_imageHash := imageHash m;
     c_model := model m;
     c_aiGeneratedFlag := isLikelyAiGenerated m;
     c_spamFlag := isSpam m;
     c_duplicateFlag := isDuplicate m;
     c_classifiedCategory := classified;
     c_classificationConfidence := classificationConfidence m;
     c_createdAt := now w |}.

(** The notification written when an officer is assigned. *)
Definition noticeOf (req : Request) (st : Store) (lat lon : float) : NotificationRow :=
  let m := moderationOf req st in
  {| n_id := uid w 1 "NTF"; n_complaintId := uid w 0 "CMP"; n_type := "ASSIGNED";
     n_message :=
       "Complaint " ++ uid w 0 "CMP" ++ " auto-assigned to " ++
       orEmpty (nameOf (officerOf st lat lon)) ++
       " (" ++ finalCategory m (orEmpty (r_category req)) ++ ") in " ++
       wardOf lat lon ++ ".";
     n_isRead := false |}.

(** The [try] block as the handler runs it on a request. *)
Definition tryBlock (req : Request) (lat lon : float) : IO Response :=
  fun st =>
    let m := moderationOf req st in
    let classified := finalCategory m (orEmpty (r_category req)) in
    createComplaint w (uid w 0 "CMP") (orEmpty (r_userId req))
      (orEmpty (r_category req)) (ToString w (r_description req))
      (trim (orEmpty (r_photoUrl req))) lat lon m classified
      (assignPriority classified (ToString w (r_description req))) st.

(** The state after the officer's e-mail. *)
Definition afterEmail (st : Store) (lat lon : float) : Store :=
  match officerOf st lat lon with
  | Some o =>
      if present (o_email o)
      then fst (sendOfficerEmail w (orEmpty (o_email o)) "New Complaint Assigned" st)
      else st
  | None => st
  end.

(** The notifications after the notification step has succeeded. *)
Definition noticesAfter (req : Request) (st : Store) (lat lon : float)
  : list NotificationRow :=
  if present (nameOf (officerOf st lat lon))
  then (notifications (db st) ++ [noticeOf req st lat lon])%list
  else notifications (db st).

(** The geocoder lookup fails: network error, status outside 2xx, or a body
    that is not a JSON document with properties. *)
Definition GeocodeFails : Prop :=
  geocodeReply w = FetchRejects \/
  (exists body, geocodeReply w = FetchResponse false body) \/
  geocodeReply w = FetchResponse true BodyInvalid \/
  geocodeReply w = FetchResponse true BodyNull.

(** The store raises on neither insert: no fault, and both fresh ids are
    unused. *)
Definition StoreAccepts (st : Store) : Prop :=
  storeFault w Complaints = None /\ storeFault w Notifications = None /\
  existsb (fun r => String.eqb (c_id r) (uid w 0 "CMP")) (complaints (db st)) = false /\
  existsb (fun n => String.eqb (n_id n) (uid w 1 "NTF")) (notifications (db st)) = false.

Definition knownWards : list string :=
  ["Amravati Ward – Pushpak Colony Zone"; "Amravati Ward – Rajapeth Zone";
   "Amravati Ward – Panchvati Zone"; "Amravati Ward – Old City Zone";
   "Amravati Ward – Unassigned"].

(** The sentence added to the spam reason for a stale duplicate. *)
Definition staleReason (id : string) : string :=
  "Same image was previously reported and resolved (Complaint " ++ id ++ ").".

End Terms.

(** ** Zones *)

Module Routing.

(** The coordinates lie in one of the four zone rectangles. *)
Definition inAnyZone (lat lon : float) : bool :=
  inPushpak lat lon || inRajapeth lat lon || inPanchvati lat lon ||
  inOldCity lat lon.

End Routing.

(** ** Concrete stores, worlds and requests *)

Module Demo.

(** The officers seeded at start-up. *)
Definition seededOfficers : list OfficerRow :=
  [ {| o_id := "OFF-001"; o_name := "Rohit Patil";
       o_email := Some "adhalhari2@gmail.com";
       o_ward := "Amravati Ward – Pushpak Colony Zone";
       o_division := "Zone-1"; o_department := Some "Sanitation" |};
    {| o_id := "OFF-002"; o_name := "Ayesha Khan";
       o_email := Some "adhalhari2@gmail.com";
       o_ward := "Amravati Ward – Rajapeth Zone";
       o_division := "Zone-2"; o_department := Some "Road" |};
    {| o_id := "OFF-003"; o_name := "Suresh Jadhav";
       o_email := Some "adhalhari2@gmail.com";
       o_ward := "Amravati Ward – Panchvati Zone";
       o_division := "Zone-3"; o_department := Some "Water" |};
    {| o_id := "OFF-004"; o_name := "Neha Deshmukh";
       o_email := Some "adhalhari2@gmail.com";
       o_ward := "Amravati Ward – Old City Zone";
       o_division := "Zone-4"; o_department := Some "Streetlight" |} ].

Definition freshStore : Store :=
  {| db := {| complaints := []; notifications := [];
              officers := seededOfficers |};
     outbox := [] |}.

(** No vision key, an unreachable geocoder, a healthy store. *)
Definition offline : World :=
  {| GEMINI_API_KEY := None;
     geminiReply := GeminiThrows;
     StringToNumber := fun _ => PrimFloat.nan;
     NumberToString := fun _ => "NaN";
     geocodeReply := FetchRejects;
     mailerFails := false;
     randomHex := fun call => match call with O => "0a1b2c3d" | _ => "4e5f6a7b" end;
     now := 1700000000;
     storeFault := fun _ => None |}.

Definition withGeocoder (w : World) (reply : FetchReply) : World :=
  {| GEMINI_API_KEY := GEMINI_API_KEY w; geminiReply := geminiReply w;
     StringToNumber := StringToNumber w; NumberToString := NumberToString w;
     geocodeReply := reply; mailerFails := mailerFails w;
     randomHex := randomHex w; now := now w; storeFault := storeFault w |}.

Definition withGemini (w : World) (reply : GeminiReply) : World :=
  {| GEMINI_API_KEY := Some "key"; geminiReply := reply;
     StringToNumber := StringToNumber w; NumberToString := NumberToString w;
     geocodeReply := geocodeReply w; mailerFails := mailerFails w;
     randomHex := randomHex w; now := now w; storeFault := storeFault w |}.

Definition withFault (w : World) (fault : Table -> option string) : World :=
  {| GEMINI_API_KEY := GEMINI_API_KEY w; geminiReply := geminiReply w;
     StringToNumber := StringToNumber w; NumberToString := NumberToString w;
     geocodeReply := geocodeReply w; mailerFails := mailerFails w;
     randomHex := randomHex w; now := now w; storeFault := fault |}.

Definition submission (category description photo : string) (lat lon : float)
  : Request :=
  {| r_userId := Some "USR-1"; r_category := Some category;
     r_description := JStr description;
     r_photoUrl := if isEmpty photo then None else Some photo;
     r_latitude := Some lat; r_longitude := Some lon |}.

(** A burst pipe reported from inside the Pushpak Colony rectangle. *)
Definition burstPipe : Request :=
  submission "Water" "Major pipe burst flooding the street" EmptyString
    20.88 77.74.

Definition suburbReply (name : string) : FetchReply :=
  FetchResponse true
    (BodyData (Some {| suburb := Some name; neighbourhood := None;
                       village := None; town := None; city_district := None;
                       district := None; municipality := None; county := None;
                       state_district := None; city := Some "Amravati";
                       state := Some "Maharashtra" |})
              (Some (name ++ ", Amravati, Maharashtra, India"))).

End Demo.

Module Stale.

Definition photo : string := "data:image/png;base64,QUJD".

Definition fingerprint : string := Eval vm_compute in SHA256.sha256Hex "QUJD".

(** The store after the burst pipe was reported with [photo] and closed. *)
Definition closedEarlier : Store :=
  {| db := {| complaints :=
                [ {| c_id := "CMP-11111111"; c_userId := "USR-2";
                     c_category := "Water";
                     c_description := "Major pipe burst flooding the street";
                     c_photoUrl := photo;
                     c_latitude := 20.88; c_longitude := 77.74;
                     c_priority := "High"; c_status := "Closed";
                     c_workerName := Some "Rohit Patil";
                     c_area := "Unknown"; c_city := "Amravati";
                     c_state := "Maharashtra"; c_fullAddress := "Unknown";
                     c_ward := "Amravati Ward – Pushpak Colony Zone";
                     c_division := "Zone-1"; c_department := "Sanitation";
                     c_assignedOfficerId := Some "OFF-001";
                     c_assignedOfficerName := Some "Rohit Patil";
                     c_imageHash := Some fingerprint;
                     c_model := "heuristic";
                     c_aiGeneratedFlag := false; c_spamFlag := false;
                     c_duplicateFlag := false;
                     c_classifiedCategory := "Water";
                     c_classificationConfidence := 0.75;
                     c_createdAt := 1690000000 |} ];
              notifications := []; officers := Demo.seededOfficers |};
     outbox := [] |}.

Definition again : Request :=
  Demo.submission "Water" "Pipe burst again at the same corner" photo 20.88 77.74.

End Stale.

Module Degraded.

(** A reply of the vision model without a confidence. *)
Definition reply : GeminiDoc :=
  {| d_isLikelyAiGenerated := JBool false; d_aiGeneratedReason := JStr EmptyString;
     d_isSpam := JBool false; d_spamReason := JStr EmptyString;
     d_problemCategory := JStr "Road"; d_categoryConfidence := JUndefined |}.

Definition world : World := Demo.withGemini Demo.offline (GeminiJson reply).

Definition request : Request :=
  Demo.submission "Water" "Something is wrong near the old bridge"
    "data:image/jpeg;base64,QUJD" 20.88 77.74.

End Degraded.

Module LowConfidence.

(** A reply of the vision model that guesses Road with confidence 0.3. *)
Definition reply : GeminiDoc :=
  {| d_isLikelyAiGenerated := JBool false; d_aiGeneratedReason := JStr EmptyString;
     d_isSpam := JBool false; d_spamReason := JStr EmptyString;
     d_problemCategory := JStr "Road"; d_categoryConfidence := JNum 0.3 |}.

Definition world : World := Demo.withGemini Demo.offline (GeminiJson reply).

(** The citizen's category in lower case with a space after it. *)
Definition request : Request :=
  Demo.submission "water " "Something is wrong near the old bridge"
    "data:image/jpeg;base64,QUJD" 20.88 77.74.

End LowConfidence.

Module NullConfidence.

(** A reply of the vision model with [null] for the confidence. *)
Definition reply : GeminiDoc :=
  {| d_isLikelyAiGenerated := JBool false; d_aiGeneratedReason := JStr EmptyString;
     d_isSpam := JBool false; d_spamReason := JStr EmptyString;
     d_problemCategory := JStr "Road"; d_categoryConfidence := JNull |}.

Definition world : World := Demo.withGemini Demo.offline (GeminiJson reply).

End NullConfidence.

Module Unrouted.

(** A pothole filed under Garbage from between the zone rectangles. *)
Definition request : Request :=
  Demo.submission "Garbage" "Deep pothole on the main road" EmptyString
    20.895 77.75.

End Unrouted.

Module RawDescription.

(** A request whose description is the JSON object [{}]. *)
Definition request : Request :=
  {| r_userId := Some "USR-1"; r_category := Some "Road";
     r_description := JObject "[object Object]";
     r_photoUrl := None;
     r_latitude := Some 20.88%float; r_longitude := Some 77.74%float |}.

End RawDescription.

(** ** Base64 *)

Module Base64.

(** The six bits a character of the base64 alphabet stands for. *)
Definition sextet (c : ascii) : option N :=
  if isUpper c then Some (code c - 65)%N
  else if isLower c then Some (code c - 71)%N
  else if isDigit c then Some (code c + 4)%N
  else if Ascii.eqb c "+" then Some 62%N
  else if Ascii.eqb c "/" then Some 63%N
  else None.

(** The data characters up to the padding; line breaks are skipped. *)
Fixpoint sextets (s : string) : list N :=
  match s with
  | EmptyString => []
  | String c r =>
      if Ascii.eqb c "=" then []
      else match sextet c with
           | Some v => v :: sextets r
           | None => sextets r
           end
  end.

(** Four sextets give three bytes; a last group of three gives two bytes and
    a last group of two gives one. *)
Fixpoint bytes (l : list N) : list N :=
  (match l with
   | a :: b :: c :: d :: rest =>
       (a * 4 + b / 16) :: ((b mod 16) * 16 + c / 4) :: ((c mod 4) * 64 + d)
       :: bytes rest
   | [a; b; c] => [a * 4 + b / 16; (b mod 16) * 16 + c / 4]
   | [a; b] => [a * 4 + b / 16]
   | _ => []
   end)%N.

(** The binary content a base64 text denotes. *)
Definition decode (s : string) : list N := bytes (sextets s).

End Base64.

(** The decoded binary content of an image data URL. *)
Definition decodedContent (payload : string) : option (list N) :=
  option_map (fun p => Base64.decode (data p)) (parseImageDataUrl payload).

(** ** Text classification *)

Module Vocabulary.

Definition garbage : list string := ["garbage"; "trash"; "waste"; "dump"; "bin"].
Definition road : list string :=
  ["pothole"; "road"; "asphalt"; "traffic"; "street crack"].
Definition water : list string :=
  ["water"; "pipe"; "leak"; "sewage"; "drain"; "overflow"].
Definition streetlight : list string :=
  ["streetlight"; "street light"; "lamp"; "dark street"; "light pole"].

(** The lower-cased description mentions one of the words. *)
Definition Mentions (words : list string) (description : string) : Prop :=
  exists k, In k words /\ Occurs k (toLowerCase description).

End Vocabulary.

(** The characters of a digest in hexadecimal. *)
Definition isHexChar (c : ascii) : bool := isDigit c || between 97 102 c.

(** ** Ranges of the stored columns *)

Definition PRIORITIES : list string := ["High"; "Medium"; "Low"].
Definition DIVISIONS : list string :=
  ["Zone-1"; "Zone-2"; "Zone-3"; "Zone-4"; "Zone-Unmapped"].
Definition wardPrefix : string := "Amravati Ward – ".

(** The world with another mailer. *)
Definition withMailer (w : World) (fails : bool) : World :=
  {| GEMINI_API_KEY := GEMINI_API_KEY w; geminiReply := geminiReply w;
     StringToNumber := StringToNumber w; NumberToString := NumberToString w;
     geocodeReply := geocodeReply w; mailerFails := fails;
     randomHex := randomHex w; now := now w; storeFault := storeFault w |}.

(** ** The net effect of a PATCH on one row *)

Definition pendingAdmin : string := "Resolved (Pending Admin)".

Definition patched (status workerName : option string) (r : ComplaintRow)
  : ComplaintRow :=
  let r1 :=
    if present workerName then setWorkerName (orEmpty workerName) r else r in
  if String.eqb (orEmpty status) "Resolved" then setStatus pendingAdmin r1
  else if present status then setStatus (orEmpty status) r1
  else r1.

(** The change made to the rows with the given id. *)
Definition onRow (id : string) (change : ComplaintRow -> ComplaintRow)
    (r : ComplaintRow) : ComplaintRow :=
  if idIs id r then change r else r.

(** The notification written when a worker resolves a complaint. *)
Definition resolvedNotice (random6 id worker : string) : NotificationRow :=
  {| n_id := "NTF-" ++ random6; n_complaintId := id;
     n_type := "RESOLVED_PENDING";
     n_message := "Complaint " ++ id ++ " marked resolved by " ++ worker ++
                  ". Awaiting admin approval.";
     n_isRead := false |}.

(** The rows with the fingerprint are the rows with the id, and there is
    one. *)
Definition FingerprintOf (h id : string) (st : Store) : Prop :=
  (exists r, In r (complaints (db st)) /\ c_id r = id) /\
  forall r, In r (complaints (db st)) ->
            (c_imageHash r = Some h <-> c_id r = id).

(** ** Listings *)

(** The rows a [GET /api/complaints] query may see. *)
Definition visibleTo (queryUserId queryWorkerName : option string)
    (r : ComplaintRow) : bool :=
  let userId := trim (orEmpty queryUserId) in
  let workerName := trim (orEmpty queryWorkerName) in
  if truthy userId then String.eqb (c_userId r) userId
  else if truthy workerName then
    optionIs (c_workerName r) workerName ||
    optionIs (c_assignedOfficerName r) workerName
  else true.

(** [a] is at least as new as [b]. *)
Definition notOlder (a b : ComplaintRow) : Prop :=
  (c_createdAt b <= c_createdAt a)%Z.

Definition hasId (id : string) (n : NotificationRow) : bool :=
  String.eqb (n_id n) id.

(** ** Two submissions of one photograph *)

Module Resubmit.

Definition first : Request :=
  Demo.submission "Water" "Major pipe burst flooding the street" Stale.photo
    20.88 77.74.

Definition second : Request :=
  Demo.submission "Road" "Water everywhere, please hurry"
    "data:image/jpeg;base64,QUJD" 20.92 77.75.

End Resubmit.

(** ** Image data URLs *)

(** The text [data:image/<subtype>;base64,<payload>]. *)
Definition dataUrl (subtype payload : string) : string :=
  "data:image/" ++ subtype ++ ";base64," ++ payload.

(** [data:<mimeType>;base64,<data>], built from a parsed image. *)
Definition toDataUrl (d : ImageData) : string :=
  "data:" ++ mimeType d ++ ";base64," ++ data d.

Definition allSpace (s : string) : Prop := forallChars isSpace s = true.

(** The base64 alphabet with its padding: the payload class without the
    line breaks. *)
Definition isBase64Char (c : ascii) : bool :=
  isPayloadChar c && negb (isSpace c).

(** ** Spam signals *)

Module Spam.







End Spam.

(* ================================================================== *)
(** * Properties *)
(* ================================================================== *)

(** ** The digest on the test vectors of FIPS 180-4 *)

Example sha256_abc :
  SHA256.sha256Hex "abc" =
  "ba7816bf8f01cfea414140de5dae2223b00361a396177a9cb410ff61f20015ad".
Proof. vm_compute. reflexivity. Qed.

Example sha256_two_blocks :
  SHA256.sha256Hex "abcdbcdecdefdefgefghfghighijhijkijkljklmklmnlmnomnopnopq" =
  "248d6a61d20638b8e5c026930c3e6039a33ce45964ff2167f6ecedd419db06c1".
Proof. vm_compute. reflexivity. Qed.

(** ** Strings *)

Section StringFacts.

Lemma startsWith_iff (s k : string) :
  startsWith s k = true <-> exists r, s = k ++ r.
Proof.
  revert s; induction k as [|a k IH]; intros s; simpl.
  - split; [intros _; now exists s | reflexivity].
  - destruct s as [|b s]; simpl.
    + split; [discriminate | intros [r Hr]; discriminate].
    + rewrite andb_true_iff, Ascii.eqb_eq, IH. split.
      * intros [-> [r ->]]. now exists r.
      * intros [r Hr]. injection Hr as -> ->. split; [reflexivity | now exists r].
Qed.

Lemma startsWith_app (k r : string) : startsWith (k ++ r) k = true.
Proof. apply startsWith_iff. now exists r. Qed.

Lemma includes_cons (c : ascii) (s k : string) :
  includes s k = true -> includes (String c s) k = true.
Proof. intros H. simpl. rewrite H. apply orb_true_r. Qed.

Lemma includes_iff (s k : string) : includes s k = true <-> Occurs k s.
Proof.
  split.
  - induction s as [|c s IH]; simpl; rewrite orb_true_iff; intros [H|H].
    + apply startsWith_iff in H as [r ->]. now exists EmptyString, r.
    + discriminate.
    + apply startsWith_iff in H as [r ->]. now exists EmptyString, r.
    + destruct (IH H) as (pre & post & ->). now exists (String c pre), post.
  - intros (pre & post & ->). induction pre as [|c pre IH].
    + simpl. destruct (k ++ post) eqn:E; simpl; rewrite <- E;
        rewrite startsWith_app; reflexivity.
    + simpl append. now apply includes_cons.
Qed.

Lemma includes_false_iff (s k : string) : includes s k = false <-> ~ Occurs k s.
Proof.
  rewrite <- includes_iff. destruct (includes s k); split; intros H;
    congruence || (exfalso; now apply H).
Qed.

Lemma append_assoc (a b c : string) : (a ++ b) ++ c = a ++ (b ++ c).
Proof. induction a as [|x a IH]; simpl; [reflexivity | now rewrite IH]. Qed.

Lemma append_nil_r (a : string) : a ++ EmptyString = a.
Proof. induction a as [|x a IH]; simpl; [reflexivity | now rewrite IH]. Qed.

Lemma Occurs_refl (s : string) : Occurs s s.
Proof. exists EmptyString, EmptyString. simpl. now rewrite append_nil_r. Qed.

Lemma Occurs_app_l (k s t : string) : Occurs k s -> Occurs k (s ++ t).
Proof.
  intros (pre & post & ->). exists pre, (post ++ t).
  now rewrite !append_assoc.
Qed.

Lemma Occurs_app_r (k s t : string) : Occurs k t -> Occurs k (s ++ t).
Proof.
  intros (pre & post & ->). exists (s ++ pre), post.
  now rewrite !append_assoc.
Qed.

Lemma toLowerCase_app (a b : string) :
  toLowerCase (a ++ b) = toLowerCase a ++ toLowerCase b.
Proof. induction a as [|x a IH]; simpl; [reflexivity | now rewrite IH]. Qed.

Lemma existsSuffix_here (p : string -> bool) (s : string) :
  p s = true -> existsSuffix p s = true.
Proof. intros H. destruct s; simpl; now rewrite H. Qed.

Lemma existsSuffix_app (p : string -> bool) (pre s : string) :
  p s = true -> existsSuffix p (pre ++ s) = true.
Proof.
  intros H. induction pre as [|c pre IH]; simpl append.
  - now apply existsSuffix_here.
  - simpl. rewrite IH. apply orb_true_r.
Qed.

(** An element that is not white space anchors [trimStart] and [trimEnd]. *)
Lemma trimStart_anchor (pre : string) (c : ascii) (rest : string) :
  isSpace c = false ->
  exists pre', trimStart (pre ++ String c rest) = pre' ++ String c rest.
Proof.
  intros Hc. induction pre as [|x pre IH]; simpl.
  - rewrite Hc. now exists EmptyString.
  - destruct (isSpace x).
    + exact IH.
    + now exists (String x pre).
Qed.

Lemma trimEnd_anchor (pre : string) (c : ascii) (rest : string) :
  isSpace c = false ->
  exists rest', trimEnd (pre ++ String c rest) = pre ++ String c rest'.
Proof.
  intros Hc. induction pre as [|x pre IH]; simpl.
  - rewrite Hc. simpl. now exists (trimEnd rest).
  - destruct IH as [rest' ->].
    assert (E : isEmpty (pre ++ String c rest') = false) by now destruct pre.
    rewrite E, andb_false_r. now exists rest'.
Qed.

Lemma join_Occurs (sep r : string) (parts : list string) :
  In r parts -> Occurs r (join sep parts).
Proof.
  induction parts as [|p rest IH]; [intros [] |].
  intros [-> | Hin].
  - destruct rest; simpl.
    + apply Occurs_refl.
    + apply Occurs_app_l, Occurs_refl.
  - destruct rest as [|q rest]; [destruct Hin |].
    change (join sep (p :: q :: rest)) with (p ++ sep ++ join sep (q :: rest)).
    apply Occurs_app_r, Occurs_app_r, IH, Hin.
Qed.

Lemma trimEnd_idem (s : string) : trimEnd (trimEnd s) = trimEnd s.
Proof.
  induction s as [|c s IH]; [reflexivity |].
  simpl. destruct (isSpace c && isEmpty (trimEnd s)) eqn:E; [reflexivity |].
  simpl. now rewrite IH, E.
Qed.

Lemma trimStart_fixed (s : string) :
  match s with
  | EmptyString => True
  | String c _ => isSpace c = false
  end -> trimStart s = s.
Proof. destruct s as [|c s]; simpl; [reflexivity | now intros ->]. Qed.

Lemma trimStart_head (s : string) :
  match trimStart s with
  | EmptyString => True
  | String c _ => isSpace c = false
  end.
Proof.
  induction s as [|c s IH]; simpl; [exact I |].
  destruct (isSpace c) eqn:E; [exact IH | exact E].
Qed.

Lemma trimEnd_head (s : string) :
  match s with
  | EmptyString => True
  | String c _ => isSpace c = false
  end ->
  match trimEnd s with
  | EmptyString => True
  | String c _ => isSpace c = false
  end.
Proof.
  destruct s as [|c s]; simpl; [auto |].
  intros H. rewrite H. simpl. exact H.
Qed.

(** [trim] is idempotent. *)
Lemma trim_idem (s : string) : trim (trim s) = trim s.
Proof.
  unfold trim.
  rewrite (trimStart_fixed (trimEnd (trimStart s))).
  - apply trimEnd_idem.
  - apply trimEnd_head, trimStart_head.
Qed.

(** A text whose first and last characters are not white space survives
    [trim] wherever it occurs. *)
Lemma trim_Occurs (k : string) (c1 c2 : ascii) (r1 r2 s : string) :
  k = String c1 r1 -> k = r2 ++ String c2 EmptyString ->
  isSpace c1 = false -> isSpace c2 = false ->
  Occurs k s -> Occurs k (trim s).
Proof.
  intros E1 E2 H1 H2 (pre & post & ->). unfold trim.
  destruct (trimStart_anchor pre c1 (r1 ++ post) H1) as [pre' Hs].
  change (String c1 (r1 ++ post)) with (String c1 r1 ++ post) in Hs.
  rewrite <- E1 in Hs. rewrite Hs.
  destruct (trimEnd_anchor (pre' ++ r2) c2 post H2) as [post' He].
  assert (Ek : forall t, pre' ++ k ++ t = (pre' ++ r2) ++ String c2 t).
  { intros t. rewrite E2 at 1. now rewrite !append_assoc. }
  rewrite (Ek post), He, <- (Ek post'). now exists pre', post'.
Qed.

Lemma letter_not_space (c : ascii) : isLetter c = true -> isSpace c = false.
Proof.
  unfold isLetter, isSpace, isUpper, isLower, between.
  rewrite orb_true_iff, !andb_true_iff, !N.leb_le. intros H.
  apply orb_false_iff. split.
  - apply andb_false_iff. right. apply N.leb_gt. lia.
  - apply N.eqb_neq. lia.
Qed.

(** Lower-casing a letter gives a lower-case letter, which it leaves alone. *)
Lemma lowerChar_letter (c : ascii) :
  isLetter c = true -> isLower (lowerChar c) = true.
Proof.
  unfold isLetter, lowerChar. destruct (isUpper c) eqn:U; [| now intros H].
  intros _. unfold isUpper, between in U.
  apply andb_true_iff in U as [U1 U2]. apply N.leb_le in U1, U2.
  unfold isLower, between, code.
  rewrite N_ascii_embedding by (unfold code in *; lia).
  apply andb_true_iff. split; apply N.leb_le; unfold code in *; lia.
Qed.

Lemma toLowerCase_repeat (c : ascii) (n : nat) :
  toLowerCase (repeatChar c n) = repeatChar (lowerChar c) n.
Proof. induction n as [|n IH]; simpl; [reflexivity | now rewrite IH]. Qed.

End StringFacts.

(** ** Priority assignment *)

Module PriorityFacts.

Import Priority.

Lemma assignPriority_unfold (category description : string) :
  assignPriority category description =
  if highb category (toLowerCase description) then "High"
  else if lowb (toLowerCase description) then "Low" else "Medium".
Proof.
  unfold assignPriority, highb, lowb.
  destruct (String.eqb category "Water" && _); [reflexivity |].
  destruct (String.eqb category "Road" && _); [reflexivity |].
  destruct (String.eqb category "Garbage" && _); reflexivity.
Qed.

Lemma highb_iff (category description : string) :
  highb category (toLowerCase description) = true <-> HighRule category description.
Proof.
  unfold highb, HighRule.
  rewrite !orb_true_iff, !andb_true_iff, !orb_true_iff, !String.eqb_eq,
    !includes_iff.
  tauto.
Qed.

Lemma lowb_iff (description : string) :
  lowb (toLowerCase description) = true <-> LowRule description.
Proof.
  unfold lowb, LowRule. rewrite existsb_exists.
  split; intros (k & Hin & Hk); exists k; (split; [exact Hin |]);
    now apply includes_iff.
Qed.

End PriorityFacts.

(** C3. [assignPriority] returns High, Low and Medium on the three inputs of
    the specification, and on every input a high-priority rule wins over the
    low-priority rule, the low-priority rule decides when no high-priority
    rule fires, and Medium is returned when neither fires. *)
Theorem assignPriority_rules :
  assignPriority "Water" "major pipe burst near gate" = "High" /\
  assignPriority "Garbage" "minor smell" = "Low" /\
  assignPriority "Road" "uneven footpath" = "Medium" /\
  forall category description,
    (Priority.HighRule category description ->
       assignPriority category description = "High") /\
    (~ Priority.HighRule category description ->
       Priority.LowRule description ->
       assignPriority category description = "Low") /\
    (~ Priority.HighRule category description ->
       ~ Priority.LowRule description ->
       assignPriority category description = "Medium").
Proof.
  repeat split; try reflexivity.
  - intros H. apply PriorityFacts.highb_iff in H.
    now rewrite PriorityFacts.assignPriority_unfold, H.
  - intros Hh Hl. rewrite PriorityFacts.assignPriority_unfold.
    destruct (Priority.highb _ _) eqn:E.
    + exfalso. now apply Hh, PriorityFacts.highb_iff.
    + apply PriorityFacts.lowb_iff in Hl. now rewrite Hl.
  - intros Hh Hl. rewrite PriorityFacts.assignPriority_unfold.
    destruct (Priority.highb _ _) eqn:E.
    + exfalso. now apply Hh, PriorityFacts.highb_iff.
    + destruct (Priority.lowb _) eqn:E'; [| reflexivity].
      exfalso. now apply Hl, PriorityFacts.lowb_iff.
Qed.

(** A high-priority rule wins even when a low-priority keyword is present. *)
Example assignPriority_high_before_low :
  assignPriority "Water" "small leak, minor request" = "High".
Proof. reflexivity. Qed.

(** ** Numbers *)

Module NumFacts.

Local Open Scope float_scope.

Lemma SFcompare_antisym (x y : spec_float) :
  SFcompare y x = option_map CompOpp (SFcompare x y).
Proof.
  destruct x as [s1|s1| |s1 m1 e1], y as [s2|s2| |s2 m2 e2]; simpl;
    try destruct s1; try destruct s2; try reflexivity;
    rewrite (Z.compare_antisym e1 e2); destruct (e1 ?= e2)%Z; simpl;
    try reflexivity; f_equal;
    rewrite !Pos.compare_cont_antisym; reflexivity.
Qed.

Lemma SFcompare_refl (x : spec_float) :
  x <> S754_nan -> SFcompare x x = Some Eq.
Proof.
  destruct x as [s|s| |s m e]; simpl; intros H; try congruence;
    destruct s; try reflexivity;
    now rewrite Z.compare_refl, Pos.compare_cont_refl.
Qed.

Lemma is_nan_false (x : float) :
  PrimFloat.is_nan x = false -> Prim2SF x <> S754_nan.
Proof.
  unfold PrimFloat.is_nan. rewrite FloatAxioms.eqb_spec. unfold SFeqb.
  intros H E. rewrite E in H. discriminate.
Qed.

Lemma compare_defined (x y : float) :
  PrimFloat.is_nan x = false -> PrimFloat.is_nan y = false ->
  exists c, SFcompare (Prim2SF x) (Prim2SF y) = Some c.
Proof.
  intros Hx Hy. apply is_nan_false in Hx, Hy.
  destruct (Prim2SF x) as [s1|s1| |s1 m1 e1], (Prim2SF y) as [s2|s2| |s2 m2 e2];
    try congruence; simpl; eauto.
Qed.

(** [x < y] gives [x <= y]. *)
Lemma lt_le (x y : float) : Num.lt x y = true -> Num.le x y = true.
Proof.
  unfold Num.lt, Num.le. rewrite FloatAxioms.ltb_spec, FloatAxioms.leb_spec.
  unfold SFltb, SFleb. now destruct (SFcompare _ _) as [[]|].
Qed.

(** [x < y] excludes [x >= y]. *)
Lemma lt_not_ge (x y : float) : Num.lt x y = true -> Num.ge x y = false.
Proof.
  unfold Num.lt, Num.ge. rewrite FloatAxioms.ltb_spec, FloatAxioms.leb_spec.
  unfold SFltb, SFleb. rewrite (SFcompare_antisym (Prim2SF x) (Prim2SF y)).
  now destruct (SFcompare _ _) as [[]|].
Qed.

(** Two numbers that are not NaN are comparable. *)
Lemma not_lt_le (x y : float) :
  PrimFloat.is_nan x = false -> PrimFloat.is_nan y = false ->
  Num.lt y x = false -> Num.le x y = true.
Proof.
  intros Hx Hy. destruct (compare_defined x y Hx Hy) as [c Hc].
  unfold Num.lt, Num.le. rewrite FloatAxioms.ltb_spec, FloatAxioms.leb_spec.
  unfold SFltb, SFleb. rewrite (SFcompare_antisym (Prim2SF x) (Prim2SF y)), Hc.
  now destruct c.
Qed.

Lemma finite_not_nan (x : float) :
  Num.isFinite x = true -> PrimFloat.is_nan x = false.
Proof.
  unfold Num.isFinite, PrimFloat.is_finite.
  destruct (PrimFloat.is_nan x); [discriminate | reflexivity].
Qed.

Lemma SFleb_trans (x y z : spec_float) :
  SFleb x y = true -> SFleb y z = true -> SFleb x z = true.
Proof.
  unfold SFleb.
  destruct x as [s1|s1| |s1 m1 e1], y as [s2|s2| |s2 m2 e2],
           z as [s3|s3| |s3 m3 e3]; simpl;
    try destruct s1; try destruct s2; try destruct s3; simpl;
    try reflexivity; try discriminate.
  all: destruct (Z.compare_spec e1 e2), (Z.compare_spec e2 e3),
         (Z.compare_spec e1 e3); simpl; try reflexivity; try discriminate;
       try lia; subst.
  all: change (Pos.compare_cont Eq ?a ?b) with (Pos.compare a b).
  all: destruct (Pos.compare_spec m1 m2), (Pos.compare_spec m2 m3),
         (Pos.compare_spec m1 m3); simpl; try reflexivity; try discriminate;
       try lia.
Qed.

(** [<=] on numbers is transitive. *)
Lemma le_trans (x y z : float) :
  Num.le x y = true -> Num.le y z = true -> Num.le x z = true.
Proof.
  unfold Num.le. rewrite !FloatAxioms.leb_spec. apply SFleb_trans.
Qed.

(** What the clamp gives on a finite confidence: 1 above 1, the number
    itself from 0 (excluded) to 1, and 0 at 0 and below. *)
Lemma clampConfidence_exact (x : float) :
  Num.isFinite x = true ->
  (Num.lt 1 x = true -> clampConfidence x = 1) /\
  (Num.lt 0 x = true -> Num.le x 1 = true -> clampConfidence x = x) /\
  (Num.le x 0 = true -> clampConfidence x = 0).
Proof.
  intros Hfin. pose proof (finite_not_nan x Hfin) as Hnan.
  unfold clampConfidence. rewrite Hfin. unfold Num.min, Num.max. rewrite Hnan.
  change (PrimFloat.is_nan 1) with false. cbn [orb].
  fold (Num.lt 1 x). fold (Num.lt x 1).
  change (Num.isNegZero 1) with false. cbv iota.
  split; [| split].
  - intros H1. rewrite H1. reflexivity.
  - intros H0 Hle.
    assert (H1 : Num.lt 1 x = false).
    { destruct (Num.lt 1 x) eqn:E; [| reflexivity].
      apply lt_not_ge in E. unfold Num.ge in E. unfold Num.le in Hle. congruence. }
    rewrite H1.
    assert (Hm : (if Num.lt x 1 then x else x) = x) by (now destruct (Num.lt x 1)).
    rewrite Hm, Hnan. change (PrimFloat.is_nan 0) with false. cbn [orb].
    fold (Num.lt 0 x). now rewrite H0.
  - intros Hle.
    assert (H1 : Num.lt 1 x = false).
    { destruct (Num.lt 1 x) eqn:E; [| reflexivity].
      apply lt_le in E. pose proof (le_trans 1 x 0 E Hle) as H. discriminate H. }
    assert (H0 : Num.lt 0 x = false).
    { destruct (Num.lt 0 x) eqn:E; [| reflexivity].
      apply lt_not_ge in E. unfold Num.ge in E. unfold Num.le in Hle. congruence. }
    rewrite H1.
    assert (Hm : (if Num.lt x 1 then x else x) = x) by (now destruct (Num.lt x 1)).
    rewrite Hm, Hnan. change (PrimFloat.is_nan 0) with false. cbn [orb].
    fold (Num.lt 0 x). rewrite H0. fold (Num.lt x 0).
    change (Num.isNegZero 0) with false. now destruct (Num.lt x 0).
Qed.

(** A finite confidence is clamped into [0, 1]. *)
Lemma clampConfidence_range (x : float) :
  Num.isFinite x = true ->
  Num.le 0 (clampConfidence x) = true /\ Num.le (clampConfidence x) 1 = true.
Proof.
  intros Hfin. pose proof (finite_not_nan x Hfin) as Hnan.
  unfold clampConfidence. rewrite Hfin.
  assert (Hmin : Num.min 1 x = 1 \/ (Num.min 1 x = x /\ Num.lt 1 x = false)).
  { unfold Num.min. rewrite Hnan.
    change (PrimFloat.is_nan 1) with false. simpl orb. cbv iota.
    fold (Num.lt 1 x). destruct (Num.lt 1 x) eqn:E1; [now left |].
    destruct (PrimFloat.ltb x 1); [now right |].
    change (Num.isNegZero 1) with false. cbv iota. now right. }
  destruct Hmin as [-> | [-> Hle]].
  - split; reflexivity.
  - unfold Num.max. rewrite Hnan.
    change (PrimFloat.is_nan 0) with false. simpl orb. cbv iota.
    fold (Num.lt 0 x). destruct (Num.lt 0 x) eqn:E0.
    + split; [now apply lt_le | now apply not_lt_le].
    + destruct (PrimFloat.ltb x 0); [split; reflexivity |].
      change (Num.isNegZero 0) with false. cbv iota. split; reflexivity.
Qed.

(** A confidence that is not finite is replaced by 0.6, which passes the
    threshold test. *)
Lemma clampConfidence_default (x : float) :
  Num.isFinite x = false -> clampConfidence x = 0.6.
Proof. intros H. unfold clampConfidence. now rewrite H. Qed.

Lemma threshold_met : Num.ge 0.6 0.6 = true.
Proof. reflexivity. Qed.

End NumFacts.

(** ** Hashing, duplicates and the vision scan *)

Section ModerationFacts.

Lemma parseImageDataUrl_trim (p : string) :
  parseImageDataUrl (trim p) = parseImageDataUrl p.
Proof. unfold parseImageDataUrl. now rewrite trim_idem. Qed.

Lemma computeImageHash_trim (p : string) :
  computeImageHash (trim p) = computeImageHash p.
Proof. unfold computeImageHash. now rewrite trim_idem. Qed.

Lemma scanWithGeminiIfAvailable_trim (w : World) (p d : string) :
  scanWithGeminiIfAvailable w (trim p) d = scanWithGeminiIfAvailable w p d.
Proof. unfold scanWithGeminiIfAvailable. now rewrite parseImageDataUrl_trim. Qed.

Lemma compress_length (h block : list N) :
  List.length h = 8%nat -> List.length (SHA256.compress h block) = 8%nat.
Proof.
  intros H. unfold SHA256.compress.
  rewrite length_map, length_combine, H. reflexivity.
Qed.

Lemma blocks_length (n : nat) (h bs : list N) :
  List.length h = 8%nat -> List.length (SHA256.blocks n h bs) = 8%nat.
Proof.
  revert h bs. induction n as [|n IH]; intros h bs H; simpl; [exact H |].
  apply IH, compress_length, H.
Qed.

(** A digest in hexadecimal is never the empty string. *)
Lemma sha256Hex_truthy (s : string) : truthy (SHA256.sha256Hex s) = true.
Proof.
  unfold SHA256.sha256Hex, SHA256.digest.
  pose proof (blocks_length
                (Nat.div (List.length (SHA256.pad (SHA256.bytesOf s))) 64)
                SHA256.H0 (SHA256.pad (SHA256.bytesOf s)) eq_refl) as H.
  destruct (SHA256.blocks _ _ _) as [|x l]; [discriminate |].
  reflexivity.
Qed.

Lemma computeImageHash_truthy (p h : string) :
  computeImageHash p = Some h -> truthy h = true.
Proof.
  unfold computeImageHash. destruct (truthy (trim p)); [| discriminate].
  intros H. injection H as <-. apply sha256Hex_truthy.
Qed.

Lemma newest_In (rows : list ComplaintRow) (r : ComplaintRow) :
  newest rows = Some r -> In r rows.
Proof.
  revert r. induction rows as [|x rows IH]; intros r; simpl; [discriminate |].
  destruct (newest rows) as [r'|].
  - destruct (c_createdAt x <? c_createdAt r')%Z; intros H; injection H as <-.
    + right. now apply IH.
    + now left.
  - intros H; injection H as <-. now left.
Qed.

Lemma newest_some (rows : list ComplaintRow) :
  rows <> [] -> exists r, newest rows = Some r.
Proof.
  destruct rows as [|x rows]; [congruence |]. intros _. simpl.
  destruct (newest rows) as [r'|]; [| eauto].
  destruct (c_createdAt x <? c_createdAt r')%Z; eauto.
Qed.

Lemma hashIs_iff (h : string) (r : ComplaintRow) :
  hashIs h r = true <-> c_imageHash r = Some h.
Proof.
  unfold hashIs. destruct (c_imageHash r) as [h'|].
  - rewrite String.eqb_eq. split; [now intros -> | now intros [= ->]].
  - split; discriminate.
Qed.

(** The duplicate query returns a stored row carrying the fingerprint, and
    returns one as soon as such a row exists. *)
Lemma selectDuplicate_In (d : Database) (h : string) (r : ComplaintRow) :
  selectDuplicate d h = Some r ->
  In r (complaints d) /\ c_imageHash r = Some h.
Proof.
  unfold selectDuplicate. intros H. apply newest_In, filter_In in H.
  now rewrite hashIs_iff in H.
Qed.

Lemma selectDuplicate_some (d : Database) (h : string) (r : ComplaintRow) :
  In r (complaints d) -> c_imageHash r = Some h ->
  exists r', selectDuplicate d h = Some r'.
Proof.
  intros Hin Hh. apply newest_some. intros E.
  assert (Hf : In r (filter (hashIs h) (complaints d))).
  { apply filter_In. split; [exact Hin | now apply hashIs_iff]. }
  rewrite E in Hf. destruct Hf.
Qed.

Lemma normalizeCategory_truthy (v : string) : truthy (normalizeCategory v) = true.
Proof.
  unfold normalizeCategory.
  repeat match goal with |- context [if ?b then _ else _] => destruct b end;
    reflexivity.
Qed.

(** Normalization answers the issue category that the value spells, letter
    case and surrounding white space aside, and Other when it spells none. *)
Lemma normalizeCategory_spells (v : string) :
  In (normalizeCategory v) ISSUE_CATEGORIES /\
  (forall c, In c ISSUE_CATEGORIES ->
             toLowerCase (trim v) = toLowerCase c -> normalizeCategory v = c) /\
  ((forall c, In c ISSUE_CATEGORIES -> toLowerCase (trim v) <> toLowerCase c) ->
   normalizeCategory v = "Other").
Proof.
  unfold normalizeCategory, ISSUE_CATEGORIES. cbv zeta.
  split; [| split].
  - repeat match goal with |- context [if ?b then _ else _] => destruct b end;
      simpl; tauto.
  - intros c Hc E. rewrite E.
    destruct Hc as [<- | [<- | [<- | [<- | [<- | []]]]]]; reflexivity.
  - intros Hnone.
    destruct (String.eqb_spec (toLowerCase (trim v)) "garbage") as [E|_];
      [exfalso; apply (Hnone "Garbage"); [simpl; tauto | exact E] |].
    destruct (String.eqb_spec (toLowerCase (trim v)) "road") as [E|_];
      [exfalso; apply (Hnone "Road"); [simpl; tauto | exact E] |].
    destruct (String.eqb_spec (toLowerCase (trim v)) "water") as [E|_];
      [exfalso; apply (Hnone "Water"); [simpl; tauto | exact E] |].
    destruct (String.eqb_spec (toLowerCase (trim v)) "streetlight") as [E|_];
      [exfalso; apply (Hnone "Streetlight"); [simpl; tauto | exact E] |].
    reflexivity.
Qed.

End ModerationFacts.

(** ** The handler *)

Section Handler.

Variable w : World.

Lemma isText_truthy (v : JsValue) : isText v = true -> isTruthy v = true.
Proof. destruct v; try discriminate. now intros H. Qed.

(** The handler on a well-formed request: the three rejection tests in
    order, then the [try] block. *)
Lemma postComplaint_unfold (req : Request) (lat lon : float) (st : Store) :
  WellFormed req lat lon ->
  postComplaint w req st =
  let m := moderationOf w req st in
  if isLikelyAiGenerated m then
    (st, Return (Res422 msgAiGenerated
                   (orElse (aiGeneratedReason m) "Image authenticity check failed.")))
  else
    match openDuplicate m with
    | Some dup => (st, Return (Res409 msgDuplicate dup))
    | None =>
        if isSpam m then
          (st, Return (Res422 msgSpam (orElse (spamReason m) "Spam signal detected.")))
        else
          tryCatch (tryBlock w req lat lon)
            (fun e => ret (Res500 "Failed to create complaint" e)) st
    end.
Proof.
  intros (Hu & Hc & Hd & Hlat & Hlon).
  unfold postComplaint. rewrite Hu, Hc, (isText_truthy _ Hd), Hlat, Hlon.
  cbn [negb andb]. unfold bind, getDb, ret. cbv beta zeta iota.
  change (runImageModeration w (db st) (orEmpty (r_userId req))
            (trim (orEmpty (r_photoUrl req))) (ToString w (r_description req))
            (orEmpty (r_category req))) with (moderationOf w req st).
  destruct (isLikelyAiGenerated (moderationOf w req st)); [reflexivity |].
  destruct (openDuplicate (moderationOf w req st)); [reflexivity |].
  destruct (isSpam (moderationOf w req st)); [reflexivity |].
  unfold tryBlock.
  destruct (r_description req) as [| | | |text|] eqn:Ed; try discriminate.
  unfold moderationOf. rewrite Ed. reflexivity.
Qed.

(** The handler on a request that passes validation with a description that
    is not a string: the three rejection tests in order, then the
    [TypeError] of [assignPriority]. *)
Lemma postComplaint_unfold_raw (req : Request) (lat lon : float) (st : Store) :
  Validated req lat lon -> isText (r_description req) = false ->
  postComplaint w req st =
  let m := moderationOf w req st in
  if isLikelyAiGenerated m then
    (st, Return (Res422 msgAiGenerated
                   (orElse (aiGeneratedReason m) "Image authenticity check failed.")))
  else
    match openDuplicate m with
    | Some dup => (st, Return (Res409 msgDuplicate dup))
    | None =>
        if isSpam m then
          (st, Return (Res422 msgSpam (orElse (spamReason m) "Spam signal detected.")))
        else (st, Throw "TypeError")
    end.
Proof.
  intros (Hu & Hc & Hd & Hlat & Hlon) Hraw.
  unfold postComplaint. rewrite Hu, Hc, Hd, Hlat, Hlon.
  cbn [negb andb]. unfold bind, getDb, ret. cbv beta zeta iota.
  change (runImageModeration w (db st) (orEmpty (r_userId req))
            (trim (orEmpty (r_photoUrl req))) (ToString w (r_description req))
            (orEmpty (r_category req))) with (moderationOf w req st).
  destruct (isLikelyAiGenerated (moderationOf w req st)); [reflexivity |].
  destruct (openDuplicate (moderationOf w req st)); [reflexivity |].
  destruct (isSpam (moderationOf w req st)); [reflexivity |].
  destruct (r_description req) as [| | | |text|] eqn:Ed; try reflexivity;
    try discriminate.
  cbn [isText isTruthy] in Hraw, Hd. congruence.
Qed.

Lemma afterEmail_db (st : Store) (lat lon : float) :
  db (afterEmail w st lat lon) = db st.
Proof.
  unfold afterEmail. destruct (officerOf w st lat lon) as [o|]; [| reflexivity].
  destruct (present (o_email o)); [| reflexivity].
  unfold sendOfficerEmail.
  destruct (negb _); [reflexivity |]. destruct (mailerFails w); reflexivity.
Qed.

(** The [try] block, unfolded: the e-mail, then the notification when an
    officer with a name was found, then the complaint row. *)
Lemma tryBlock_unfold (req : Request) (lat lon : float) (st : Store) :
  tryBlock w req lat lon st =
  let st1 := afterEmail w st lat lon in
  let notify :=
    if present (nameOf (officerOf w st lat lon))
    then insertNotification w (noticeOf w req st lat lon) st1
    else (st1, Return tt) in
  match notify with
  | (st2, Return _) =>
      match insertComplaint w (rowOf w req st lat lon) st2 with
      | (st3, Return _) => (st3, Return (Res201 (rowOf w req st lat lon)))
      | (st3, Throw e) => (st3, Throw e)
      end
  | (st2, Throw e) => (st2, Throw e)
  end.
Proof.
  unfold tryBlock, createComplaint, bind, getDb, ret.
  fold (locationOf w lat lon). fold (wardOf w lat lon). fold (officerOf w st lat lon).
  cbv zeta. unfold afterEmail, notifyAdminAssignment, noticeOf, rowOf.
  fold (locationOf w lat lon). fold (wardOf w lat lon). fold (officerOf w st lat lon).
  destruct (officerOf w st lat lon) as [o|]; simpl.
  - destruct (present (o_email o)).
    + unfold sendOfficerEmail.
      destruct (negb _); simpl;
        [| destruct (mailerFails w); simpl];
        destruct (present (Some (o_name o))); simpl; reflexivity.
    + destruct (present (Some (o_name o))); simpl; reflexivity.
  - reflexivity.
Qed.

Lemma insertNotification_inv (row : NotificationRow) (st st' : Store)
    (out : Outcome unit) :
  insertNotification w row st = (st', out) ->
  complaints (db st') = complaints (db st) /\
  officers (db st') = officers (db st) /\
  ((out = Return tt /\
    notifications (db st') = (notifications (db st) ++ [row])%list) \/
   (exists e, out = Throw e /\ st' = st)).
Proof.
  unfold insertNotification.
  destruct (storeFault w Notifications) as [e|].
  - intros H. injection H as <- <-. repeat split; right; now exists e.
  - destruct (existsb _ _); intros H; injection H as <- <-.
    + repeat split; right; eauto.
    + repeat split; now left.
Qed.

Lemma insertComplaint_inv (row : ComplaintRow) (st st' : Store)
    (out : Outcome unit) :
  insertComplaint w row st = (st', out) ->
  notifications (db st') = notifications (db st) /\
  officers (db st') = officers (db st) /\
  ((out = Return tt /\
    complaints (db st') = (complaints (db st) ++ [row])%list) \/
   (exists e, out = Throw e /\ st' = st)).
Proof.
  unfold insertComplaint.
  destruct (storeFault w Complaints) as [e|].
  - intros H. injection H as <- <-. repeat split; right; now exists e.
  - destruct (existsb _ _); intros H; injection H as <- <-.
    + repeat split; right; eauto.
    + repeat split; now left.
Qed.

(** The outcomes of the [try] block: the row is created; or the notification
    insert raised and nothing was written; or the complaint insert raised
    after the notification step. *)
Lemma tryBlock_cases (req : Request) (lat lon : float) (st st' : Store)
    (out : Outcome Response) :
  tryBlock w req lat lon st = (st', out) ->
  (out = Return (Res201 (rowOf w req st lat lon)) /\
   complaints (db st') = (complaints (db st) ++ [rowOf w req st lat lon])%list /\
   notifications (db st') = noticesAfter w req st lat lon) \/
  (exists e, out = Throw e /\
   complaints (db st') = complaints (db st) /\
   notifications (db st') = notifications (db st) /\
   present (nameOf (officerOf w st lat lon)) = true /\
   insertNotification w (noticeOf w req st lat lon) (afterEmail w st lat lon)
     = (st', Throw e)) \/
  (exists e st2, out = Throw e /\
   complaints (db st') = complaints (db st) /\
   notifications (db st') = noticesAfter w req st lat lon /\
   complaints (db st2) = complaints (db st) /\
   insertComplaint w (rowOf w req st lat lon) st2 = (st', Throw e)).
Proof.
  rewrite tryBlock_unfold. cbv zeta. unfold noticesAfter.
  pose proof (afterEmail_db st lat lon) as Hdb.
  destruct (present (nameOf (officerOf w st lat lon))) eqn:Hn.
  - destruct (insertNotification w _ _) as [st2 o2] eqn:E2.
    destruct (insertNotification_inv _ _ _ _ E2) as (Hc & _ & [[-> Hnot] | [e [-> ->]]]).
    + rewrite Hdb in Hc, Hnot.
      destruct (insertComplaint w _ st2) as [st3 o3] eqn:E3.
      destruct (insertComplaint_inv _ _ _ _ E3) as (Hn3 & _ & [[-> Hc3] | [e [-> ->]]]);
        intros H; injection H as <- <-.
      * left. rewrite Hc3, Hn3, Hc, Hnot. auto.
      * right; right. exists e, st2. rewrite Hc, Hnot. auto.
    + intros H; injection H as <- <-. right; left. exists e.
      rewrite Hdb. auto.
  - destruct (insertComplaint w _ _) as [st3 o3] eqn:E3.
    destruct (insertComplaint_inv _ _ _ _ E3) as (Hn3 & _ & [[-> Hc3] | [e [-> ->]]]);
      intros H; injection H as <- <-.
    + left. rewrite Hc3, Hn3, Hdb. auto.
    + right; right. exists e, (afterEmail w st lat lon). rewrite Hdb. auto.
Qed.

(** A created complaint comes from an accepted request and is the row the
    handler builds, now stored. *)
Lemma postComplaint_created (req : Request) (lat lon : float) (st st' : Store)
    (row : ComplaintRow) :
  WellFormed req lat lon ->
  postComplaint w req st = (st', Return (Res201 row)) ->
  Accepted w req st /\ row = rowOf w req st lat lon /\
  In row (complaints (db st')) /\
  notifications (db st') = noticesAfter w req st lat lon.
Proof.
  intros Hwf. rewrite (postComplaint_unfold req lat lon st Hwf). cbv zeta.
  unfold Accepted.
  destruct (isLikelyAiGenerated (moderationOf w req st)); [discriminate |].
  destruct (openDuplicate (moderationOf w req st)); [discriminate |].
  destruct (isSpam (moderationOf w req st)); [discriminate |].
  unfold tryCatch. destruct (tryBlock w req lat lon st) as [st1 o1] eqn:E.
  destruct (tryBlock_cases _ _ _ _ _ _ E)
    as [(-> & Hc & Hn) | [(e & -> & _) | (e & st2 & -> & _)]].
  - intros H. injection H as <- <-. repeat split; try assumption.
    rewrite Hc. apply in_or_app. right. now left.
  - unfold ret. discriminate.
  - unfold ret. discriminate.
Qed.

Lemma tryBlock_response (req : Request) (lat lon : float) (st : Store) :
  exists st' resp,
    tryCatch (tryBlock w req lat lon)
      (fun e => ret (Res500 "Failed to create complaint" e)) st
    = (st', Return resp) /\
    (resp = Res201 (rowOf w req st lat lon) \/
     exists e, resp = Res500 "Failed to create complaint" e).
Proof.
  unfold tryCatch. rewrite tryBlock_unfold. cbv zeta.
  destruct (if present (nameOf (officerOf w st lat lon)) then _ else _)
    as [st2 [[]|e]].
  - destruct (insertComplaint w (rowOf w req st lat lon) st2) as [st3 [[]|e]].
    + exists st3, (Res201 (rowOf w req st lat lon)). split; [reflexivity | now left].
    + exists st3, (Res500 "Failed to create complaint" e).
      split; [reflexivity | right; now exists e].
  - exists st2, (Res500 "Failed to create complaint" e).
    split; [reflexivity | right; now exists e].
Qed.

Lemma openDuplicate_iff (m : ImageModerationResult) (dup : string * string) :
  openDuplicate m = Some dup <->
  isDuplicate m = true /\ duplicateAgainst m = Some dup /\
  isResolvedStatus (snd dup) = false.
Proof.
  unfold openDuplicate. destruct (isDuplicate m).
  - destruct (duplicateAgainst m) as [[id status]|].
    + destruct (isResolvedStatus status) eqn:E; simpl; split.
      * discriminate.
      * intros (_ & H & H'). injection H as <-. simpl in H'. congruence.
      * intros H. injection H as <-. auto.
      * intros (_ & H & _). exact H.
    + split; [discriminate | intros (_ & H & _); discriminate].
  - split; [discriminate | intros (H & _); discriminate].
Qed.

(** The spam flag is the disjunction of its three sources. *)
Lemma isSpam_sources (req : Request) (st : Store) :
  isSpam (moderationOf w req st) =
  s_isSpam (detectSpamSignals (db st) (now w) (orEmpty (r_userId req))
              (ToString w (r_description req)))
  || match scanWithGeminiIfAvailable w (orEmpty (r_photoUrl req))
             (ToString w (r_description req)) with
     | Some g => g_isSpam g
     | None => false
     end
  || match duplicateAgainst (moderationOf w req st) with
     | Some (_, status) => isResolvedStatus status
     | None => false
     end.
Proof.
  rewrite <- (scanWithGeminiIfAvailable_trim w (orEmpty (r_photoUrl req))).
  rewrite <- (scanWithGeminiIfAvailable_trim w (trim (orEmpty (r_photoUrl req)))).
  unfold moderationOf, runImageModeration. simpl.
  destruct (computeImageHash _) as [h|]; [| reflexivity].
  destruct (truthy h); [| reflexivity].
  destruct (selectDuplicate (db st) h); reflexivity.
Qed.

(** C1. On every request that reaches moderation the three rejection tests
    are taken in a fixed order: the AI-generated flag rejects with the
    authenticity outcome whatever the other signals are; otherwise a
    duplicate whose matched complaint is not resolved rejects with the
    conflict outcome; otherwise the spam flag (local heuristic, remote
    classifier or stale duplicate) rejects with the content-quality outcome;
    otherwise the request is accepted and the handler goes on to create the
    complaint.  A rejection leaves the store as it was. *)
Theorem moderation_order (req : Request) (lat lon : float) (st : Store) :
  WellFormed req lat lon ->
  let m := moderationOf w req st in
  (isLikelyAiGenerated m = true ->
     postComplaint w req st =
     (st, Return (Res422 msgAiGenerated
                    (orElse (aiGeneratedReason m) "Image authenticity check failed.")))) /\
  (isLikelyAiGenerated m = false ->
     forall dup,
       (isDuplicate m = true /\ duplicateAgainst m = Some dup /\
        isResolvedStatus (snd dup) = false) ->
       postComplaint w req st = (st, Return (Res409 msgDuplicate dup))) /\
  (isLikelyAiGenerated m = false -> openDuplicate m = None -> isSpam m = true ->
     postComplaint w req st =
     (st, Return (Res422 msgSpam (orElse (spamReason m) "Spam signal detected.")))) /\
  (isLikelyAiGenerated m = false -> openDuplicate m = None -> isSpam m = false ->
     postComplaint w req st =
       tryCatch (tryBlock w req lat lon)
         (fun e => ret (Res500 "Failed to create complaint" e)) st /\
     exists st' resp,
       postComplaint w req st = (st', Return resp) /\
       (resp = Res201 (rowOf w req st lat lon) \/
        exists e, resp = Res500 "Failed to create complaint" e)) /\
  isSpam m =
    s_isSpam (detectSpamSignals (db st) (now w) (orEmpty (r_userId req))
                (ToString w (r_description req)))
    || match scanWithGeminiIfAvailable w (orEmpty (r_photoUrl req))
               (ToString w (r_description req)) with
       | Some g => g_isSpam g
       | None => false
       end
    || match duplicateAgainst m with
       | Some (_, status) => isResolvedStatus status
       | None => false
       end.
Proof.
  intros Hwf m. pose proof (postComplaint_unfold req lat lon st Hwf) as E.
  cbv zeta in E. fold m in E.
  split; [| split; [| split; [| split]]].
  - intros Hai. now rewrite E, Hai.
  - intros Hai dup Hdup. apply openDuplicate_iff in Hdup.
    now rewrite E, Hai, Hdup.
  - intros Hai Hdup Hspam. now rewrite E, Hai, Hdup, Hspam.
  - rewrite E. intros -> -> ->. split; [reflexivity |].
    apply tryBlock_response.
  - apply isSpam_sources.
Qed.

(** C4, amended. For every accepted submission the category kept for the
    complaint (stored as its category and its classified category, used for
    the priority and quoted in the assignment notice) is the classifier's
    category when the confidence is at least 0.6 and the normalized
    citizen-submitted category otherwise; a confidence strictly below 0.6
    never overrides the citizen's category.  The normalized category is the
    issue category the citizen's value spells, letter case and surrounding
    white space aside, and Other when it spells none.  Routing does not use
    that category: ward, division and officer come from the coordinates, and
    the department is the officer's department or, without one, the
    citizen-submitted category as it was sent. *)
Theorem final_category_rule (req : Request) (lat lon : float) (st st' : Store)
    (row : ComplaintRow) :
  WellFormed req lat lon ->
  postComplaint w req st = (st', Return (Res201 row)) ->
  let m := moderationOf w req st in
  let submitted := orEmpty (r_category req) in
  (Num.ge (classificationConfidence m) 0.6 = true ->
     c_category row = classifiedCategory m) /\
  (Num.ge (classificationConfidence m) 0.6 = false ->
     c_category row = normalizeCategory submitted) /\
  (Num.lt (classificationConfidence m) 0.6 = true ->
     c_category row = normalizeCategory submitted) /\
  (Num.ge (classificationConfidence m) 0.6 = false ->
     In (c_category row) ISSUE_CATEGORIES /\
     (forall c, In c ISSUE_CATEGORIES ->
                toLowerCase (trim submitted) = toLowerCase c ->
                c_category row = c) /\
     ((forall c, In c ISSUE_CATEGORIES ->
                 toLowerCase (trim submitted) <> toLowerCase c) ->
      c_category row = "Other")) /\
  c_classifiedCategory row = c_category row /\
  c_priority row = assignPriority (c_category row) (ToString w (r_description req)) /\
  In row (complaints (db st')) /\
  (notifications (db st') = notifications (db st) \/
   exists name,
     notifications (db st') =
     (notifications (db st) ++
      [{| n_id := uid w 1 "NTF"; n_complaintId := c_id row; n_type := "ASSIGNED";
          n_message := "Complaint " ++ c_id row ++ " auto-assigned to " ++ name ++
                       " (" ++ c_category row ++ ") in " ++ c_ward row ++ ".";
          n_isRead := false |}])%list) /\
  c_ward row = wardOf w lat lon /\
  c_division row = mapWardToDivision (wardOf w lat lon) /\
  c_assignedOfficerId row = option_map o_id (officerOf w st lat lon) /\
  c_department row =
    match officerOf w st lat lon with
    | Some o => match o_department o with Some d => d | None => submitted end
    | None => submitted
    end.
Proof.
  intros Hwf Hrun m submitted.
  destruct (postComplaint_created req lat lon st st' row Hwf Hrun)
    as (_ & -> & Hin & Hnot).
  assert (Hcat : c_category (rowOf w req st lat lon) = finalCategory m submitted)
    by reflexivity.
  rewrite Hcat. unfold finalCategory.
  split; [| split; [| split; [| split; [| split; [| split; [| split]]]]]].
  - now intros ->.
  - now intros ->.
  - intros Hlt. now rewrite (NumFacts.lt_not_ge _ _ Hlt).
  - intros ->. apply normalizeCategory_spells.
  - reflexivity.
  - reflexivity.
  - exact Hin.
  - split.
    + rewrite Hnot. unfold noticesAfter.
      destruct (present (nameOf (officerOf w st lat lon))); [| now left].
      right. exists (orEmpty (nameOf (officerOf w st lat lon))). reflexivity.
    + split; [reflexivity |]. split; [reflexivity |]. split; reflexivity.
Qed.

Lemma scan_available (photo description : string) (doc : GeminiDoc) :
  keyPresent w = true -> parseImageDataUrl photo <> None ->
  geminiReply w = GeminiJson doc ->
  scanWithGeminiIfAvailable w photo description = Some (scanOfDoc w doc).
Proof.
  intros Hk Hp Hr. unfold scanWithGeminiIfAvailable. rewrite Hk, Hr.
  destruct (parseImageDataUrl photo); [reflexivity | congruence].
Qed.

(** What the moderation result takes from the vision scan when there is one. *)
Lemma moderation_of_scan (req : Request) (st : Store) (g : GeminiImageScan) :
  scanWithGeminiIfAvailable w (orEmpty (r_photoUrl req))
    (ToString w (r_description req)) = Some g ->
  classificationConfidence (moderationOf w req st) = g_categoryConfidence g /\
  classifiedCategory (moderationOf w req st) =
    orElse (g_problemCategory g)
      (category (classifyFromText (ToString w (r_description req))
                                  (orEmpty (r_category req)))) /\
  isLikelyAiGenerated (moderationOf w req st) = g_isLikelyAiGenerated g.
Proof.
  intros Hs.
  rewrite <- (scanWithGeminiIfAvailable_trim w (orEmpty (r_photoUrl req))) in Hs.
  rewrite <- (scanWithGeminiIfAvailable_trim w (trim (orEmpty (r_photoUrl req)))) in Hs.
  unfold moderationOf, runImageModeration. simpl. now rewrite Hs.
Qed.

(** C10, amended. When the vision classifier answers and the confidence it
    reports is absent, or is not a finite number once converted by [Number],
    the confidence becomes exactly 0.6; 0.6 passes the threshold, so the
    remote category is the final category and the category of the complaint
    that is created.  A value that [Number] converts to a finite number is
    clamped: above 1 it becomes 1, from 0 (excluded) to 1 it is kept, at 0
    and below it becomes 0; the remote category is final exactly when the
    clamped value is at least 0.6.  In particular [null] and [false] are
    converted to 0: the confidence is 0 and the citizen's normalized category
    stays final. *)
Theorem degraded_confidence_keeps_remote_category (req : Request)
    (lat lon : float) (st : Store) (doc : GeminiDoc) :
  keyPresent w = true ->
  parseImageDataUrl (orEmpty (r_photoUrl req)) <> None ->
  geminiReply w = GeminiJson doc ->
  let m := moderationOf w req st in
  let reported := ToNumber w (d_categoryConfidence doc) in
  let remote := normalizeCategory (stringOrEmpty w (d_problemCategory doc)) in
  let submitted := orEmpty (r_category req) in
  ((d_categoryConfidence doc = JUndefined \/ Num.isFinite reported = false) ->
     classificationConfidence m = 0.6%float /\
     Num.ge (classificationConfidence m) 0.6 = true /\
     finalCategory m submitted = remote /\
     forall st' row,
       WellFormed req lat lon ->
       postComplaint w req st = (st', Return (Res201 row)) ->
       c_category row = remote /\ c_classificationConfidence row = 0.6%float) /\
  (Num.isFinite reported = true ->
     (Num.lt 1 reported = true ->
        classificationConfidence m = 1%float /\ finalCategory m submitted = remote) /\
     (Num.lt 0 reported = true -> Num.le reported 1 = true ->
        classificationConfidence m = reported /\
        finalCategory m submitted =
          if Num.ge reported 0.6 then remote else normalizeCategory submitted) /\
     (Num.le reported 0 = true ->
        classificationConfidence m = 0%float /\
        finalCategory m submitted = normalizeCategory submitted) /\
     Num.le 0 (classificationConfidence m) = true /\
     Num.le (classificationConfidence m) 1 = true) /\
  ((d_categoryConfidence doc = JNull \/ d_categoryConfidence doc = JBool false) ->
     classificationConfidence m = 0%float /\
     finalCategory m submitted = normalizeCategory submitted /\
     forall st' row,
       WellFormed req lat lon ->
       postComplaint w req st = (st', Return (Res201 row)) ->
       c_category row = normalizeCategory submitted /\
       c_classificationConfidence row = 0%float).
Proof.
  intros Hk Hp Hr m reported remote submitted.
  pose proof (scan_available _ (ToString w (r_description req)) doc Hk Hp Hr) as Hs.
  destruct (moderation_of_scan req st _ Hs) as (Hconf & Hcat & _).
  fold m in Hconf, Hcat.
  change (g_categoryConfidence (scanOfDoc w doc))
    with (clampConfidence reported) in Hconf.
  change (g_problemCategory (scanOfDoc w doc)) with remote in Hcat.
  unfold orElse in Hcat.
  assert (Ht : truthy remote = true) by apply normalizeCategory_truthy.
  rewrite Ht in Hcat.
  assert (Hzero : Num.isFinite reported = true -> Num.le reported 0 = true ->
            classificationConfidence m = 0%float /\
            finalCategory m submitted = normalizeCategory submitted).
  { intros Hfin Hle.
    destruct (NumFacts.clampConfidence_exact reported Hfin) as (_ & _ & H0).
    assert (E0 : classificationConfidence m = 0%float)
      by (rewrite Hconf; now apply H0).
    split; [exact E0 |]. unfold finalCategory. rewrite E0. reflexivity. }
  assert (Hrow : forall st' row,
            WellFormed req lat lon ->
            postComplaint w req st = (st', Return (Res201 row)) ->
            c_category row = finalCategory m submitted /\
            c_classificationConfidence row = classificationConfidence m).
  { intros st' row Hwf Hrun.
    destruct (postComplaint_created req lat lon st st' row Hwf Hrun)
      as (_ & -> & _).
    split; reflexivity. }
  split; [| split].
  - intros Hbad.
    assert (Hnf : Num.isFinite reported = false).
    { destruct Hbad as [E | E]; [| exact E].
      unfold reported. rewrite E. reflexivity. }
    assert (H06 : classificationConfidence m = 0.6%float).
    { rewrite Hconf. now apply NumFacts.clampConfidence_default. }
    assert (Hfinal : finalCategory m submitted = remote).
    { unfold finalCategory. rewrite H06, NumFacts.threshold_met. exact Hcat. }
    split; [exact H06 |]. split; [rewrite H06; apply NumFacts.threshold_met |].
    split; [exact Hfinal |].
    intros st' row Hwf Hrun.
    destruct (Hrow st' row Hwf Hrun) as [-> ->]. now split.
  - intros Hfin.
    destruct (NumFacts.clampConfidence_exact reported Hfin) as (H1 & Hmid & _).
    split; [| split; [| split]].
    + intros Hgt.
      assert (E1 : classificationConfidence m = 1%float)
        by (rewrite Hconf; now apply H1).
      split; [exact E1 |]. unfold finalCategory. rewrite E1. exact Hcat.
    + intros Hpos Hle.
      assert (Ex : classificationConfidence m = reported)
        by (rewrite Hconf; now apply Hmid).
      split; [exact Ex |]. unfold finalCategory. rewrite Ex.
      destruct (Num.ge reported 0.6); [exact Hcat | reflexivity].
    + now apply Hzero.
    + rewrite Hconf. now apply NumFacts.clampConfidence_range.
  - intros Hnull.
    assert (E : reported = 0%float)
      by (unfold reported; destruct Hnull as [-> | ->]; reflexivity).
    assert (Hz : classificationConfidence m = 0%float /\
                 finalCategory m submitted = normalizeCategory submitted).
    { apply Hzero; rewrite E; reflexivity. }
    destruct Hz as [E0 Ef]. split; [exact E0 |]. split; [exact Ef |].
    intros st' row Hwf Hrun.
    destruct (Hrow st' row Hwf Hrun) as [-> ->]. now split.
Qed.

Lemma reverseGeocode_fails_iff (lat lon : float) :
  reverseGeocode w lat lon = None <-> GeocodeFails w.
Proof.
  unfold reverseGeocode, GeocodeFails.
  destruct (geocodeReply w) as [|[] [| |a d]]; split; intros H;
    try reflexivity; try discriminate; eauto 6;
    destruct H as [H | [[b H] | [H | H]]]; discriminate.
Qed.

Lemma ward_without_hint (lat lon : float) :
  In (mapToAmravatiWard lat lon (Some "Unknown")) knownWards.
Proof.
  unfold mapToAmravatiWard, knownWards.
  destruct (inPushpak lat lon); [simpl; tauto |].
  destruct (inRajapeth lat lon); [simpl; tauto |].
  destruct (inPanchvati lat lon); [simpl; tauto |].
  destruct (inOldCity lat lon); simpl; tauto.
Qed.

Lemma accepted_run (req : Request) (lat lon : float) (st : Store) :
  WellFormed req lat lon -> Accepted w req st ->
  postComplaint w req st =
  tryCatch (tryBlock w req lat lon)
    (fun e => ret (Res500 "Failed to create complaint" e)) st.
Proof.
  intros Hwf (Hai & Hdup & Hspam).
  rewrite (postComplaint_unfold req lat lon st Hwf). cbv zeta.
  now rewrite Hai, Hdup, Hspam.
Qed.

(** With a store that accepts the writes, an accepted request is created. *)
Lemma accepted_created (req : Request) (lat lon : float) (st : Store) :
  WellFormed req lat lon -> Accepted w req st -> StoreAccepts w st ->
  exists st',
    postComplaint w req st = (st', Return (Res201 (rowOf w req st lat lon))) /\
    complaints (db st') = (complaints (db st) ++ [rowOf w req st lat lon])%list /\
    notifications (db st') = noticesAfter w req st lat lon.
Proof.
  intros Hwf Hacc (Hfc & Hfn & Hidc & Hidn).
  rewrite (accepted_run req lat lon st Hwf Hacc). unfold tryCatch.
  destruct (tryBlock w req lat lon st) as [st1 o1] eqn:E.
  destruct (tryBlock_cases _ _ _ _ _ _ E)
    as [(-> & Hc & Hn) | [(e & -> & _ & _ & _ & Hins) | (e & st2 & -> & _ & _ & Hc2 & Hins)]].
  - exists st1. auto.
  - exfalso. unfold insertNotification in Hins.
    rewrite Hfn, afterEmail_db in Hins.
    change (n_id (noticeOf w req st lat lon)) with (uid w 1 "NTF") in Hins.
    rewrite Hidn in Hins. discriminate.
  - exfalso. unfold insertComplaint in Hins. rewrite Hfc, Hc2 in Hins.
    change (c_id (rowOf w req st lat lon)) with (uid w 0 "CMP") in Hins.
    rewrite Hidc in Hins. discriminate.
Qed.

(** C7. When the reverse-geocode lookup fails (network error, non-2xx status,
    malformed body) the handler raises no error for it: the fixed fallback
    location is used (area Unknown, Amravati, Maharashtra, address Unknown,
    ward hint Unknown), the ward is one of the four zones or the unassigned
    ward, and the request ends in the created complaint unless an insert of
    the store itself raises. *)
Theorem geocode_failure_absorbed (req : Request) (lat lon : float) (st : Store) :
  WellFormed req lat lon -> Accepted w req st -> GeocodeFails w ->
  let row := rowOf w req st lat lon in
  locationOf w lat lon = fallbackLocation /\
  c_area row = "Unknown" /\ c_city row = "Amravati" /\
  c_state row = "Maharashtra" /\ c_fullAddress row = "Unknown" /\
  In (c_ward row) knownWards /\
  (exists st' resp,
     postComplaint w req st = (st', Return resp) /\
     ((resp = Res201 row /\ In row (complaints (db st'))) \/
      (exists e s1 s2,
         resp = Res500 "Failed to create complaint" e /\
         (insertNotification w (noticeOf w req st lat lon) s1 = (s2, Throw e) \/
          insertComplaint w row s1 = (s2, Throw e))))) /\
  (StoreAccepts w st ->
     exists st',
       postComplaint w req st = (st', Return (Res201 row)) /\
       In row (complaints (db st'))).
Proof.
  intros Hwf Hacc Hfail row.
  assert (Hloc : locationOf w lat lon = fallbackLocation).
  { unfold locationOf.
    now rewrite (proj2 (reverseGeocode_fails_iff lat lon) Hfail). }
  assert (Hward : c_ward row = mapToAmravatiWard lat lon (Some "Unknown")).
  { change (c_ward row) with (wardOf w lat lon). unfold wardOf. now rewrite Hloc. }
  split; [exact Hloc |].
  split; [change (c_area row) with (area (locationOf w lat lon)); now rewrite Hloc |].
  split; [change (c_city row) with (l_city (locationOf w lat lon)); now rewrite Hloc |].
  split; [change (c_state row) with (l_state (locationOf w lat lon)); now rewrite Hloc |].
  split; [change (c_fullAddress row) with (fullAddress (locationOf w lat lon));
          now rewrite Hloc |].
  split; [rewrite Hward; apply ward_without_hint |].
  split.
  - rewrite (accepted_run req lat lon st Hwf Hacc). unfold tryCatch.
    destruct (tryBlock w req lat lon st) as [st1 o1] eqn:E.
    destruct (tryBlock_cases _ _ _ _ _ _ E)
      as [(-> & Hc & Hn) | [(e & -> & _ & _ & _ & Hins) | (e & st2 & -> & _ & _ & _ & Hins)]].
    + exists st1, (Res201 row). split; [reflexivity |]. left.
      split; [reflexivity |]. rewrite Hc. apply in_or_app. right. now left.
    + exists st1, (Res500 "Failed to create complaint" e).
      split; [reflexivity |]. right. exists e, (afterEmail w st lat lon), st1. auto.
    + exists st1, (Res500 "Failed to create complaint" e).
      split; [reflexivity |]. right. exists e, st2, st1. auto.
  - intros Hstore.
    destruct (accepted_created req lat lon st Hwf Hacc Hstore) as (st' & Hrun & Hc & _).
    exists st'. split; [exact Hrun |]. rewrite Hc. apply in_or_app. right. now left.
Qed.

(** When an officer was assigned and the complaint insert raises, the
    handler answers 500 with the notification already written. *)
Lemma failed_insert_keeps_notice (req : Request) (lat lon : float) (st : Store)
    (e : string) :
  WellFormed req lat lon -> Accepted w req st ->
  present (nameOf (officerOf w st lat lon)) = true ->
  storeFault w Notifications = None ->
  existsb (fun n => String.eqb (n_id n) (uid w 1 "NTF")) (notifications (db st)) = false ->
  storeFault w Complaints = Some e ->
  exists st',
    postComplaint w req st = (st', Return (Res500 "Failed to create complaint" e)) /\
    complaints (db st') = complaints (db st) /\
    notifications (db st') =
      (notifications (db st) ++ [noticeOf w req st lat lon])%list.
Proof.
  intros Hwf Hacc Hname Hfn Hidn Hfc.
  rewrite (accepted_run req lat lon st Hwf Hacc). unfold tryCatch.
  rewrite tryBlock_unfold. cbv zeta. rewrite Hname.
  unfold insertNotification. rewrite Hfn, afterEmail_db.
  change (n_id (noticeOf w req st lat lon)) with (uid w 1 "NTF").
  rewrite Hidn. unfold insertComplaint. rewrite Hfc.
  eexists. split; [reflexivity |]. simpl. split; reflexivity.
Qed.

Lemma staleReason_trim (id s : string) :
  Occurs (staleReason id) s -> Occurs (staleReason id) (trim s).
Proof.
  apply (trim_Occurs (staleReason id) "S" "."
           ("ame image was previously reported and resolved (Complaint " ++ id ++ ").")
           ("Same image was previously reported and resolved (Complaint " ++ id ++ ")")).
  - reflexivity.
  - unfold staleReason. now rewrite !append_assoc.
  - reflexivity.
  - reflexivity.
Qed.

(** The moderation result when the duplicate query finds a row. *)
Lemma moderation_of_duplicate (req : Request) (st : Store) (h : string)
    (d : ComplaintRow) :
  computeImageHash (orEmpty (r_photoUrl req)) = Some h ->
  selectDuplicate (db st) h = Some d ->
  let m := moderationOf w req st in
  isDuplicate m = true /\
  duplicateAgainst m = Some (c_id d, c_status d) /\
  (isResolvedStatus (c_status d) = true ->
     isSpam m = true /\ Occurs (staleReason (c_id d)) (spamReason m)).
Proof.
  intros Hh Hsel. pose proof (computeImageHash_truthy _ _ Hh) as Ht.
  rewrite <- computeImageHash_trim in Hh.
  unfold moderationOf, runImageModeration. cbv zeta.
  cbn [isDuplicate duplicateAgainst isSpam spamReason].
  rewrite Hh, Ht, Hsel.
  split; [reflexivity |]. split; [reflexivity |].
  intros Hres. rewrite Hres. split; [now rewrite !orb_true_r |].
  apply staleReason_trim, join_Occurs, filter_In. split.
  - simpl. auto.
  - reflexivity.
Qed.

Lemma resolved_names (status : string) :
  In status ["Resolved"; "Resolved (Pending Admin)"; "Closed"] ->
  isResolvedStatus status = true.
Proof. intros [<- | [<- | [<- | []]]]; reflexivity. Qed.

(** C6. When the fingerprint of a submission matches stored complaints and
    every match is in a resolved state (Resolved, Resolved (Pending Admin) or
    Closed), the submission is not rejected with the duplicate-conflict
    outcome: the match sets the spam flag with the stale-duplicate reason,
    and the answer is a 422 (the spam outcome unless the AI-generated flag
    came first). *)
Theorem stale_duplicate_is_spam_signal (req : Request) (lat lon : float)
    (st : Store) (h : string) :
  WellFormed req lat lon ->
  computeImageHash (orEmpty (r_photoUrl req)) = Some h ->
  (exists r, In r (complaints (db st)) /\ c_imageHash r = Some h) ->
  (forall r, In r (complaints (db st)) -> c_imageHash r = Some h ->
     In (c_status r) ["Resolved"; "Resolved (Pending Admin)"; "Closed"]) ->
  let m := moderationOf w req st in
  imageHash m = Some h /\
  openDuplicate m = None /\
  isSpam m = true /\
  (exists d, In d (complaints (db st)) /\ c_imageHash d = Some h /\
             duplicateAgainst m = Some (c_id d, c_status d) /\
             Occurs (staleReason (c_id d)) (spamReason m)) /\
  exists resp,
    postComplaint w req st = (st, Return resp) /\
    statusCode resp = 422 /\
    (forall e dup, resp <> Res409 e dup) /\
    (isLikelyAiGenerated m = false ->
       resp = Res422 msgSpam (orElse (spamReason m) "Spam signal detected.")).
Proof.
  intros Hwf Hh (r & Hin & Hr) Hall m.
  destruct (selectDuplicate_some (db st) h r Hin Hr) as [d Hsel].
  destruct (selectDuplicate_In _ _ _ Hsel) as [Hd Hdh].
  pose proof (resolved_names _ (Hall d Hd Hdh)) as Hres.
  destruct (moderation_of_duplicate req st h d Hh Hsel) as (Hdup & Hag & Hsp).
  destruct (Hsp Hres) as [Hspam Hocc]. fold m in Hdup, Hag, Hspam, Hocc.
  assert (Hopen : openDuplicate m = None).
  { unfold openDuplicate. now rewrite Hdup, Hag, Hres. }
  split.
  { change (imageHash m) with (computeImageHash (trim (orEmpty (r_photoUrl req)))).
    now rewrite computeImageHash_trim. }
  split; [exact Hopen |]. split; [exact Hspam |].
  split; [exists d; auto |].
  pose proof (postComplaint_unfold req lat lon st Hwf) as E.
  cbv zeta in E. fold m in E. rewrite Hopen, Hspam in E.
  destruct (isLikelyAiGenerated m); eexists; (split; [exact E |]);
    (split; [reflexivity |]); (split; [discriminate |]);
    [discriminate | reflexivity].
Qed.

End Handler.

(** ** Ward routing *)

Module RoutingFacts.

Import Routing.

(** Inside a rectangle the hint of the geocoder is not consulted. *)
Lemma ward_in_zone (lat lon : float) (h1 h2 : option string) :
  inAnyZone lat lon = true ->
  mapToAmravatiWard lat lon h1 = mapToAmravatiWard lat lon h2.
Proof.
  unfold inAnyZone, mapToAmravatiWard.
  destruct (inPushpak lat lon); [reflexivity |].
  destruct (inRajapeth lat lon); [reflexivity |].
  destruct (inPanchvati lat lon); [reflexivity |].
  destruct (inOldCity lat lon); [reflexivity | discriminate].
Qed.

(** Outside the rectangles the ward is built from the hint. *)
Lemma ward_outside_zones (lat lon : float) (hint : string) :
  inAnyZone lat lon = false ->
  mapToAmravatiWard lat lon (Some hint) =
  if truthy hint && negb (String.eqb hint "Unknown")
  then "Amravati Ward – " ++ hint
  else "Amravati Ward – Unassigned".
Proof.
  unfold inAnyZone, mapToAmravatiWard.
  destruct (inPushpak lat lon); [discriminate |].
  destruct (inRajapeth lat lon); [discriminate |].
  destruct (inPanchvati lat lon); [discriminate |].
  destruct (inOldCity lat lon); [discriminate | reflexivity].
Qed.

End RoutingFacts.

Example burstPipe_created :
  exists st' row,
    postComplaint Demo.offline Demo.burstPipe Demo.freshStore
      = (st', Return (Res201 row)) /\
    c_priority row = "High" /\ c_status row = "In Progress" /\
    c_workerName row = Some "Rohit Patil" /\
    c_ward row = "Amravati Ward – Pushpak Colony Zone" /\
    c_division row = "Zone-1" /\
    List.length (notifications (db st')) = 1%nat.
Proof. vm_compute. do 2 eexists. repeat split. Qed.

Lemma burstPipe_wellFormed : WellFormed Demo.burstPipe 20.88 77.74.
Proof. repeat split. Qed.

Lemma moderation_order_witness :
  WellFormed (Demo.submission "Garbage" "test test test" EmptyString 20.88 77.74)
    20.88 77.74 /\
  postComplaint Demo.offline
    (Demo.submission "Garbage" "test test test" EmptyString 20.88 77.74)
    Demo.freshStore
  = (Demo.freshStore,
     Return (Res422 msgSpam "Description looks like spam/test content.")).
Proof.
  assert (Hwf : WellFormed
            (Demo.submission "Garbage" "test test test" EmptyString 20.88 77.74)
            20.88 77.74) by (repeat split).
  split; [exact Hwf |].
  exact (proj1 (proj2 (proj2
           (moderation_order Demo.offline _ 20.88 77.74 Demo.freshStore Hwf)))
         eq_refl eq_refl eq_refl).
Defined.

Lemma final_category_rule_witness :
  WellFormed LowConfidence.request 20.88 77.74 /\
  classifiedCategory
    (moderationOf LowConfidence.world LowConfidence.request Demo.freshStore)
    = "Road" /\
  exists st' row,
    postComplaint LowConfidence.world LowConfidence.request Demo.freshStore
      = (st', Return (Res201 row)) /\
    c_category row = "Water" /\ c_priority row = "Medium" /\
    c_department row = "Sanitation".
Proof.
  assert (Hwf : WellFormed LowConfidence.request 20.88 77.74) by (repeat split).
  split; [exact Hwf |]. split; [vm_compute; reflexivity |].
  destruct (postComplaint LowConfidence.world LowConfidence.request
              Demo.freshStore) as [st' [[| | |row|]|e]] eqn:Hrun;
    try (exfalso; vm_compute in Hrun; discriminate Hrun).
  exists st', row. split; [reflexivity |].
  destruct (final_category_rule LowConfidence.world LowConfidence.request
              20.88 77.74 Demo.freshStore st' row Hwf Hrun)
    as (_ & _ & _ & Hnorm & _ & Hprio & _ & _ & _ & _ & _ & Hdep).
  assert (Hlow : Num.ge (classificationConfidence
                   (moderationOf LowConfidence.world LowConfidence.request
                      Demo.freshStore)) 0.6 = false)
    by (vm_compute; reflexivity).
  destruct (Hnorm Hlow) as (_ & Hspell & _).
  assert (Hcat : c_category row = "Water").
  { apply Hspell; [simpl; tauto | reflexivity]. }
  split; [exact Hcat |]. split; [rewrite Hprio, Hcat; reflexivity |].
  rewrite Hdep. reflexivity.
Defined.

(** C4 as stated fails for routing.  A pothole filed under Garbage from
    between the zone rectangles is classified Road with confidence 0.75: the
    complaint is stored under Road with a priority computed for Road, no
    officer is found, and the department is the citizen's Garbage, not the
    final category. *)
Lemma department_takes_submitted_category :
  exists st' row,
    postComplaint Demo.offline Unrouted.request Demo.freshStore
      = (st', Return (Res201 row)) /\
    c_classificationConfidence row = 0.75%float /\
    c_category row = "Road" /\ c_priority row = "High" /\
    c_assignedOfficerId row = None /\
    c_department row = "Garbage".
Proof.
  vm_compute. eexists _, _. split; [reflexivity |]. repeat split.
Qed.

Lemma geocode_failure_absorbed_witness :
  WellFormed Demo.burstPipe 20.88 77.74 /\
  Accepted Demo.offline Demo.burstPipe Demo.freshStore /\
  GeocodeFails Demo.offline /\
  exists st' row,
    postComplaint Demo.offline Demo.burstPipe Demo.freshStore
      = (st', Return (Res201 row)) /\
    c_area row = "Unknown" /\ c_city row = "Amravati" /\
    c_ward row = "Amravati Ward – Pushpak Colony Zone".
Proof.
  assert (Hacc : Accepted Demo.offline Demo.burstPipe Demo.freshStore)
    by (repeat split).
  assert (Hfail : GeocodeFails Demo.offline) by (left; reflexivity).
  assert (Hstore : StoreAccepts Demo.offline Demo.freshStore) by (repeat split).
  split; [exact burstPipe_wellFormed |]. split; [exact Hacc |].
  split; [exact Hfail |].
  destruct (geocode_failure_absorbed Demo.offline Demo.burstPipe 20.88 77.74
              Demo.freshStore burstPipe_wellFormed Hacc Hfail)
    as (_ & Harea & Hcity & _ & _ & _ & _ & Hcreated).
  destruct (Hcreated Hstore) as (st' & Hrun & _).
  exists st', (rowOf Demo.offline Demo.burstPipe Demo.freshStore 20.88 77.74).
  split; [exact Hrun |]. split; [exact Harea |]. split; [exact Hcity |].
  reflexivity.
Defined.

(** C2 (the defect). The complaint insert raises for a burst-pipe report
    made inside the Pushpak Colony rectangle: the handler answers 500, no
    complaint row is stored, and the assignment notification for the failed
    complaint id, written before the insert, stays in the store (the officer
    has been mailed too). *)
Theorem failed_insert_leaves_notification :
  postComplaint
    (Demo.withFault Demo.offline
       (fun t => match t with
                 | Complaints => Some "database or disk is full"
                 | Notifications => None
                 end))
    Demo.burstPipe Demo.freshStore
  = ({| db := {| complaints := [];
                 notifications :=
                   [ {| n_id := "NTF-4e5f6a7b"; n_complaintId := "CMP-0a1b2c3d";
                        n_type := "ASSIGNED";
                        n_message :=
                          "Complaint CMP-0a1b2c3d auto-assigned to Rohit Patil (Water) in Amravati Ward – Pushpak Colony Zone.";
                        n_isRead := false |} ];
                 officers := Demo.seededOfficers |};
        outbox := [ {| e_to := "adhalhari2@gmail.com";
                       e_subject := "New Complaint Assigned" |} ] |},
     Return (Res500 "Failed to create complaint" "database or disk is full")).
Proof. vm_compute. reflexivity. Qed.

(** The same happens when the random complaint id collides with a stored
    one: the primary key rejects the row after the notification is written. *)
Example id_collision_leaves_notification :
  let taken :=
    {| db := {| complaints :=
                  [rowOf Demo.offline Demo.burstPipe Demo.freshStore 20.88 77.74];
                notifications := []; officers := Demo.seededOfficers |};
       outbox := [] |} in
  let (st', out) :=
    postComplaint Demo.offline
      (Demo.submission "Road" "Deep pothole on the main road" EmptyString 20.88 77.74)
      taken in
  out = Return (Res500 "Failed to create complaint"
                  "UNIQUE constraint failed: complaints.id") /\
  List.length (complaints (db st')) = 1%nat /\
  map n_complaintId (notifications (db st')) = ["CMP-0a1b2c3d"].
Proof. vm_compute. repeat split. Qed.

Lemma stale_duplicate_is_spam_signal_witness :
  WellFormed Stale.again 20.88 77.74 /\
  computeImageHash (orEmpty (r_photoUrl Stale.again)) = Some Stale.fingerprint /\
  postComplaint Demo.offline Stale.again Stale.closedEarlier
  = (Stale.closedEarlier,
     Return (Res422 msgSpam
       "Same image was previously reported and resolved (Complaint CMP-11111111).")).
Proof.
  assert (Hwf : WellFormed Stale.again 20.88 77.74) by (repeat split).
  assert (Hh : computeImageHash (orEmpty (r_photoUrl Stale.again))
               = Some Stale.fingerprint) by (vm_compute; reflexivity).
  split; [exact Hwf |]. split; [exact Hh |].
  destruct (stale_duplicate_is_spam_signal Demo.offline Stale.again 20.88 77.74
              Stale.closedEarlier Stale.fingerprint Hwf Hh)
    as (_ & _ & _ & _ & resp & Hrun & _ & _ & Hspam).
  - eexists. split; [left; reflexivity | reflexivity].
  - intros r [<- | []] _. simpl. auto.
  - rewrite Hrun, (Hspam eq_refl). vm_compute. reflexivity.
Defined.

Lemma degraded_confidence_witness :
  keyPresent Degraded.world = true /\
  parseImageDataUrl (orEmpty (r_photoUrl Degraded.request)) <> None /\
  geminiReply Degraded.world = GeminiJson Degraded.reply /\
  d_categoryConfidence Degraded.reply = JUndefined /\
  finalCategory (moderationOf Degraded.world Degraded.request Demo.freshStore)
    "Water" = "Road" /\
  classificationConfidence
    (moderationOf LowConfidence.world LowConfidence.request Demo.freshStore)
    = 0.3%float /\
  finalCategory
    (moderationOf LowConfidence.world LowConfidence.request Demo.freshStore)
    "water " = "Water".
Proof.
  assert (Hp : parseImageDataUrl (orEmpty (r_photoUrl Degraded.request)) <> None)
    by (vm_compute; discriminate).
  split; [reflexivity |]. split; [exact Hp |]. split; [reflexivity |].
  split; [reflexivity |].
  destruct (degraded_confidence_keeps_remote_category Degraded.world
              Degraded.request 20.88 77.74 Demo.freshStore Degraded.reply
              eq_refl Hp eq_refl) as [Hbad _].
  destruct (Hbad (or_introl eq_refl)) as (_ & _ & Hfinal & _).
  split; [exact Hfinal |].
  destruct (degraded_confidence_keeps_remote_category LowConfidence.world
              LowConfidence.request 20.88 77.74 Demo.freshStore
              LowConfidence.reply eq_refl Hp eq_refl) as (_ & Hfin & _).
  destruct (Hfin eq_refl) as (_ & Hmid & _).
  destruct (Hmid eq_refl eq_refl) as [Hc Hf].
  split; [exact Hc | exact Hf].
Defined.

(** C10 as stated fails for a confidence that is [null]: [Number(null)] is
    0, a finite number, so nothing is substituted; the confidence is 0 and
    the complaint is created under the citizen's category, not the remote
    one. *)
Lemma null_confidence_keeps_citizen_category :
  d_problemCategory NullConfidence.reply = JStr "Road" /\
  d_categoryConfidence NullConfidence.reply = JNull /\
  exists st' row,
    postComplaint NullConfidence.world Degraded.request Demo.freshStore
      = (st', Return (Res201 row)) /\
    c_classificationConfidence row = 0%float /\
    c_category row = "Water".
Proof.
  split; [reflexivity |]. split; [reflexivity |].
  vm_compute. eexists _, _. split; [reflexivity |]. split; reflexivity.
Qed.

(** C8 as stated fails: outside the rectangles the ward, and with it the
    division, follow the geocoder's hint.  Two reports from the same
    coordinates, one geocoded to the suburb Rajapeth and one with the
    geocoder down, are routed to different wards and divisions. *)
Lemma same_coordinates_different_ward :
  mapToAmravatiWard 20.895 77.75 (Some "Rajapeth") = "Amravati Ward – Rajapeth" /\
  mapToAmravatiWard 20.895 77.75 (Some "Unknown") = "Amravati Ward – Unassigned" /\
  mapWardToDivision (mapToAmravatiWard 20.895 77.75 (Some "Rajapeth")) = "Zone-2" /\
  mapWardToDivision (mapToAmravatiWard 20.895 77.75 (Some "Unknown")) = "Zone-Unmapped" /\
  let req := Demo.submission "Road" "Deep pothole on the main road" EmptyString
               20.895 77.75 in
  exists st1 row1 st2 row2,
    postComplaint (Demo.withGeocoder Demo.offline (Demo.suburbReply "Rajapeth"))
      req Demo.freshStore = (st1, Return (Res201 row1)) /\
    postComplaint Demo.offline req Demo.freshStore = (st2, Return (Res201 row2)) /\
    c_latitude row1 = c_latitude row2 /\ c_longitude row1 = c_longitude row2 /\
    c_ward row1 <> c_ward row2 /\ c_division row1 <> c_division row2.
Proof.
  vm_compute. repeat split. do 4 eexists.
  split; [reflexivity |]. split; [reflexivity |].
  repeat split; discriminate.
Qed.

(** C8, amended. Two created complaints with the same coordinates have the
    same ward and the same division whenever the coordinates lie in one of
    the four zone rectangles or the geocoder gave the same ward hint on both
    runs; nothing else (request text, store, other replies) matters. *)
Theorem ward_routing_determinism (w1 w2 : World) (req1 req2 : Request)
    (st1 st2 st1' st2' : Store) (row1 row2 : ComplaintRow) (lat lon : float) :
  WellFormed req1 lat lon -> WellFormed req2 lat lon ->
  postComplaint w1 req1 st1 = (st1', Return (Res201 row1)) ->
  postComplaint w2 req2 st2 = (st2', Return (Res201 row2)) ->
  Routing.inAnyZone lat lon = true \/
    ward (locationOf w1 lat lon) = ward (locationOf w2 lat lon) ->
  c_ward row1 = c_ward row2 /\ c_division row1 = c_division row2 /\
  c_ward row1 = mapToAmravatiWard lat lon (Some (ward (locationOf w1 lat lon))) /\
  c_division row1 = mapWardToDivision (c_ward row1).
Proof.
  intros Hwf1 Hwf2 Hrun1 Hrun2 Hsame.
  destruct (postComplaint_created w1 req1 lat lon st1 st1' row1 Hwf1 Hrun1)
    as (_ & -> & _).
  destruct (postComplaint_created w2 req2 lat lon st2 st2' row2 Hwf2 Hrun2)
    as (_ & -> & _).
  change (c_ward (rowOf w1 req1 st1 lat lon)) with (wardOf w1 lat lon).
  change (c_ward (rowOf w2 req2 st2 lat lon)) with (wardOf w2 lat lon).
  change (c_division (rowOf w1 req1 st1 lat lon))
    with (mapWardToDivision (wardOf w1 lat lon)).
  change (c_division (rowOf w2 req2 st2 lat lon))
    with (mapWardToDivision (wardOf w2 lat lon)).
  assert (Hward : wardOf w1 lat lon = wardOf w2 lat lon).
  { unfold wardOf. destruct Hsame as [Hz | Hh].
    - now apply RoutingFacts.ward_in_zone.
    - now rewrite Hh. }
  split; [exact Hward |]. split; [now rewrite Hward |]. split; reflexivity.
Qed.

Lemma ward_routing_determinism_witness :
  let road := Demo.submission "Road" "Deep pothole on the main road" EmptyString
                20.88 77.74 in
  WellFormed Demo.burstPipe 20.88 77.74 /\ WellFormed road 20.88 77.74 /\
  Routing.inAnyZone 20.88 77.74 = true /\
  exists st1 row1 st2 row2,
    postComplaint Demo.offline Demo.burstPipe Demo.freshStore
      = (st1, Return (Res201 row1)) /\
    postComplaint (Demo.withGeocoder Demo.offline (Demo.suburbReply "Camp"))
      road Demo.freshStore = (st2, Return (Res201 row2)) /\
    c_ward row1 = c_ward row2 /\ c_division row1 = c_division row2.
Proof.
  intros road.
  assert (Hwf2 : WellFormed road 20.88 77.74) by (repeat split).
  split; [exact burstPipe_wellFormed |]. split; [exact Hwf2 |].
  split; [reflexivity |].
  destruct burstPipe_created as (st1 & row1 & Hrun1 & _).
  assert (Hrun2 : exists st2 row2,
            postComplaint (Demo.withGeocoder Demo.offline (Demo.suburbReply "Camp"))
              road Demo.freshStore = (st2, Return (Res201 row2)))
    by (vm_compute; eauto).
  destruct Hrun2 as (st2 & row2 & Hrun2).
  exists st1, row1, st2, row2.
  split; [exact Hrun1 |]. split; [exact Hrun2 |].
  destruct (ward_routing_determinism Demo.offline _ Demo.burstPipe road
              Demo.freshStore Demo.freshStore st1 st2 row1 row2 20.88 77.74
              burstPipe_wellFormed Hwf2 Hrun1 Hrun2 (or_introl eq_refl))
    as (Hw & Hd & _).
  split; [exact Hw | exact Hd].
Defined.

(** ** Spam heuristics *)

Lemma In_nonempty {A} (x : A) (l : list A) :
  In x l -> negb (Nat.eqb (List.length l) 0) = true.
Proof. destruct l; [intros [] | reflexivity]. Qed.

(** C9 as stated fails: the repeated-characters rule looks at letters only.
    A description with a run of seven zeros and nothing else suspicious is
    not flagged, and the report is accepted. *)
Lemma digit_run_not_flagged :
  let description := "Pothole near marker 0000000 on the ring road" in
  Occurs (repeatChar "0" 7) description /\
  detectSpamSignals (db Demo.freshStore) (now Demo.offline) "USR-1" description
    = {| s_isSpam := false; s_reason := EmptyString |} /\
  exists st' row,
    postComplaint Demo.offline
      (Demo.submission "Road" description EmptyString 20.88 77.74)
      Demo.freshStore = (st', Return (Res201 row)).
Proof.
  split; [| split].
  - now exists "Pothole near marker ", " on the ring road".
  - vm_compute. reflexivity.
  - vm_compute. eauto.
Qed.

(** C9, amended. Every description that contains a run of seven or more
    identical ASCII letters is flagged as spam with the repeated-characters
    reason. *)
Theorem letter_run_is_spam (d : Database) (now : Z) (userId description : string)
    (c : ascii) :
  isLetter c = true ->
  Occurs (repeatChar c 7) description ->
  s_isSpam (detectSpamSignals d now userId description) = true /\
  Occurs "Description has repeated characters."
    (s_reason (detectSpamSignals d now userId description)).
Proof.
  intros Hc Hocc.
  assert (Hrun : existsSuffix letterRunAt (toLowerCase (trim description)) = true).
  { pose proof (letter_not_space c Hc) as Hsp.
    destruct (trim_Occurs (repeatChar c 7) c c (repeatChar c 6) (repeatChar c 6)
                description eq_refl eq_refl Hsp Hsp Hocc) as (pre & post & ->).
    rewrite !toLowerCase_app, toLowerCase_repeat.
    apply existsSuffix_app.
    change (repeatChar (lowerChar c) 7 ++ toLowerCase post)
      with (String (lowerChar c) (repeatChar (lowerChar c) 6 ++ toLowerCase post)).
    unfold letterRunAt. rewrite startsWith_app, andb_true_r.
    unfold isLetter. rewrite (lowerChar_letter c Hc). apply orb_true_r. }
  unfold detectSpamSignals. cbv zeta. cbn [s_isSpam s_reason]. rewrite Hrun.
  match goal with
  | |- negb (Nat.eqb (List.length ?l) 0) = true /\ _ =>
      assert (Hin : In "Description has repeated characters." l)
  end.
  { apply in_or_app. right. apply in_or_app. right. apply in_or_app. left.
    now left. }
  split; [exact (In_nonempty _ _ Hin) | exact (join_Occurs _ _ _ Hin)].
Qed.

Lemma letter_run_is_spam_witness :
  isLetter "a" = true /\
  Occurs (repeatChar "a" 7) "Pothole neaaaaaaar the marker" /\
  s_isSpam (detectSpamSignals (db Demo.freshStore) 0 "USR-1"
              "Pothole neaaaaaaar the marker") = true.
Proof.
  assert (Hocc : Occurs (repeatChar "a" 7) "Pothole neaaaaaaar the marker")
    by (now exists "Pothole ne", "r the marker").
  split; [reflexivity |]. split; [exact Hocc |].
  exact (proj1 (letter_run_is_spam (db Demo.freshStore) 0 "USR-1"
                  "Pothole neaaaaaaar the marker" "a" eq_refl Hocc)).
Defined.

(** ** The content fingerprint *)

Example decode_abc : Base64.decode "QUJD" = [65; 66; 67]%N.
Proof. reflexivity. Qed.

(** C5 as stated fails: the digest is taken over the base64 text, not over
    the bytes it encodes.  Two data URLs that encode the same two bytes, one
    with the padding character and one without, get different fingerprints,
    and neither is the digest of the bytes. *)
Lemma same_bytes_different_fingerprint :
  let padded := "data:image/png;base64,QUI=" in
  let unpadded := "data:image/png;base64,QUI" in
  decodedContent padded = Some [65; 66]%N /\
  decodedContent unpadded = Some [65; 66]%N /\
  computeImageHash padded = Some (SHA256.sha256Hex "QUI=") /\
  computeImageHash unpadded = Some (SHA256.sha256Hex "QUI") /\
  computeImageHash padded <> computeImageHash unpadded /\
  computeImageHash padded <> Some (SHA256.sha256Hex "AB").
Proof. vm_compute. repeat split; discriminate. Qed.

(** A data URL with a media-type parameter is not recognised, and the whole
    text, wrapper included, is hashed. *)
Example unrecognised_wrapper_is_hashed :
  parseImageDataUrl "data:image/png;charset=utf-8;base64,QUJD" = None /\
  computeImageHash "data:image/png;charset=utf-8;base64,QUJD" =
    Some (SHA256.sha256Hex "data:image/png;charset=utf-8;base64,QUJD") /\
  computeImageHash "data:image/png;charset=utf-8;base64,QUJD" <>
    computeImageHash "data:image/png;base64,QUJD".
Proof. vm_compute. repeat split; discriminate. Qed.

Lemma stripPrefix_some (k s r : string) :
  stripPrefix k s = Some r -> s = k ++ r.
Proof.
  revert s. induction k as [|a k IH]; intros s; simpl.
  - now intros [= ->].
  - destruct s as [|b s]; [discriminate |].
    destruct (Ascii.eqb a b) eqn:E; [| discriminate].
    apply Ascii.eqb_eq in E as ->. intros H. now rewrite (IH _ H).
Qed.

Lemma span_app (p : ascii -> bool) (s a b : string) :
  span p s = (a, b) -> s = a ++ b.
Proof.
  revert a b. induction s as [|c s IH]; intros a b; simpl.
  - now intros [= <- <-].
  - destruct (p c).
    + destruct (span p s) as [a' b']. intros [= <- <-].
      simpl. now rewrite (IH a' b' eq_refl).
    + now intros [= <- <-].
Qed.

(** What a successful [parseImageDataUrl] means. *)
Lemma parseImageDataUrl_some (p : string) (d : ImageData) :
  parseImageDataUrl p = Some d ->
  exists subtype payload,
    trim p = "data:image/" ++ subtype ++ ";base64," ++ payload /\
    forallChars isMimeChar subtype = true /\
    forallChars isPayloadChar payload = true /\
    mimeType d = "image/" ++ subtype /\
    data d = removeAll isSpace payload.
Proof.
  unfold parseImageDataUrl.
  destruct (stripPrefix "data:image/" (trim p)) as [r1|] eqn:E1; [| discriminate].
  destruct (span isMimeChar r1) as [sub r2] eqn:E2.
  destruct (isEmpty sub); [discriminate |].
  destruct (stripPrefix ";base64," r2) as [payload|] eqn:E3; [| discriminate].
  destruct (isEmpty payload); [discriminate |].
  destruct (forallChars isPayloadChar payload) eqn:E4; [| discriminate].
  intros [= <-]. exists sub, payload.
  apply stripPrefix_some in E1, E3. pose proof (span_app _ _ _ _ E2) as E5.
  split; [now rewrite E1, E5, E3 |].
  split; [| repeat split; assumption].
  clear - E2. revert sub r2 E2. induction r1 as [|c r1 IH]; intros sub r2; simpl.
  - now intros [= <- <-].
  - destruct (isMimeChar c) eqn:Ec.
    + destruct (span isMimeChar r1) as [a' b']. intros [= <- <-].
      simpl. now rewrite Ec, (IH a' b' eq_refl).
    + now intros [= <- <-].
Qed.

(** C5, amended. The hasher returns no fingerprint exactly when the trimmed
    payload is empty.  For a well-formed base64 image data URL the
    fingerprint is the SHA-256 digest of the base64 text with its white space
    removed (the media type is left out), so two such payloads with the same
    text get the same fingerprint; for any other payload it is the digest of
    the whole trimmed text. *)
Theorem fingerprint_rule (p : string) :
  (computeImageHash p = None <-> trim p = EmptyString) /\
  (forall d, parseImageDataUrl p = Some d ->
     computeImageHash p = Some (SHA256.sha256Hex (data d)) /\
     exists subtype payload,
       trim p = "data:image/" ++ subtype ++ ";base64," ++ payload /\
       data d = removeAll isSpace payload) /\
  (forall q d1 d2,
     parseImageDataUrl p = Some d1 -> parseImageDataUrl q = Some d2 ->
     data d1 = data d2 -> computeImageHash p = computeImageHash q) /\
  (parseImageDataUrl p = None -> trim p <> EmptyString ->
     computeImageHash p = Some (SHA256.sha256Hex (trim p))).
Proof.
  assert (Hsome : forall x d, parseImageDataUrl x = Some d ->
            computeImageHash x = Some (SHA256.sha256Hex (data d))).
  { intros x d Hd. unfold computeImageHash, hashedText.
    rewrite parseImageDataUrl_trim, Hd.
    destruct (parseImageDataUrl_some x d Hd) as (sub & payload & -> & _).
    reflexivity. }
  split; [| split; [| split]].
  - unfold computeImageHash. destruct (trim p); simpl; split;
      intros H; congruence.
  - intros d Hd. split; [now apply Hsome |].
    destruct (parseImageDataUrl_some p d Hd) as (sub & payload & H1 & _ & _ & _ & H2).
    now exists sub, payload.
  - intros q d1 d2 H1 H2 E. now rewrite (Hsome p d1 H1), (Hsome q d2 H2), E.
  - intros Hnone Hne. unfold computeImageHash, hashedText.
    rewrite parseImageDataUrl_trim, Hnone.
    destruct (trim p); [congruence | reflexivity].
Qed.

(** The media type and line breaks of the payload do not change the
    fingerprint. *)
Example fingerprint_ignores_type_and_line_breaks :
  computeImageHash "data:image/png;base64,QUJD" =
  computeImageHash "  data:image/jpeg;base64,QU
JD
".
Proof. vm_compute. reflexivity. Qed.


(* ================================================================== *)
(** * Further properties of the code *)
(* ================================================================== *)

(** ** Categories *)

Section CategoryFacts.

Lemma lowerChar_idem (c : ascii) : lowerChar (lowerChar c) = lowerChar c.
Proof.
  unfold lowerChar at 2. destruct (isUpper c) eqn:U; [| unfold lowerChar; now rewrite U].
  unfold lowerChar.
  assert (H : isUpper (ascii_of_N (code c + 32)) = false).
  { unfold isUpper, between in *. apply andb_true_iff in U as [U1 U2].
    apply N.leb_le in U1, U2. unfold code in *.
    rewrite N_ascii_embedding by lia.
    apply andb_false_iff. right. apply N.leb_gt. lia. }
  now rewrite H, U.
Qed.

Lemma toLowerCase_idem (s : string) : toLowerCase (toLowerCase s) = toLowerCase s.
Proof.
  induction s as [|c s IH]; simpl; [reflexivity |].
  now rewrite lowerChar_idem, IH.
Qed.

Lemma isSpace_lowerChar (c : ascii) : isSpace (lowerChar c) = isSpace c.
Proof.
  unfold lowerChar. destruct (isUpper c) eqn:U; [| reflexivity].
  unfold isUpper, between in U. apply andb_true_iff in U as [U1 U2].
  apply N.leb_le in U1, U2.
  assert (H1 : isSpace c = false).
  { unfold isSpace, between. apply orb_false_iff. split.
    - apply andb_false_iff. right. apply N.leb_gt. lia.
    - apply N.eqb_neq. lia. }
  rewrite H1. unfold isSpace, between, code in *.
  rewrite N_ascii_embedding by lia.
  apply orb_false_iff. split.
  - apply andb_false_iff. right. apply N.leb_gt. lia.
  - apply N.eqb_neq. lia.
Qed.

Lemma trimStart_lower (s : string) :
  trimStart (toLowerCase s) = toLowerCase (trimStart s).
Proof.
  induction s as [|c s IH]; simpl; [reflexivity |].
  rewrite isSpace_lowerChar. destruct (isSpace c); [exact IH | reflexivity].
Qed.

Lemma isEmpty_lower (s : string) : isEmpty (toLowerCase s) = isEmpty s.
Proof. now destruct s. Qed.

Lemma trimEnd_lower (s : string) :
  trimEnd (toLowerCase s) = toLowerCase (trimEnd s).
Proof.
  induction s as [|c s IH]; simpl; [reflexivity |].
  rewrite isSpace_lowerChar, IH, isEmpty_lower.
  destruct (isSpace c && isEmpty (trimEnd s)); reflexivity.
Qed.

Lemma trim_lower (s : string) : trim (toLowerCase s) = toLowerCase (trim s).
Proof. unfold trim. now rewrite trimStart_lower, trimEnd_lower. Qed.

Lemma normalizeCategory_In (v : string) : In (normalizeCategory v) ISSUE_CATEGORIES.
Proof.
  unfold normalizeCategory, ISSUE_CATEGORIES.
  repeat match goal with |- context [if ?b then _ else _] => destruct b end;
    simpl; tauto.
Qed.

End CategoryFacts.

(** X1. [normalizeCategory] always answers one of the five issue categories,
    is idempotent, and does not see the case of the letters or the white
    space around the value. *)
Theorem normalizeCategory_canonical (v : string) :
  In (normalizeCategory v) ISSUE_CATEGORIES /\
  normalizeCategory (normalizeCategory v) = normalizeCategory v /\
  normalizeCategory (trim v) = normalizeCategory v /\
  normalizeCategory (toLowerCase v) = normalizeCategory v.
Proof.
  split; [apply normalizeCategory_In |]. split; [| split].
  - pose proof (normalizeCategory_In v) as H. unfold ISSUE_CATEGORIES in H.
    destruct H as [<- | [<- | [<- | [<- | [<- | []]]]]]; reflexivity.
  - unfold normalizeCategory. now rewrite trim_idem.
  - unfold normalizeCategory. now rewrite trim_lower, toLowerCase_idem.
Qed.

(** ** The text classifier *)

Section ClassifierFacts.

Import Vocabulary.

Lemma includesAny_iff (description : string) (words : list string) :
  includesAny (toLowerCase description) words = true <-> Mentions words description.
Proof.
  unfold includesAny, Mentions. rewrite existsb_exists.
  split; intros (k & Hin & Hk); exists k; (split; [exact Hin |]);
    now apply includes_iff.
Qed.

Lemma includesAny_false (description : string) (words : list string) :
  ~ Mentions words description ->
  includesAny (toLowerCase description) words = false.
Proof.
  intros H. destruct (includesAny _ _) eqn:E; [| reflexivity].
  exfalso. now apply H, includesAny_iff.
Qed.

End ClassifierFacts.

(** X2. The text classifier answers the first of Garbage, Road, Water and
    Streetlight whose vocabulary the lower-cased description mentions, with
    confidence 0.75; when no vocabulary is mentioned it answers the
    normalized submitted category with confidence 0.55.  Its category is
    always one of the five issue categories. *)
Theorem classifyFromText_rules (description submitted : string) :
  let r := classifyFromText description submitted in
  let g := Vocabulary.Mentions Vocabulary.garbage description in
  let rd := Vocabulary.Mentions Vocabulary.road description in
  let wt := Vocabulary.Mentions Vocabulary.water description in
  let sl := Vocabulary.Mentions Vocabulary.streetlight description in
  (g -> r = {| category := "Garbage"; confidence := 0.75 |}) /\
  (~ g -> rd -> r = {| category := "Road"; confidence := 0.75 |}) /\
  (~ g -> ~ rd -> wt -> r = {| category := "Water"; confidence := 0.75 |}) /\
  (~ g -> ~ rd -> ~ wt -> sl ->
     r = {| category := "Streetlight"; confidence := 0.75 |}) /\
  (~ g -> ~ rd -> ~ wt -> ~ sl ->
     r = {| category := normalizeCategory submitted; confidence := 0.55 |}) /\
  In (category r) ISSUE_CATEGORIES.
Proof.
  cbv zeta. unfold classifyFromText.
  split; [| split; [| split; [| split; [| split]]]].
  - intros Hg. apply includesAny_iff in Hg. unfold Vocabulary.garbage in Hg.
    now rewrite Hg.
  - intros Hg Hr. apply includesAny_false in Hg. apply includesAny_iff in Hr.
    unfold Vocabulary.garbage in Hg. unfold Vocabulary.road in Hr.
    now rewrite Hg, Hr.
  - intros Hg Hr Hw. apply includesAny_false in Hg, Hr. apply includesAny_iff in Hw.
    unfold Vocabulary.garbage in Hg. unfold Vocabulary.road in Hr.
    unfold Vocabulary.water in Hw. now rewrite Hg, Hr, Hw.
  - intros Hg Hr Hw Hs. apply includesAny_false in Hg, Hr, Hw.
    apply includesAny_iff in Hs.
    unfold Vocabulary.garbage in Hg. unfold Vocabulary.road in Hr.
    unfold Vocabulary.water in Hw. unfold Vocabulary.streetlight in Hs.
    now rewrite Hg, Hr, Hw, Hs.
  - intros Hg Hr Hw Hs. apply includesAny_false in Hg, Hr, Hw, Hs.
    unfold Vocabulary.garbage in Hg. unfold Vocabulary.road in Hr.
    unfold Vocabulary.water in Hw. unfold Vocabulary.streetlight in Hs.
    now rewrite Hg, Hr, Hw, Hs.
  - repeat match goal with |- context [if ?b then _ else _] => destruct b end;
      try (simpl; unfold ISSUE_CATEGORIES; simpl; tauto).
    apply normalizeCategory_In.
Qed.

(** ** Ranges of a moderation result *)

Section RangeFacts.

Lemma clampConfidence_unit (x : float) :
  Num.le 0 (clampConfidence x) = true /\ Num.le (clampConfidence x) 1 = true.
Proof.
  destruct (Num.isFinite x) eqn:E.
  - now apply NumFacts.clampConfidence_range.
  - rewrite (NumFacts.clampConfidence_default x E). split; reflexivity.
Qed.

Lemma scan_shape (w : World) (photo description : string) (g : GeminiImageScan) :
  scanWithGeminiIfAvailable w photo description = Some g ->
  keyPresent w = true /\ parseImageDataUrl photo <> None /\
  exists doc, geminiReply w = GeminiJson doc /\ g = scanOfDoc w doc.
Proof.
  unfold scanWithGeminiIfAvailable.
  destruct (keyPresent w); [| discriminate].
  destruct (parseImageDataUrl photo); [| discriminate].
  destruct (geminiReply w) as [|doc]; [discriminate |].
  intros [= <-]. split; [reflexivity |]. split; [discriminate |]. now exists doc.
Qed.

Lemma classifyFromText_confidence (description submitted : string) :
  let r := classifyFromText description submitted in
  (confidence r = 0.75%float /\ Num.ge (confidence r) 0.6 = true) \/
  (confidence r = 0.55%float /\ Num.ge (confidence r) 0.6 = false /\
   category r = normalizeCategory submitted).
Proof.
  cbv zeta. unfold classifyFromText.
  repeat match goal with |- context [if ?b then _ else _] => destruct b end;
    simpl; auto.
Qed.

Lemma classifyFromText_In (description submitted : string) :
  In (category (classifyFromText description submitted)) ISSUE_CATEGORIES.
Proof.
  unfold classifyFromText.
  repeat match goal with |- context [if ?b then _ else _] => destruct b end;
    try (simpl; unfold ISSUE_CATEGORIES; simpl; tauto).
  apply normalizeCategory_In.
Qed.

(** The fields of a moderation result, by the outcome of the vision scan. *)
Lemma moderation_fields (w : World) (d : Database)
    (userId photo description submitted : string) :
  let m := runImageModeration w d userId photo description submitted in
  match scanWithGeminiIfAvailable w photo description with
  | Some g =>
      classificationConfidence m = g_categoryConfidence g /\
      classifiedCategory m =
        orElse (g_problemCategory g)
               (category (classifyFromText description submitted)) /\
      isLikelyAiGenerated m = g_isLikelyAiGenerated g /\
      model m = "gemini-2.5-flash"
  | None =>
      classificationConfidence m =
        confidence (classifyFromText description submitted) /\
      classifiedCategory m = category (classifyFromText description submitted) /\
      isLikelyAiGenerated m = false /\
      model m = "heuristic"
  end.
Proof.
  cbv zeta. unfold runImageModeration.
  cbn [classificationConfidence classifiedCategory isLikelyAiGenerated model].
  rewrite scanWithGeminiIfAvailable_trim.
  destruct (scanWithGeminiIfAvailable w photo description); auto.
Qed.

End RangeFacts.

(** X3. Whatever the vision model and the request say, the confidence of a
    moderation result lies in [0, 1], and both its classified category and
    the final category computed from it are among the five issue
    categories. *)
Theorem moderation_ranges (w : World) (d : Database)
    (userId photo description submitted : string) :
  let m := runImageModeration w d userId photo description submitted in
  Num.le 0 (classificationConfidence m) = true /\
  Num.le (classificationConfidence m) 1 = true /\
  In (classifiedCategory m) ISSUE_CATEGORIES /\
  In (finalCategory m submitted) ISSUE_CATEGORIES.
Proof.
  intros m. pose proof (moderation_fields w d userId photo description submitted) as F.
  cbv zeta in F. fold m in F.
  assert (H : Num.le 0 (classificationConfidence m) = true /\
              Num.le (classificationConfidence m) 1 = true /\
              In (classifiedCategory m) ISSUE_CATEGORIES).
  { destruct (scanWithGeminiIfAvailable w photo description) as [g|] eqn:E.
    - destruct F as (-> & -> & _).
      destruct (scan_shape _ _ _ _ E) as (_ & _ & doc & _ & ->).
      cbn [g_categoryConfidence g_problemCategory scanOfDoc].
      destruct (clampConfidence_unit (ToNumber w (d_categoryConfidence doc)))
        as [H0 H1].
      split; [exact H0 |]. split; [exact H1 |].
      unfold orElse. rewrite normalizeCategory_truthy. apply normalizeCategory_In.
    - destruct F as (-> & -> & _).
      split; [| split; [| apply classifyFromText_In]];
        destruct (classifyFromText_confidence description submitted)
          as [[-> _] | [-> _]]; reflexivity. }
  destruct H as (H0 & H1 & Hc). repeat split; try assumption.
  unfold finalCategory. destruct (Num.ge _ _); [exact Hc | apply normalizeCategory_In].
Qed.

(** X4. When the vision classifier is unavailable (no API key, a photo that
    is not an image data URL, or a failed call) the moderation result is
    purely heuristic: it is never marked AI-generated, its confidence is 0.75
    or 0.55, and the final category is the text classifier's category on
    either side of the 0.6 threshold. *)
Theorem heuristic_fallback (w : World) (d : Database)
    (userId photo description submitted : string) :
  keyPresent w = false \/ parseImageDataUrl photo = None \/
    geminiReply w = GeminiThrows ->
  let m := runImageModeration w d userId photo description submitted in
  model m = "heuristic" /\
  isLikelyAiGenerated m = false /\
  (classificationConfidence m = 0.75%float \/
   classificationConfidence m = 0.55%float) /\
  finalCategory m submitted = category (classifyFromText description submitted).
Proof.
  intros Hun m.
  assert (E : scanWithGeminiIfAvailable w photo description = None).
  { unfold scanWithGeminiIfAvailable.
    destruct Hun as [-> | [-> | ->]]; [reflexivity | |].
    - now destruct (keyPresent w).
    - destruct (keyPresent w); [| reflexivity].
      now destruct (parseImageDataUrl photo). }
  pose proof (moderation_fields w d userId photo description submitted) as F.
  cbv zeta in F. fold m in F. rewrite E in F. destruct F as (Hc & Hk & Hai & Hm).
  split; [exact Hm |]. split; [exact Hai |].
  unfold finalCategory. rewrite Hc, Hk.
  destruct (classifyFromText_confidence description submitted)
    as [[E1 E2] | (E1 & E2 & E3)]; rewrite E1 in *; rewrite E2.
  - split; [now left | reflexivity].
  - split; [now right | now rewrite E3].
Qed.

Lemma heuristic_fallback_witness :
  keyPresent Demo.offline = false /\
  finalCategory
    (runImageModeration Demo.offline (db Demo.freshStore) "USR-1" EmptyString
       "Water pipe is leaking" "Road") "Road" = "Water".
Proof.
  split; [reflexivity |].
  destruct (heuristic_fallback Demo.offline (db Demo.freshStore) "USR-1"
              EmptyString "Water pipe is leaking" "Road" (or_introl eq_refl))
    as (_ & _ & _ & H).
  rewrite H. reflexivity.
Defined.

(** ** The format of a fingerprint *)

Section DigestFormat.

Lemma hex_length (bs : list N) :
  String.length (SHA256.hex bs) = (2 * List.length bs)%nat.
Proof. induction bs as [|b bs IH]; simpl; [reflexivity | rewrite IH; lia]. Qed.

Lemma flat_map_bytesBE_length (ws : list N) :
  List.length (flat_map (SHA256.bytesBE 4) ws) = (4 * List.length ws)%nat.
Proof.
  induction ws as [|x ws IH]; [reflexivity |].
  cbn [flat_map]. rewrite length_app, IH.
  change (List.length (SHA256.bytesBE 4 x)) with 4%nat. simpl List.length. lia.
Qed.

Lemma digest_length (msg : list N) : List.length (SHA256.digest msg) = 32%nat.
Proof.
  unfold SHA256.digest. cbv zeta.
  rewrite flat_map_bytesBE_length, blocks_length; reflexivity.
Qed.

Lemma hexDigit_hex (n : N) : (n < 16)%N -> isHexChar (SHA256.hexDigit n) = true.
Proof.
  intros H. unfold SHA256.hexDigit, isHexChar, isDigit, between, code.
  destruct (n <? 10)%N eqn:E.
  - apply N.ltb_lt in E. rewrite N_ascii_embedding by lia.
    apply orb_true_iff. left. apply andb_true_iff. split; apply N.leb_le; lia.
  - apply N.ltb_ge in E. rewrite N_ascii_embedding by lia.
    apply orb_true_iff. right. apply andb_true_iff. split; apply N.leb_le; lia.
Qed.

Lemma bytesBE_small (k : nat) (x b : N) :
  In b (SHA256.bytesBE k x) -> (b < 256)%N.
Proof.
  induction k as [|k IH]; simpl; [intros [] |]. intros [<- | H]; [| now apply IH].
  change 255%N with (N.ones 8). rewrite N.land_ones.
  apply N.mod_lt. discriminate.
Qed.

Lemma hex_chars (bs : list N) :
  (forall b, In b bs -> (b < 256)%N) ->
  forallChars isHexChar (SHA256.hex bs) = true.
Proof.
  induction bs as [|b bs IH]; intros H; [reflexivity |].
  cbn [SHA256.hex forallChars].
  rewrite !andb_true_iff. split; [| split].
  - apply hexDigit_hex. rewrite N.shiftr_div_pow2.
    apply N.Div0.div_lt_upper_bound. change (2 ^ 4 * 16)%N with 256%N.
    apply H. now left.
  - apply hexDigit_hex. change 15%N with (N.ones 4). rewrite N.land_ones.
    apply N.mod_lt. discriminate.
  - apply IH. intros x Hx. apply H. now right.
Qed.

End DigestFormat.

(** X5. A fingerprint, when there is one, is 64 characters long and made of
    the digits and the letters a to f. *)
Theorem fingerprint_format (photo h : string) :
  computeImageHash photo = Some h ->
  String.length h = 64%nat /\ forallChars isHexChar h = true.
Proof.
  unfold computeImageHash. destruct (truthy (trim photo)); [| discriminate].
  intros [= <-]. unfold SHA256.sha256Hex. split.
  - now rewrite hex_length, digest_length.
  - apply hex_chars. intros b Hb. unfold SHA256.digest in Hb. cbv zeta in Hb.
    apply in_flat_map in Hb as (x & _ & Hx). exact (bytesBE_small _ _ _ Hx).
Qed.

Lemma fingerprint_format_witness :
  computeImageHash Stale.photo = Some Stale.fingerprint /\
  String.length Stale.fingerprint = 64%nat.
Proof.
  assert (H : computeImageHash Stale.photo = Some Stale.fingerprint)
    by (vm_compute; reflexivity).
  split; [exact H |]. exact (proj1 (fingerprint_format _ _ H)).
Defined.

(** ** What the intake handler writes *)

Section IntakeFacts.

Variable w : World.

(** A request is rejected with the store untouched, or it is well formed,
    accepted, and handed to the [try] block. *)
Lemma postComplaint_cases (req : Request) (st : Store) :
  (exists resp,
     postComplaint w req st = (st, Return resp) /\
     In (statusCode resp) [400; 409; 422]%nat) \/
  (exists lat lon,
     WellFormed req lat lon /\ Accepted w req st /\
     postComplaint w req st =
       tryCatch (tryBlock w req lat lon)
         (fun e => ret (Res500 "Failed to create complaint" e)) st) \/
  (exists lat lon,
     Validated req lat lon /\ isText (r_description req) = false /\
     Accepted w req st /\
     postComplaint w req st = (st, Throw "TypeError")).
Proof.
  destruct (present (r_userId req) && present (r_category req) &&
            isTruthy (r_description req)) eqn:Ep.
  - destruct (r_latitude req) as [lat|] eqn:Elat.
    + destruct (r_longitude req) as [lon|] eqn:Elon.
      * assert (Hv : Validated req lat lon).
        { apply andb_true_iff in Ep as [Ep E3].
          apply andb_true_iff in Ep as [E1 E2]. repeat split; assumption. }
        destruct (isText (r_description req)) eqn:Et.
        { assert (Hwf : WellFormed req lat lon).
          { destruct Hv as (E1 & E2 & _ & E4 & E5). repeat split; assumption. }
          rewrite (postComplaint_unfold w req lat lon st Hwf). cbv zeta.
          destruct (isLikelyAiGenerated (moderationOf w req st)) eqn:Eai.
          { left. eexists. split; [reflexivity | simpl; tauto]. }
          destruct (openDuplicate (moderationOf w req st)) eqn:Edup.
          { left. eexists. split; [reflexivity | simpl; tauto]. }
          destruct (isSpam (moderationOf w req st)) eqn:Espam.
          { left. eexists. split; [reflexivity | simpl; tauto]. }
          right; left. exists lat, lon. split; [exact Hwf |].
          split; [repeat split; assumption | reflexivity]. }
        rewrite (postComplaint_unfold_raw w req lat lon st Hv Et). cbv zeta.
        destruct (isLikelyAiGenerated (moderationOf w req st)) eqn:Eai.
        { left. eexists. split; [reflexivity | simpl; tauto]. }
        destruct (openDuplicate (moderationOf w req st)) eqn:Edup.
        { left. eexists. split; [reflexivity | simpl; tauto]. }
        destruct (isSpam (moderationOf w req st)) eqn:Espam.
        { left. eexists. split; [reflexivity | simpl; tauto]. }
        right; right. exists lat, lon. split; [exact Hv |].
        split; [reflexivity |].
        split; [repeat split; assumption | reflexivity].
      * left. exists (Res400 "Missing location"). split; [| simpl; tauto].
        unfold postComplaint. rewrite Ep, Elat, Elon. reflexivity.
    + left. exists (Res400 "Missing location"). split; [| simpl; tauto].
      unfold postComplaint. rewrite Ep, Elat. reflexivity.
  - left. exists (Res400 "Missing required fields"). split; [| simpl; tauto].
    unfold postComplaint. rewrite Ep. reflexivity.
Qed.




(** A description that is the JSON object [{}] passes validation and
    moderation (its text is [[object Object]]), and the handler raises
    before its [try] block. *)
Example object_description_no_response :
  postComplaint Demo.offline RawDescription.request Demo.freshStore
  = (Demo.freshStore, Throw "TypeError").
Proof. vm_compute. reflexivity. Qed.

(** The duplicate part of a moderation result. *)
Lemma moderation_duplicate_cases (req : Request) (st : Store) :
  let m := moderationOf w req st in
  imageHash m = computeImageHash (orEmpty (r_photoUrl req)) /\
  ((isDuplicate m = false /\ duplicateAgainst m = None /\
    forall h, imageHash m = Some h -> selectDuplicate (db st) h = None) \/
   (exists h d,
      imageHash m = Some h /\ selectDuplicate (db st) h = Some d /\
      isDuplicate m = true /\
      duplicateAgainst m = Some (c_id d, c_status d) /\
      (isResolvedStatus (c_status d) = true -> isSpam m = true))).
Proof.
  cbv zeta. unfold moderationOf, runImageModeration. cbv zeta.
  cbn [imageHash isDuplicate duplicateAgainst isSpam].
  rewrite !computeImageHash_trim.
  split; [reflexivity |].
  destruct (computeImageHash (orEmpty (r_photoUrl req))) as [h|] eqn:Eh.
  - rewrite (computeImageHash_truthy _ _ Eh).
    destruct (selectDuplicate (db st) h) as [d|] eqn:Es.
    + right. exists h, d. split; [reflexivity |]. split; [exact Es |].
      do 2 (split; [reflexivity |]).
      intros Hres. rewrite Hres. now rewrite !orb_true_r.
    + left. do 2 (split; [reflexivity |]). intros h' [= <-]. exact Es.
  - left. do 2 (split; [reflexivity |]). discriminate.
Qed.

(** An accepted request has no stored complaint with its fingerprint. *)
Lemma accepted_fresh_fingerprint (req : Request) (st : Store) :
  Accepted w req st ->
  isDuplicate (moderationOf w req st) = false /\
  forall h r,
    computeImageHash (orEmpty (r_photoUrl req)) = Some h ->
    In r (complaints (db st)) -> c_imageHash r <> Some h.
Proof.
  intros (Hai & Hopen & Hspam).
  destruct (moderation_duplicate_cases req st)
    as (Hh & [(Hd & _ & Hnone) | (h & d & _ & _ & Hd & Hag & Hres)]).
  - split; [exact Hd |]. intros h r Hc Hin Hr.
    rewrite Hh in Hnone. specialize (Hnone h Hc).
    destruct (selectDuplicate_some _ _ _ Hin Hr) as [r' Hr']. congruence.
  - exfalso. unfold openDuplicate in Hopen. rewrite Hd, Hag in Hopen.
    destruct (isResolvedStatus (c_status d)) eqn:E.
    + rewrite (Hres eq_refl) in Hspam. discriminate.
    + discriminate.
Qed.

(** X7. A complaint created by the handler never carries a moderation flag:
    its AI-generated, spam and duplicate flags are all false, its
    fingerprint is the one computed from the submitted photo, and no
    complaint stored before it has the same fingerprint. *)
Theorem created_rows_unflagged (req : Request) (lat lon : float)
    (st st' : Store) (row : ComplaintRow) :
  WellFormed req lat lon ->
  postComplaint w req st = (st', Return (Res201 row)) ->
  c_aiGeneratedFlag row = false /\ c_spamFlag row = false /\
  c_duplicateFlag row = false /\
  c_imageHash row = computeImageHash (orEmpty (r_photoUrl req)) /\
  forall h r, c_imageHash row = Some h -> In r (complaints (db st)) ->
              c_imageHash r <> Some h.
Proof.
  intros Hwf Hrun.
  destruct (postComplaint_created w req lat lon st st' row Hwf Hrun)
    as (Hacc & -> & _).
  destruct (accepted_fresh_fingerprint req st Hacc) as [Hdup Hfresh].
  destruct Hacc as (Hai & _ & Hspam).
  destruct (moderation_duplicate_cases req st) as (Hh & _).
  change (c_imageHash (rowOf w req st lat lon))
    with (imageHash (moderationOf w req st)).
  rewrite Hh. do 3 (split; [assumption |]). split; [reflexivity |].
  exact Hfresh.
Qed.

End IntakeFacts.

Lemma created_rows_unflagged_witness :
  WellFormed Demo.burstPipe 20.88 77.74 /\
  exists st' row,
    postComplaint Demo.offline Demo.burstPipe Demo.freshStore
      = (st', Return (Res201 row)) /\
    c_spamFlag row = false /\ c_duplicateFlag row = false.
Proof.
  split; [exact burstPipe_wellFormed |].
  destruct burstPipe_created as (st' & row & Hrun & _).
  exists st', row. split; [exact Hrun |].
  destruct (created_rows_unflagged Demo.offline Demo.burstPipe 20.88 77.74
              Demo.freshStore st' row burstPipe_wellFormed Hrun)
    as (_ & H1 & H2 & _).
  split; [exact H1 | exact H2].
Defined.

(** ** The shape of a created complaint *)

Section ShapeFacts.

Variable w : World.

Lemma assignPriority_In (category description : string) :
  In (assignPriority category description) PRIORITIES.
Proof.
  unfold assignPriority, PRIORITIES.
  repeat match goal with |- context [if ?b then _ else _] => destruct b end;
    simpl; tauto.
Qed.

Lemma mapWardToDivision_In (ward : string) :
  In (mapWardToDivision ward) DIVISIONS.
Proof.
  unfold mapWardToDivision, DIVISIONS.
  repeat match goal with |- context [if ?b then _ else _] => destruct b end;
    simpl; tauto.
Qed.

Lemma ward_prefix (lat lon : float) (hint : option string) :
  exists suffix,
    mapToAmravatiWard lat lon hint = wardPrefix ++ suffix /\
    truthy suffix = true.
Proof.
  unfold mapToAmravatiWard, wardPrefix.
  destruct (inPushpak lat lon); [now exists "Pushpak Colony Zone" |].
  destruct (inRajapeth lat lon); [now exists "Rajapeth Zone" |].
  destruct (inPanchvati lat lon); [now exists "Panchvati Zone" |].
  destruct (inOldCity lat lon); [now exists "Old City Zone" |].
  destruct hint as [fw|]; [| now exists "Unassigned"].
  destruct (truthy fw) eqn:E; [| now exists "Unassigned"].
  destruct (negb (String.eqb fw "Unknown")); [| now exists "Unassigned"].
  now exists fw.
Qed.

Lemma firstTruthy_truthy (candidates : list (option string)) (fallback : string) :
  truthy fallback = true -> truthy (firstTruthy candidates fallback) = true.
Proof.
  intros H. induction candidates as [|[s|] rest IH]; simpl; [exact H | | exact IH].
  destruct (truthy s) eqn:E; [exact E | exact IH].
Qed.

(** No field of the location is ever the empty string. *)
Lemma location_truthy (lat lon : float) :
  let l := locationOf w lat lon in
  truthy (area l) = true /\ truthy (l_city l) = true /\
  truthy (l_state l) = true /\ truthy (fullAddress l) = true /\
  truthy (ward l) = true.
Proof.
  cbv zeta. unfold locationOf, reverseGeocode.
  destruct (geocodeReply w) as [|[] [| |a dn]]; try (repeat split; reflexivity).
  cbn [area l_city l_state fullAddress ward].
  repeat split; now apply firstTruthy_truthy.
Qed.

(** X8. Every created complaint is well formed: its category is one of the
    five issue categories, its priority is High, Medium or Low, its status is
    Submitted or In Progress, its division is one of the five zone names, its
    ward is the ward prefix followed by a non-empty name, none of its
    location texts is empty, its confidence lies in [0, 1], and it carries
    the fresh id and the time of the request. *)
Theorem created_row_shape (req : Request) (lat lon : float)
    (st st' : Store) (row : ComplaintRow) :
  WellFormed req lat lon ->
  postComplaint w req st = (st', Return (Res201 row)) ->
  In (c_category row) ISSUE_CATEGORIES /\
  In (c_priority row) PRIORITIES /\
  In (c_status row) ["Submitted"; "In Progress"] /\
  In (c_division row) DIVISIONS /\
  (exists name, c_ward row = wardPrefix ++ name /\ truthy name = true) /\
  (truthy (c_area row) = true /\ truthy (c_city row) = true /\
   truthy (c_state row) = true /\ truthy (c_fullAddress row) = true) /\
  (Num.le 0 (c_classificationConfidence row) = true /\
   Num.le (c_classificationConfidence row) 1 = true) /\
  c_id row = "CMP-" ++ randomHex w 0 /\
  c_createdAt row = now w /\
  c_latitude row = lat /\ c_longitude row = lon.
Proof.
  intros Hwf Hrun.
  destruct (postComplaint_created w req lat lon st st' row Hwf Hrun)
    as (_ & -> & _).
  pose proof (moderation_ranges w (db st) (orEmpty (r_userId req))
                (trim (orEmpty (r_photoUrl req))) (ToString w (r_description req))
                (orEmpty (r_category req))) as R.
  cbv zeta in R. fold (moderationOf w req st) in R.
  destruct R as (R0 & R1 & _ & Rf).
  destruct (location_truthy lat lon) as (La & Lc & Ls & Lf & _).
  split; [exact Rf |].
  split; [apply assignPriority_In |].
  split.
  { change (c_status (rowOf w req st lat lon))
      with (if present (nameOf (officerOf w st lat lon))
            then "In Progress" else "Submitted").
    destruct (present _); simpl; tauto. }
  split; [apply mapWardToDivision_In |].
  split; [apply ward_prefix |].
  split; [repeat split; assumption |].
  split; [split; assumption |].
  repeat split.
Qed.

Lemma pickOfficer_spec (d : Database) (wd division : string) :
  match pickOfficerForWardOrDivision d wd division with
  | Some o =>
      In o (officers d) /\
      (o_ward o = wd \/
       ((forall o', In o' (officers d) -> o_ward o' <> wd) /\
        o_division o = division))
  | None =>
      forall o', In o' (officers d) ->
                 o_ward o' <> wd /\ o_division o' <> division
  end.
Proof.
  unfold pickOfficerForWardOrDivision.
  destruct (find (fun o => String.eqb (o_ward o) wd) (officers d)) as [o|] eqn:Ew.
  - apply find_some in Ew as [Hin Hw]. apply String.eqb_eq in Hw. auto.
  - assert (Hno : forall o', In o' (officers d) -> o_ward o' <> wd).
    { intros o' Hin. apply (find_none _ _ Ew) in Hin. now apply String.eqb_neq. }
    destruct (find (fun o => String.eqb (o_division o) division) (officers d))
      as [o|] eqn:Ed.
    + apply find_some in Ed as [Hin Hd]. apply String.eqb_eq in Hd. auto.
    + intros o' Hin. split; [now apply Hno |].
      apply (find_none _ _ Ed) in Hin. now apply String.eqb_neq.
Qed.

(** X9. Assignment is coherent on every created complaint.  When an officer
    is on the row, it is an officer of the directory whose ward is the
    complaint's ward, or whose division is the complaint's division when no
    officer has that ward; the worker name is the officer's name, and with a
    non-empty name the status is In Progress and one ASSIGNED notification
    for the complaint is added.  When no officer is on the row, no officer of
    the directory has the ward or the division, the status is Submitted, the
    department is the submitted category and no notification is added. *)
Theorem assignment_coherent (req : Request) (lat lon : float)
    (st st' : Store) (row : ComplaintRow) :
  WellFormed req lat lon ->
  postComplaint w req st = (st', Return (Res201 row)) ->
  c_workerName row = c_assignedOfficerName row /\
  match c_assignedOfficerName row with
  | Some name =>
      exists o,
        In o (officers (db st)) /\ o_name o = name /\
        c_assignedOfficerId row = Some (o_id o) /\
        (o_ward o = c_ward row \/
         ((forall o', In o' (officers (db st)) -> o_ward o' <> c_ward row) /\
          o_division o = c_division row)) /\
        if truthy name then
          c_status row = "In Progress" /\
          exists n,
            notifications (db st') = (notifications (db st) ++ [n])%list /\
            n_complaintId n = c_id row /\ n_type n = "ASSIGNED" /\
            n_isRead n = false
        else
          c_status row = "Submitted" /\
          notifications (db st') = notifications (db st)
  | None =>
      c_status row = "Submitted" /\ c_assignedOfficerId row = None /\
      c_department row = orEmpty (r_category req) /\
      notifications (db st') = notifications (db st) /\
      forall o, In o (officers (db st)) ->
                o_ward o <> c_ward row /\ o_division o <> c_division row
  end.
Proof.
  intros Hwf Hrun.
  destruct (postComplaint_created w req lat lon st st' row Hwf Hrun)
    as (_ & -> & _ & Hn).
  split; [reflexivity |].
  change (c_assignedOfficerName (rowOf w req st lat lon))
    with (nameOf (officerOf w st lat lon)).
  change (c_assignedOfficerId (rowOf w req st lat lon))
    with (option_map o_id (officerOf w st lat lon)).
  change (c_ward (rowOf w req st lat lon)) with (wardOf w lat lon).
  change (c_division (rowOf w req st lat lon))
    with (mapWardToDivision (wardOf w lat lon)).
  change (c_status (rowOf w req st lat lon))
    with (if present (nameOf (officerOf w st lat lon))
          then "In Progress" else "Submitted").
  rewrite Hn. unfold noticesAfter.
  pose proof (pickOfficer_spec (db st) (wardOf w lat lon)
                (mapWardToDivision (wardOf w lat lon))) as P.
  fold (officerOf w st lat lon) in P.
  destruct (officerOf w st lat lon) as [o|] eqn:Eo.
  - cbn [nameOf option_map]. destruct P as [Hin Hmatch].
    exists o. split; [exact Hin |]. split; [reflexivity |].
    split; [reflexivity |]. split; [exact Hmatch |].
    change (present (Some (o_name o))) with (truthy (o_name o)).
    destruct (truthy (o_name o)).
    + split; [reflexivity |]. eexists. split; [reflexivity |].
      repeat split.
    + split; reflexivity.
  - cbn [nameOf option_map]. change (present None) with false. cbv iota.
    split; [reflexivity |]. split; [reflexivity |].
    split.
    { unfold rowOf. cbn [c_department]. now rewrite Eo. }
    split; [reflexivity | exact P].
Qed.

End ShapeFacts.

Lemma created_row_shape_witness :
  WellFormed Demo.burstPipe 20.88 77.74 /\
  exists st' row,
    postComplaint Demo.offline Demo.burstPipe Demo.freshStore
      = (st', Return (Res201 row)) /\
    In (c_priority row) PRIORITIES /\ In (c_division row) DIVISIONS.
Proof.
  split; [exact burstPipe_wellFormed |].
  destruct burstPipe_created as (st' & row & Hrun & _).
  exists st', row. split; [exact Hrun |].
  destruct (created_row_shape Demo.offline Demo.burstPipe 20.88 77.74
              Demo.freshStore st' row burstPipe_wellFormed Hrun)
    as (_ & H1 & _ & H2 & _).
  split; [exact H1 | exact H2].
Defined.

Lemma assignment_coherent_witness :
  WellFormed Demo.burstPipe 20.88 77.74 /\
  exists st' row,
    postComplaint Demo.offline Demo.burstPipe Demo.freshStore
      = (st', Return (Res201 row)) /\
    c_workerName row = c_assignedOfficerName row.
Proof.
  split; [exact burstPipe_wellFormed |].
  destruct burstPipe_created as (st' & row & Hrun & _).
  exists st', row. split; [exact Hrun |].
  exact (proj1 (assignment_coherent Demo.offline Demo.burstPipe 20.88 77.74
                  Demo.freshStore st' row burstPipe_wellFormed Hrun)).
Defined.

(** ** Keys, duplicates and the mailer *)

Section KeyFacts.

Variable w : World.

Lemma existsb_id_false {A} (key : A -> string) (id : string) (rows : list A) :
  existsb (fun r => String.eqb (key r) id) rows = false ->
  ~ In id (map key rows).
Proof.
  induction rows as [|r rows IH]; simpl; [tauto |].
  intros H. apply orb_false_iff in H as [H1 H2]. apply String.eqb_neq in H1.
  intros [E | E]; [congruence | now apply IH].
Qed.

Lemma NoDup_snoc (l : list string) (x : string) :
  NoDup l -> ~ In x l -> NoDup (l ++ [x]).
Proof.
  intros Hl Hx. induction Hl as [|y l Hy Hl IH]; simpl.
  - constructor; [tauto | constructor].
  - constructor.
    + intros Hin. apply in_app_or in Hin as [Hin | [-> | []]]; [tauto |].
      apply Hx. now left.
    + apply IH. intros Hin. apply Hx. now right.
Qed.

Lemma insertComplaint_keys (row : ComplaintRow) (st st' : Store)
    (out : Outcome unit) :
  NoDup (map c_id (complaints (db st))) ->
  insertComplaint w row st = (st', out) ->
  NoDup (map c_id (complaints (db st'))).
Proof.
  intros Hnd. unfold insertComplaint.
  destruct (storeFault w Complaints); [now intros [= <- <-] |].
  destruct (existsb _ _) eqn:E; intros [= <- <-]; [exact Hnd |].
  cbn [db complaints]. rewrite map_app. apply NoDup_snoc; [exact Hnd |].
  now apply existsb_id_false.
Qed.

Lemma insertNotification_keys (row : NotificationRow) (st st' : Store)
    (out : Outcome unit) :
  NoDup (map n_id (notifications (db st))) ->
  insertNotification w row st = (st', out) ->
  NoDup (map n_id (notifications (db st'))).
Proof.
  intros Hnd. unfold insertNotification.
  destruct (storeFault w Notifications); [now intros [= <- <-] |].
  destruct (existsb _ _) eqn:E; intros [= <- <-]; [exact Hnd |].
  cbn [db notifications]. rewrite map_app. apply NoDup_snoc; [exact Hnd |].
  now apply existsb_id_false.
Qed.

(** X10. The primary keys survive the intake handler: when the stored
    complaint ids are pairwise distinct, and the notification ids too, they
    still are after any request, whatever its outcome. *)
Theorem primary_keys_kept (req : Request) (st st' : Store)
    (out : Outcome Response) :
  NoDup (map c_id (complaints (db st))) ->
  NoDup (map n_id (notifications (db st))) ->
  postComplaint w req st = (st', out) ->
  NoDup (map c_id (complaints (db st'))) /\
  NoDup (map n_id (notifications (db st'))).
Proof.
  intros Hc Hn.
  destruct (postComplaint_cases w req st)
    as [(resp & -> & _) | [(lat & lon & _ & _ & ->) | (lat & lon & _ & _ & _ & ->)]];
    [| | intros [= <- _]; now split].
  - intros [= <- _]. now split.
  - unfold tryCatch. destruct (tryBlock w req lat lon st) as [st1 o1] eqn:E.
    assert (H : NoDup (map c_id (complaints (db st1))) /\
                NoDup (map n_id (notifications (db st1)))).
    { revert E. rewrite tryBlock_unfold. cbv zeta.
      pose proof (afterEmail_db w st lat lon) as Hdb.
      assert (Hc1 : NoDup (map c_id (complaints (db (afterEmail w st lat lon)))))
        by now rewrite Hdb.
      assert (Hn1 : NoDup (map n_id (notifications (db (afterEmail w st lat lon)))))
        by now rewrite Hdb.
      destruct (present (nameOf (officerOf w st lat lon))).
      - destruct (insertNotification w _ _) as [st2 o2] eqn:E2.
        pose proof (insertNotification_keys _ _ _ _ Hn1 E2) as Hn2.
        destruct (insertNotification_inv _ _ _ _ _ E2) as (Hc2 & _).
        rewrite <- Hc2 in Hc1. destruct o2 as [[]|e].
        + destruct (insertComplaint w _ st2) as [st3 o3] eqn:E3.
          pose proof (insertComplaint_keys _ _ _ _ Hc1 E3) as Hc3.
          destruct (insertComplaint_inv _ _ _ _ _ E3) as (Hn3 & _).
          rewrite <- Hn3 in Hn2. destruct o3; intros [= <- <-]; now split.
        + intros [= <- <-]. now split.
      - destruct (insertComplaint w _ _) as [st3 o3] eqn:E3.
        pose proof (insertComplaint_keys _ _ _ _ Hc1 E3) as Hc3.
        destruct (insertComplaint_inv _ _ _ _ _ E3) as (Hn3 & _).
        rewrite <- Hn3 in Hn1. destruct o3; intros [= <- <-]; now split. }
    destruct o1; intros [= <- _]; exact H.
Qed.

Lemma filter_none {A} (f : A -> bool) (l : list A) :
  (forall x, In x l -> f x = false) -> filter f l = [].
Proof.
  induction l as [|x l IH]; intros H; simpl; [reflexivity |].
  rewrite (H x (or_introl eq_refl)). apply IH. intros y Hy. apply H. now right.
Qed.

(** A created complaint is the last row of the table. *)
Lemma created_appended (req : Request) (lat lon : float) (st st' : Store)
    (row : ComplaintRow) :
  WellFormed req lat lon ->
  postComplaint w req st = (st', Return (Res201 row)) ->
  complaints (db st') = (complaints (db st) ++ [row])%list.
Proof.
  intros Hwf Hrun.
  destruct (postComplaint_created w req lat lon st st' row Hwf Hrun)
    as (Hacc & -> & _).
  rewrite (accepted_run w req lat lon st Hwf Hacc) in Hrun. unfold tryCatch in Hrun.
  destruct (tryBlock w req lat lon st) as [st1 o1] eqn:E.
  destruct (tryBlock_cases w _ _ _ _ _ _ E)
    as [(-> & Hc & _) | [(e & -> & _) | (e & st2 & -> & _)]].
  - injection Hrun as <-. exact Hc.
  - discriminate.
  - discriminate.
Qed.

End KeyFacts.

Lemma primary_keys_kept_witness :
  NoDup (map c_id (complaints (db Demo.freshStore))) /\
  NoDup (map n_id (notifications (db Demo.freshStore))) /\
  NoDup (map c_id (complaints
    (db (fst (postComplaint Demo.offline Demo.burstPipe Demo.freshStore))))).
Proof.
  assert (H1 : NoDup (map c_id (complaints (db Demo.freshStore)))) by constructor.
  assert (H2 : NoDup (map n_id (notifications (db Demo.freshStore)))) by constructor.
  split; [exact H1 |]. split; [exact H2 |].
  exact (proj1 (primary_keys_kept Demo.offline Demo.burstPipe Demo.freshStore
                  _ _ H1 H2 (surjective_pairing _))).
Defined.

(** X11. A photo cannot be filed twice while its complaint is open.  Once a
    request with a photo has been accepted, any later request whose photo has
    the same fingerprint, made on the resulting store, is answered with the
    409 conflict naming the created complaint, unless the vision model marks
    it AI-generated (422); nothing is written. *)
Theorem resubmission_conflicts (w1 w2 : World) (req1 req2 : Request)
    (lat1 lon1 lat2 lon2 : float) (st st1 : Store) (row : ComplaintRow)
    (h : string) :
  WellFormed req1 lat1 lon1 ->
  postComplaint w1 req1 st = (st1, Return (Res201 row)) ->
  computeImageHash (orEmpty (r_photoUrl req1)) = Some h ->
  WellFormed req2 lat2 lon2 ->
  computeImageHash (orEmpty (r_photoUrl req2)) = Some h ->
  exists resp,
    postComplaint w2 req2 st1 = (st1, Return resp) /\
    (resp = Res409 msgDuplicate (c_id row, c_status row) \/
     exists reason, resp = Res422 msgAiGenerated reason).
Proof.
  intros Hwf1 Hrun1 Hh1 Hwf2 Hh2.
  pose proof (created_appended w1 req1 lat1 lon1 st st1 row Hwf1 Hrun1) as Happ.
  destruct (postComplaint_created w1 req1 lat1 lon1 st st1 row Hwf1 Hrun1)
    as (Hacc & Hrow & _).
  destruct (accepted_fresh_fingerprint w1 req1 st Hacc) as [_ Hfresh].
  assert (Hrh : c_imageHash row = Some h).
  { rewrite Hrow.
    change (c_imageHash (rowOf w1 req1 st lat1 lon1))
      with (imageHash (moderationOf w1 req1 st)).
    destruct (moderation_duplicate_cases w1 req1 st) as [-> _]. exact Hh1. }
  assert (Hsel : selectDuplicate (db st1) h = Some row).
  { unfold selectDuplicate. rewrite Happ, filter_app.
    rewrite (filter_none (hashIs h) (complaints (db st))).
    - simpl. now rewrite (proj2 (hashIs_iff h row) Hrh).
    - intros r Hin. destruct (hashIs h r) eqn:E; [| reflexivity].
      apply hashIs_iff in E. exfalso. exact (Hfresh h r Hh1 Hin E). }
  assert (Hstatus : isResolvedStatus (c_status row) = false).
  { rewrite Hrow.
    change (c_status (rowOf w1 req1 st lat1 lon1))
      with (if present (nameOf (officerOf w1 st lat1 lon1))
            then "In Progress" else "Submitted").
    now destruct (present _). }
  destruct (moderation_duplicate_cases w2 req2 st1)
    as (Hh & [(_ & _ & Hnone) | (h' & d & Hh' & Hsel' & Hd & Hag & _)]).
  - rewrite Hh in Hnone. rewrite (Hnone h Hh2) in Hsel. discriminate.
  - rewrite Hh, Hh2 in Hh'. injection Hh' as <-.
    rewrite Hsel in Hsel'. injection Hsel' as <-.
    assert (Hopen : openDuplicate (moderationOf w2 req2 st1)
                    = Some (c_id row, c_status row)).
    { unfold openDuplicate. now rewrite Hd, Hag, Hstatus. }
    rewrite (postComplaint_unfold w2 req2 lat2 lon2 st1 Hwf2). cbv zeta.
    rewrite Hopen.
    destruct (isLikelyAiGenerated (moderationOf w2 req2 st1)); eexists;
      (split; [reflexivity |]); [right; now eexists | now left].
Qed.

Lemma resubmission_conflicts_witness :
  exists st1 row resp,
    WellFormed Resubmit.first 20.88 77.74 /\
    postComplaint Demo.offline Resubmit.first Demo.freshStore
      = (st1, Return (Res201 row)) /\
    computeImageHash (orEmpty (r_photoUrl Resubmit.first)) = Some Stale.fingerprint /\
    WellFormed Resubmit.second 20.92 77.75 /\
    computeImageHash (orEmpty (r_photoUrl Resubmit.second)) = Some Stale.fingerprint /\
    postComplaint Demo.offline Resubmit.second st1 = (st1, Return resp) /\
    (resp = Res409 msgDuplicate (c_id row, c_status row) \/
     exists reason, resp = Res422 msgAiGenerated reason).
Proof.
  assert (Hrun : exists st1 row,
            postComplaint Demo.offline Resubmit.first Demo.freshStore
              = (st1, Return (Res201 row)))
    by (vm_compute; eauto).
  destruct Hrun as (st1 & row & Hrun).
  assert (Hwf1 : WellFormed Resubmit.first 20.88 77.74) by (repeat split).
  assert (Hwf2 : WellFormed Resubmit.second 20.92 77.75) by (repeat split).
  assert (Hh1 : computeImageHash (orEmpty (r_photoUrl Resubmit.first))
                = Some Stale.fingerprint) by (vm_compute; reflexivity).
  assert (Hh2 : computeImageHash (orEmpty (r_photoUrl Resubmit.second))
                = Some Stale.fingerprint) by (vm_compute; reflexivity).
  destruct (resubmission_conflicts Demo.offline Demo.offline Resubmit.first
              Resubmit.second 20.88 77.74 20.92 77.75 Demo.freshStore st1 row
              Stale.fingerprint Hwf1 Hrun Hh1 Hwf2 Hh2)
    as (resp & Hresp & Hcase).
  exists st1, row, resp. do 6 (split; [assumption |]). exact Hcase.
Defined.

Section MailerFacts.

Variable w : World.
Variable fails : bool.

Lemma insertNotification_mailer (row : NotificationRow) (s1 s2 : Store) :
  db s1 = db s2 ->
  exists d' o,
    insertNotification w row s1 = ({| db := d'; outbox := outbox s1 |}, o) /\
    insertNotification (withMailer w fails) row s2
      = ({| db := d'; outbox := outbox s2 |}, o).
Proof.
  destruct s1 as [d1 o1], s2 as [d2 o2]. cbn [db]. intros ->.
  unfold insertNotification. cbn [storeFault withMailer db outbox].
  destruct (storeFault w Notifications); [eauto |].
  destruct (existsb _ _); eauto.
Qed.

Lemma insertComplaint_mailer (row : ComplaintRow) (s1 s2 : Store) :
  db s1 = db s2 ->
  exists d' o,
    insertComplaint w row s1 = ({| db := d'; outbox := outbox s1 |}, o) /\
    insertComplaint (withMailer w fails) row s2
      = ({| db := d'; outbox := outbox s2 |}, o).
Proof.
  destruct s1 as [d1 o1], s2 as [d2 o2]. cbn [db]. intros ->.
  unfold insertComplaint. cbn [storeFault withMailer db outbox].
  destruct (storeFault w Complaints); [eauto |].
  destruct (existsb _ _); eauto.
Qed.

Lemma tryBlock_mailer (req : Request) (lat lon : float) (st : Store) :
  snd (tryBlock (withMailer w fails) req lat lon st)
    = snd (tryBlock w req lat lon st) /\
  db (fst (tryBlock (withMailer w fails) req lat lon st))
    = db (fst (tryBlock w req lat lon st)).
Proof.
  rewrite !tryBlock_unfold. cbv zeta.
  change (officerOf (withMailer w fails) st lat lon) with (officerOf w st lat lon).
  change (noticeOf (withMailer w fails) req st lat lon)
    with (noticeOf w req st lat lon).
  change (rowOf (withMailer w fails) req st lat lon) with (rowOf w req st lat lon).
  assert (Hdb : db (afterEmail w st lat lon)
                = db (afterEmail (withMailer w fails) st lat lon))
    by now rewrite !afterEmail_db.
  destruct (present (nameOf (officerOf w st lat lon))).
  - destruct (insertNotification_mailer (noticeOf w req st lat lon) _ _ Hdb)
      as (d' & o & -> & ->).
    destruct o as [[]|e]; [| split; reflexivity].
    destruct (insertComplaint_mailer (rowOf w req st lat lon)
                {| db := d'; outbox := outbox (afterEmail w st lat lon) |}
                {| db := d';
                   outbox := outbox (afterEmail (withMailer w fails) st lat lon) |}
                eq_refl) as (d2 & o2 & -> & ->).
    destruct o2 as [[]|e]; split; reflexivity.
  - destruct (insertComplaint_mailer (rowOf w req st lat lon) _ _ Hdb)
      as (d2 & o2 & -> & ->).
    destruct o2 as [[]|e]; split; reflexivity.
Qed.

(** X12. The mailer cannot change the outcome of a submission: with a
    working or a failing mail transport the handler gives the same answer
    and leaves the same tables. *)
Theorem mailer_cannot_fail_submission (req : Request) (st : Store) :
  snd (postComplaint (withMailer w fails) req st) = snd (postComplaint w req st) /\
  db (fst (postComplaint (withMailer w fails) req st))
    = db (fst (postComplaint w req st)).
Proof.
  destruct (present (r_userId req) && present (r_category req) &&
            isTruthy (r_description req)) eqn:Ep;
    [| unfold postComplaint; rewrite Ep; split; reflexivity].
  destruct (r_latitude req) as [lat|] eqn:Elat;
    [| unfold postComplaint; rewrite Ep, Elat; split; reflexivity].
  destruct (r_longitude req) as [lon|] eqn:Elon;
    [| unfold postComplaint; rewrite Ep, Elat, Elon; split; reflexivity].
  assert (Hv : Validated req lat lon).
  { apply andb_true_iff in Ep as [Ep E3].
    apply andb_true_iff in Ep as [E1 E2]. repeat split; assumption. }
  destruct (isText (r_description req)) eqn:Et; cycle 1.
  { rewrite (postComplaint_unfold_raw w req lat lon st Hv Et).
    rewrite (postComplaint_unfold_raw (withMailer w fails) req lat lon st Hv Et).
    cbv zeta.
    change (moderationOf (withMailer w fails) req st) with (moderationOf w req st).
    destruct (isLikelyAiGenerated (moderationOf w req st)); [split; reflexivity |].
    destruct (openDuplicate (moderationOf w req st)); [split; reflexivity |].
    destruct (isSpam (moderationOf w req st)); split; reflexivity. }
  assert (Hwf : WellFormed req lat lon).
  { destruct Hv as (E1 & E2 & _ & E4 & E5). repeat split; assumption. }
  rewrite (postComplaint_unfold w req lat lon st Hwf).
  rewrite (postComplaint_unfold (withMailer w fails) req lat lon st Hwf).
  cbv zeta.
  change (moderationOf (withMailer w fails) req st) with (moderationOf w req st).
  destruct (isLikelyAiGenerated (moderationOf w req st)); [split; reflexivity |].
  destruct (openDuplicate (moderationOf w req st)); [split; reflexivity |].
  destruct (isSpam (moderationOf w req st)); [split; reflexivity |].
  unfold tryCatch.
  destruct (tryBlock_mailer req lat lon st) as [Hs Hd].
  destruct (tryBlock (withMailer w fails) req lat lon st) as [s1 o1].
  destruct (tryBlock w req lat lon st) as [s2 o2].
  cbn [fst snd] in Hs, Hd. subst o2.
  destruct o1; cbn [fst snd ret]; split; congruence.
Qed.

End MailerFacts.

(** X13. The seeded directory covers the four zones and nothing else: with
    the officers seeded at start-up, coordinates inside a zone rectangle are
    routed to an officer with a name and an e-mail address whose ward is the
    computed ward and whose division is the computed division; outside the
    rectangles, a geocoder without a usable hint gives the unassigned ward,
    the unmapped division and no officer. *)
Theorem seeded_directory_covers_zones (w : World) (st : Store) (lat lon : float) :
  officers (db st) = Demo.seededOfficers ->
  (Routing.inAnyZone lat lon = true ->
   exists o,
     officerOf w st lat lon = Some o /\ In o Demo.seededOfficers /\
     o_ward o = wardOf w lat lon /\
     o_division o = mapWardToDivision (wardOf w lat lon) /\
     truthy (o_name o) = true /\ present (o_email o) = true) /\
  (Routing.inAnyZone lat lon = false ->
   ward (locationOf w lat lon) = "Unknown" ->
   wardOf w lat lon = "Amravati Ward – Unassigned" /\
   mapWardToDivision (wardOf w lat lon) = "Zone-Unmapped" /\
   officerOf w st lat lon = None).
Proof.
  intros Hseed.
  unfold officerOf, pickOfficerForWardOrDivision, wardOf, mapToAmravatiWard,
    Routing.inAnyZone.
  rewrite Hseed.
  destruct (inPushpak lat lon).
  { split; [intros _ | discriminate]. eexists. split; [reflexivity |].
    split; [simpl; tauto | repeat split]. }
  destruct (inRajapeth lat lon).
  { split; [intros _ | discriminate]. eexists. split; [reflexivity |].
    split; [simpl; tauto | repeat split]. }
  destruct (inPanchvati lat lon).
  { split; [intros _ | discriminate]. eexists. split; [reflexivity |].
    split; [simpl; tauto | repeat split]. }
  destruct (inOldCity lat lon).
  { split; [intros _ | discriminate]. eexists. split; [reflexivity |].
    split; [simpl; tauto | repeat split]. }
  split; [discriminate |]. intros _ ->. repeat split.
Qed.

Lemma seeded_directory_covers_zones_witness :
  officers (db Demo.freshStore) = Demo.seededOfficers /\
  Routing.inAnyZone 20.92 77.73 = true /\
  exists o,
    officerOf Demo.offline Demo.freshStore 20.92 77.73 = Some o /\
    o_division o = "Zone-4".
Proof.
  split; [reflexivity |]. split; [reflexivity |].
  destruct (proj1 (seeded_directory_covers_zones Demo.offline Demo.freshStore
                     20.92 77.73 eq_refl) eq_refl)
    as (o & Ho & _ & _ & Hd & _).
  exists o. split; [exact Ho |]. rewrite Hd. reflexivity.
Defined.

(** ** The worker and admin routes *)

Section RouteFacts.

Lemma selectComplaint_some (d : Database) (id : string) (r : ComplaintRow) :
  selectComplaint d id = Some r -> In r (complaints d) /\ c_id r = id.
Proof.
  unfold selectComplaint, idIs. intros H. apply find_some in H as [Hin Hid].
  split; [exact Hin | now apply String.eqb_eq].
Qed.

Lemma selectComplaint_none (d : Database) (id : string) :
  selectComplaint d id = None <->
  forall r, In r (complaints d) -> c_id r <> id.
Proof.
  unfold selectComplaint, idIs. split.
  - intros H r Hin. apply (find_none _ _ H) in Hin. now apply String.eqb_neq.
  - intros H. destruct (find _ _) as [r|] eqn:E; [| reflexivity].
    apply find_some in E as [Hin Hid]. apply String.eqb_eq in Hid.
    exfalso. exact (H r Hin Hid).
Qed.

Lemma onRow_compose (id : string) (f g : ComplaintRow -> ComplaintRow)
    (rows : list ComplaintRow) :
  (forall r, c_id (g r) = c_id r) ->
  map (onRow id f) (map (onRow id g) rows) = map (onRow id (fun r => f (g r))) rows.
Proof.
  intros Hid. rewrite map_map. apply map_ext. intros r. unfold onRow, idIs.
  destruct (String.eqb (c_id r) id) eqn:E.
  - now rewrite Hid, E.
  - now rewrite E.
Qed.

Lemma onRow_id (id : string) (rows : list ComplaintRow) :
  map (onRow id (fun r => r)) rows = rows.
Proof.
  rewrite <- (map_id rows) at 2. apply map_ext. intros r. unfold onRow.
  now destruct (idIs id r).
Qed.

End RouteFacts.

(** X14. The net effect of [PATCH /api/complaints/:id].  For an unknown id
    the answer is 404 and nothing changes.  Otherwise only the rows with the
    id change, and only in their status and worker name: the worker name is
    replaced when one is given; the status "Resolved" is stored as Resolved
    (Pending Admin), any other given status is stored as it is.  A
    RESOLVED_PENDING notification naming the worker is added exactly when the
    status is "Resolved" and the complaint was not already pending; if that
    insert raises, the answer is 500 and the status change stays. *)
Theorem patch_net_effect (w : World) (random6 id : string)
    (status workerName : option string) (st : Store) :
  match selectComplaint (db st) id with
  | None =>
      patchComplaint w random6 id status workerName st
      = (st, Return (Failure 404 "Complaint not found"))
  | Some existing =>
      exists st' reply,
        patchComplaint w random6 id status workerName st = (st', Return reply) /\
        complaints (db st') =
          map (onRow id (patched status workerName)) (complaints (db st)) /\
        officers (db st') = officers (db st) /\ outbox st' = outbox st /\
        let notice :=
          resolvedNotice random6 id (firstName workerName (c_workerName existing)) in
        if String.eqb (orEmpty status) "Resolved" &&
           negb (String.eqb (c_status existing) pendingAdmin)
        then
          (reply = Success /\
           notifications (db st') = (notifications (db st) ++ [notice])%list) \/
          (reply = Failure 500 "Failed to update complaint" /\
           notifications (db st') = notifications (db st) /\
           (storeFault w Notifications <> None \/
            existsb (fun n => String.eqb (n_id n) (n_id notice))
                    (notifications (db st)) = true))
        else
          reply = Success /\ notifications (db st') = notifications (db st)
  end.
Proof.
  destruct st as [d ob].
  unfold patchComplaint, tryCatch, bind, getDb. cbn [db outbox].
  destruct (selectComplaint d id) as [existing|] eqn:Esel; [| reflexivity].
  unfold patched, pendingAdmin, updateComplaint, ret, notifyAdminResolved,
    insertNotification.
  fold (resolvedNotice random6 id (firstName workerName (c_workerName existing))).
  destruct (present status) eqn:Ps; destruct (present workerName) eqn:Pw;
    cbn [andb]; cbn [db complaints notifications officers outbox];
    destruct (String.eqb (orEmpty status) "Resolved") eqn:Er;
    cbn [andb]; cbn [db complaints notifications officers outbox].
  all: try (destruct (negb (String.eqb (c_status existing)
                           "Resolved (Pending Admin)")) eqn:En; cbn [andb]).
  all: cbn [db complaints notifications officers outbox].
  all: try (destruct (storeFault w Notifications) as [e|] eqn:Ef;
            [| destruct (existsb _ _) eqn:Eex]).
  all: do 2 eexists; (split; [reflexivity |]);
       cbn [db complaints notifications officers outbox].
  all: split;
       [ first
           [ symmetry; apply onRow_id
           | unfold onRow; rewrite ?map_map; apply map_ext; intros r;
             unfold idIs; cbn [c_id setStatus setWorkerName];
             destruct (String.eqb (c_id r) id) eqn:E;
             cbn [c_id setStatus setWorkerName]; rewrite ?E; reflexivity ]
       | ].
  all: split; [reflexivity |]; split; [reflexivity |].
  all: first
      [ now (split; reflexivity)
      | now (left; split; reflexivity)
      | right; split; [reflexivity |]; split; [reflexivity |];
        first [ left; congruence | right; reflexivity ] ].
Qed.

(** ** Statuses written by the routes and the duplicate test *)

Section LifecycleFacts.

Lemma patch_rows (w : World) (random6 id : string)
    (status workerName : option string) (st : Store) (existing : ComplaintRow) :
  selectComplaint (db st) id = Some existing ->
  complaints (db (fst (patchComplaint w random6 id status workerName st))) =
  map (onRow id (patched status workerName)) (complaints (db st)).
Proof.
  intros Esel. destruct st as [d ob]. cbn [db] in Esel.
  unfold patchComplaint, tryCatch, bind, getDb. cbn [db outbox]. rewrite Esel.
  unfold patched, pendingAdmin, updateComplaint, ret, notifyAdminResolved,
    insertNotification.
  destruct (present status) eqn:Ps; destruct (present workerName) eqn:Pw;
    cbn [andb]; cbn [db complaints notifications officers outbox];
    destruct (String.eqb (orEmpty status) "Resolved") eqn:Er;
    cbn [andb]; cbn [db complaints notifications officers outbox].
  all: try (destruct (negb (String.eqb (c_status existing)
                           "Resolved (Pending Admin)")) eqn:En; cbn [andb]).
  all: cbn [db complaints notifications officers outbox].
  all: try (destruct (storeFault w Notifications) as [e|] eqn:Ef;
            [| destruct (existsb _ _) eqn:Eex]).
  all: cbn [fst db complaints].
  all: first
         [ symmetry; apply onRow_id
         | unfold onRow; rewrite ?map_map; apply map_ext; intros r;
           unfold idIs; cbn [c_id setStatus setWorkerName];
           destruct (String.eqb (c_id r) id) eqn:E;
           cbn [c_id setStatus setWorkerName]; rewrite ?E; reflexivity ].
Qed.

(** After a change that sets the status of the complaint, the rows with the
    fingerprint exist and all have that status. *)
Lemma rows_after_change (h id status : string) (st : Store)
    (change : ComplaintRow -> ComplaintRow) :
  FingerprintOf h id st ->
  (forall r, c_imageHash (change r) = c_imageHash r /\
             c_id (change r) = c_id r /\ c_status (change r) = status) ->
  let rows' := map (onRow id change) (complaints (db st)) in
  (exists r', In r' rows' /\ c_imageHash r' = Some h) /\
  (forall r', In r' rows' -> c_imageHash r' = Some h ->
              c_status r' = status /\ c_id r' = id).
Proof.
  intros [(r0 & Hin0 & Hid0) Hiff] Hch rows'. split.
  - exists (onRow id change r0). split; [now apply in_map |].
    unfold onRow, idIs. rewrite (proj2 (String.eqb_eq _ _) Hid0).
    rewrite (proj1 (Hch r0)). now apply (Hiff r0 Hin0).
  - intros r' Hin' Hh'. apply in_map_iff in Hin' as (r & <- & Hin).
    unfold onRow, idIs in *. destruct (String.eqb (c_id r) id) eqn:E.
    + destruct (Hch r) as (_ & Hid & Hst). apply String.eqb_eq in E.
      split; [exact Hst | congruence].
    + apply String.eqb_neq in E. exfalso. apply E. now apply (Hiff r Hin).
Qed.

(** What a later submission of the photo gets, by the status of the rows
    that carry its fingerprint. *)
Lemma duplicate_status_decides (w : World) (req : Request) (lat lon : float)
    (st : Store) (h id status : string) :
  WellFormed req lat lon ->
  computeImageHash (orEmpty (r_photoUrl req)) = Some h ->
  (exists r, In r (complaints (db st)) /\ c_imageHash r = Some h) ->
  (forall r, In r (complaints (db st)) -> c_imageHash r = Some h ->
             c_status r = status /\ c_id r = id) ->
  exists resp,
    postComplaint w req st = (st, Return resp) /\
    if isResolvedStatus status then statusCode resp = 422%nat
    else resp = Res409 msgDuplicate (id, status) \/
         exists reason, resp = Res422 msgAiGenerated reason.
Proof.
  intros Hwf Hh (r0 & Hin0 & Hr0) Hall.
  destruct (moderation_duplicate_cases w req st)
    as (Hm & [(_ & _ & Hnone) | (h' & d & Hh' & Hsel & Hd & Hag & Hres)]).
  - rewrite Hm in Hnone. specialize (Hnone h Hh).
    destruct (selectDuplicate_some _ _ _ Hin0 Hr0) as [r' Hr']. congruence.
  - rewrite Hm, Hh in Hh'. injection Hh' as <-.
    destruct (selectDuplicate_In _ _ _ Hsel) as [Hind Hdh].
    destruct (Hall d Hind Hdh) as [Hst Hid]. rewrite Hst, Hid in *.
    rewrite (postComplaint_unfold w req lat lon st Hwf). cbv zeta.
    unfold openDuplicate. rewrite Hd, Hag.
    destruct (isResolvedStatus status) eqn:E; cbn [negb].
    + rewrite (Hres eq_refl).
      destruct (isLikelyAiGenerated _); eexists; split; reflexivity.
    + destruct (isLikelyAiGenerated _); eexists; (split; [reflexivity |]);
        [right; now eexists | now left].
Qed.

End LifecycleFacts.

(** X15. The statuses written by the worker and admin routes drive the
    duplicate test as intended.  For a stored complaint that alone carries a
    fingerprint: once a worker has marked it "Resolved", or the admin has
    approved it, a new submission of the same photo is answered 422 and
    never with the 409 conflict; once the admin has rejected the resolution
    it is answered with the 409 conflict against the complaint (or the 422 of
    an AI-generated image); once the complaint is deleted the photo is no
    duplicate any more. *)
Theorem lifecycle_and_duplicates (w w2 : World) (random6 id h : string)
    (worker : option string) (req : Request) (lat lon : float) (st : Store) :
  WellFormed req lat lon ->
  computeImageHash (orEmpty (r_photoUrl req)) = Some h ->
  FingerprintOf h id st ->
  (forall st1 out,
     patchComplaint w random6 id (Some "Resolved") worker st = (st1, out) ->
     exists resp, postComplaint w2 req st1 = (st1, Return resp) /\
                  statusCode resp = 422%nat) /\
  (forall st1 out,
     adminDecision id (Some "approve") st = (st1, out) ->
     exists resp, postComplaint w2 req st1 = (st1, Return resp) /\
                  statusCode resp = 422%nat) /\
  (forall st1 out,
     adminDecision id (Some "reject") st = (st1, out) ->
     exists resp, postComplaint w2 req st1 = (st1, Return resp) /\
       (resp = Res409 msgDuplicate (id, "In Progress") \/
        exists reason, resp = Res422 msgAiGenerated reason)) /\
  (forall st1 out,
     trim id = id -> deleteComplaint id st = (st1, out) ->
     isDuplicate (moderationOf w2 req st1) = false /\
     openDuplicate (moderationOf w2 req st1) = None).
Proof.
  intros Hwf Hh Hfp.
  assert (Hsel : exists existing, selectComplaint (db st) id = Some existing).
  { destruct Hfp as [(r0 & Hin0 & Hid0) _].
    destruct (selectComplaint (db st) id) eqn:E; [eauto |].
    exfalso. exact (proj1 (selectComplaint_none _ _) E r0 Hin0 Hid0). }
  destruct Hsel as [existing Hsel].
  split; [| split; [| split]].
  - intros st1 out Hrun.
    pose proof (patch_rows w random6 id (Some "Resolved") worker st existing Hsel)
      as Hrows.
    rewrite Hrun in Hrows. cbn [fst] in Hrows.
    destruct (rows_after_change h id pendingAdmin st
                (patched (Some "Resolved") worker) Hfp) as [Hex Hall].
    { intros r. unfold patched. cbn [orEmpty String.eqb Ascii.eqb Bool.eqb].
      destruct (present worker); repeat split. }
    cbv zeta in Hex, Hall. rewrite <- Hrows in Hex, Hall.
    destruct (duplicate_status_decides w2 req lat lon st1 h id pendingAdmin
                Hwf Hh Hex Hall) as (resp & Hresp & Hcode).
    exists resp. split; [exact Hresp | exact Hcode].
  - intros st1 out. unfold adminDecision, bind, getDb. rewrite Hsel.
    cbn [orEmpty]. change (String.eqb "approve" "approve") with true. cbv iota.
    unfold updateComplaint, ret. intros Hrun.
    assert (Hc : complaints (db st1)
                 = map (onRow id (setStatus "Closed")) (complaints (db st)))
      by (injection Hrun as <- _; reflexivity).
    destruct (rows_after_change h id "Closed" st (setStatus "Closed") Hfp)
      as [Hex Hall]; [intros r; repeat split |].
    cbv zeta in Hex, Hall. rewrite <- Hc in Hex, Hall.
    destruct (duplicate_status_decides w2 req lat lon st1 h id "Closed"
                Hwf Hh Hex Hall) as (resp & Hresp & Hcode).
    exists resp. split; [exact Hresp | exact Hcode].
  - intros st1 out. unfold adminDecision, bind, getDb. rewrite Hsel.
    cbn [orEmpty]. change (String.eqb "reject" "approve") with false.
    change (String.eqb "reject" "reject") with true. cbv iota.
    unfold updateComplaint, ret. intros Hrun.
    assert (Hc : complaints (db st1)
                 = map (onRow id (setStatus "In Progress")) (complaints (db st)))
      by (injection Hrun as <- _; reflexivity).
    destruct (rows_after_change h id "In Progress" st (setStatus "In Progress") Hfp)
      as [Hex Hall]; [intros r; repeat split |].
    cbv zeta in Hex, Hall. rewrite <- Hc in Hex, Hall.
    destruct (duplicate_status_decides w2 req lat lon st1 h id "In Progress"
                Hwf Hh Hex Hall) as (resp & Hresp & Hcode).
    exists resp. split; [exact Hresp | exact Hcode].
  - intros st1 out Htrim. unfold deleteComplaint. rewrite Htrim. cbv zeta.
    intros Hrun.
    assert (Hst1 : complaints (db st1)
                   = filter (fun r => negb (idIs id r)) (complaints (db st))).
    { destruct (0 <? _)%nat; injection Hrun as <- _; reflexivity. }
    destruct (moderation_duplicate_cases w2 req st1)
      as (Hm & [(Hd & Hag & _) | (h' & d & Hh' & Hsel' & _)]).
    + split; [exact Hd |]. unfold openDuplicate. now rewrite Hd.
    + exfalso. rewrite Hm, Hh in Hh'. injection Hh' as <-.
      destruct (selectDuplicate_In _ _ _ Hsel') as [Hind Hdh].
      rewrite Hst1 in Hind. apply filter_In in Hind as [Hind Hneq].
      destruct Hfp as [_ Hiff]. apply (Hiff d Hind) in Hdh.
      unfold idIs in Hneq. rewrite (proj2 (String.eqb_eq _ _) Hdh) in Hneq.
      discriminate.
Qed.

Lemma lifecycle_and_duplicates_witness :
  WellFormed Stale.again 20.88 77.74 /\
  computeImageHash (orEmpty (r_photoUrl Stale.again)) = Some Stale.fingerprint /\
  FingerprintOf Stale.fingerprint "CMP-11111111" Stale.closedEarlier /\
  exists st1 out resp,
    adminDecision "CMP-11111111" (Some "reject") Stale.closedEarlier = (st1, out) /\
    postComplaint Demo.offline Stale.again st1 = (st1, Return resp) /\
    (resp = Res409 msgDuplicate ("CMP-11111111", "In Progress") \/
     exists reason, resp = Res422 msgAiGenerated reason).
Proof.
  assert (Hwf : WellFormed Stale.again 20.88 77.74) by (repeat split).
  assert (Hh : computeImageHash (orEmpty (r_photoUrl Stale.again))
               = Some Stale.fingerprint) by (vm_compute; reflexivity).
  assert (Hfp : FingerprintOf Stale.fingerprint "CMP-11111111" Stale.closedEarlier).
  { split.
    - eexists. split; [left; reflexivity | reflexivity].
    - intros r [<- | []]. split; reflexivity. }
  split; [exact Hwf |]. split; [exact Hh |]. split; [exact Hfp |].
  destruct (adminDecision "CMP-11111111" (Some "reject") Stale.closedEarlier)
    as [st1 out] eqn:E.
  destruct (lifecycle_and_duplicates Demo.offline Demo.offline "123456"
              "CMP-11111111" Stale.fingerprint None Stale.again 20.88 77.74
              Stale.closedEarlier Hwf Hh Hfp) as (_ & _ & Hrej & _).
  destruct (Hrej st1 out E) as (resp & Hresp & Hcase).
  exists st1, out, resp. split; [reflexivity |]. split; [exact Hresp | exact Hcase].
Defined.

(** ** Deleting, marking read, listing *)

Section TableFacts.

Lemma filter_filter_same {A} (f : A -> bool) (l : list A) :
  filter f (filter f l) = filter f l.
Proof.
  induction l as [|x l IH]; simpl; [reflexivity |].
  destruct (f x) eqn:E; simpl; [now rewrite E, IH | exact IH].
Qed.

Lemma filter_opposite {A} (f : A -> bool) (l : list A) :
  filter f (filter (fun x => negb (f x)) l) = [].
Proof.
  induction l as [|x l IH]; simpl; [reflexivity |].
  destruct (f x) eqn:E; simpl; [exact IH | now rewrite E].
Qed.

Lemma insertNewestFirst_perm (r : ComplaintRow) (rows : list ComplaintRow) :
  Permutation (insertNewestFirst r rows) (r :: rows).
Proof.
  induction rows as [|x rows IH]; simpl; [apply Permutation_refl |].
  destruct (c_createdAt x <? c_createdAt r)%Z; [apply Permutation_refl |].
  eapply perm_trans; [apply perm_skip, IH | apply perm_swap].
Qed.

Lemma newestFirst_perm (rows : list ComplaintRow) :
  Permutation (newestFirst rows) rows.
Proof.
  induction rows as [|x rows IH]; simpl; [apply perm_nil |].
  eapply perm_trans; [apply insertNewestFirst_perm | now apply perm_skip].
Qed.

Lemma insertNewestFirst_sorted (r : ComplaintRow) (rows : list ComplaintRow) :
  StronglySorted notOlder rows -> StronglySorted notOlder (insertNewestFirst r rows).
Proof.
  induction rows as [|x rows IH]; intros Hs; simpl.
  - constructor; constructor.
  - inversion Hs as [|x' rows' Hs' Hall]; subst.
    destruct (c_createdAt x <? c_createdAt r)%Z eqn:E.
    + apply Z.ltb_lt in E. constructor; [exact Hs |].
      constructor; [unfold notOlder; lia |].
      eapply Forall_impl; [| exact Hall]. unfold notOlder. intros a Ha. lia.
    + apply Z.ltb_ge in E. constructor; [now apply IH |].
      eapply Permutation_Forall;
        [apply Permutation_sym, insertNewestFirst_perm |].
      constructor; [exact E | exact Hall].
Qed.

Lemma newestFirst_sorted (rows : list ComplaintRow) :
  StronglySorted notOlder (newestFirst rows).
Proof.
  induction rows as [|x rows IH]; simpl; [constructor |].
  now apply insertNewestFirst_sorted.
Qed.

End TableFacts.

(** X16. [DELETE /api/complaints/:id] removes exactly the rows whose id is
    the trimmed parameter and keeps the other rows in order; it answers
    success when there was such a row and 404 otherwise; notifications that
    mention the complaint are left in place; deleting again answers 404 and
    changes nothing. *)
Theorem delete_effect (rawId : string) (st : Store) :
  let id := trim rawId in
  let st' := fst (deleteComplaint rawId st) in
  complaints (db st') = filter (fun r => negb (idIs id r)) (complaints (db st)) /\
  selectComplaint (db st') id = None /\
  (forall r, In r (complaints (db st')) <->
             In r (complaints (db st)) /\ c_id r <> id) /\
  notifications (db st') = notifications (db st) /\
  officers (db st') = officers (db st) /\ outbox st' = outbox st /\
  snd (deleteComplaint rawId st) =
    (match selectComplaint (db st) id with
     | Some _ => Return Success
     | None => Return (Failure 404 "Complaint not found")
     end) /\
  deleteComplaint rawId st' = (st', Return (Failure 404 "Complaint not found")).
Proof.
  cbv zeta. unfold deleteComplaint. cbv zeta.
  set (id := trim rawId). set (rows := complaints (db st)).
  assert (Hst : fst (if (0 <? List.length (filter (idIs id) rows))%nat
                     then ({| db := {| complaints := filter (fun r => negb (idIs id r)) rows;
                                       notifications := notifications (db st);
                                       officers := officers (db st) |};
                              outbox := outbox st |}, Return Success)
                     else ({| db := {| complaints := filter (fun r => negb (idIs id r)) rows;
                                       notifications := notifications (db st);
                                       officers := officers (db st) |};
                              outbox := outbox st |},
                           Return (Failure 404 "Complaint not found")))
                = {| db := {| complaints := filter (fun r => negb (idIs id r)) rows;
                              notifications := notifications (db st);
                              officers := officers (db st) |};
                     outbox := outbox st |})
    by (destruct (0 <? _)%nat; reflexivity).
  rewrite Hst. cbn [db complaints notifications officers outbox].
  assert (Hin : forall r, In r (filter (fun r => negb (idIs id r)) rows) <->
                          In r rows /\ c_id r <> id).
  { intros r. rewrite filter_In. unfold idIs. rewrite negb_true_iff.
    now rewrite String.eqb_neq. }
  split; [reflexivity |]. split.
  { apply selectComplaint_none. cbn [complaints]. intros r Hr.
    now apply Hin in Hr. }
  split; [exact Hin |]. do 3 (split; [reflexivity |]). split.
  - unfold selectComplaint. fold rows.
    destruct (find (idIs id) rows) as [r|] eqn:E.
    + apply find_some in E as [Hr Hid].
      assert (Hf : In r (filter (idIs id) rows)) by (apply filter_In; auto).
      destruct (filter (idIs id) rows); [destruct Hf | reflexivity].
    + rewrite (filter_none (idIs id) rows); [reflexivity |].
      intros x Hx. exact (find_none _ _ E x Hx).
  - rewrite filter_opposite. cbn [List.length Nat.ltb Nat.leb].
    now rewrite filter_filter_same.
Qed.

(** X17. [PATCH /api/admin/notifications/:id/read] marks the notifications
    with the id as read and changes nothing else: ids, texts and order stay,
    a notification that was read stays read, the count answered is the
    number of notifications with the id (0 for an unknown id, never a 404),
    and marking again gives the same store and the same count. *)
Theorem mark_read_effect (id : string) (st : Store) :
  let st' := fst (markNotificationRead id st) in
  let hits := List.length (filter (hasId id) (notifications (db st))) in
  snd (markNotificationRead id st) = Return (UpdatedRows hits) /\
  map n_id (notifications (db st')) = map n_id (notifications (db st)) /\
  map n_message (notifications (db st')) = map n_message (notifications (db st)) /\
  map n_complaintId (notifications (db st'))
    = map n_complaintId (notifications (db st)) /\
  map n_isRead (notifications (db st'))
    = map (fun n => hasId id n || n_isRead n) (notifications (db st)) /\
  complaints (db st') = complaints (db st) /\
  officers (db st') = officers (db st) /\
  markNotificationRead id st' = (st', Return (UpdatedRows hits)).
Proof.
  cbv zeta. unfold markNotificationRead. cbn [fst snd db complaints notifications
    officers outbox].
  set (mark := fun n : NotificationRow =>
         if String.eqb (n_id n) id
         then {| n_id := n_id n; n_complaintId := n_complaintId n;
                 n_type := n_type n; n_message := n_message n; n_isRead := true |}
         else n).
  split; [reflexivity |].
  split; [rewrite map_map; apply map_ext; intros n; unfold mark;
          now destruct (String.eqb (n_id n) id) |].
  split; [rewrite map_map; apply map_ext; intros n; unfold mark;
          now destruct (String.eqb (n_id n) id) |].
  split; [rewrite map_map; apply map_ext; intros n; unfold mark;
          now destruct (String.eqb (n_id n) id) |].
  split; [rewrite map_map; apply map_ext; intros n; unfold mark, hasId;
          now destruct (String.eqb (n_id n) id) |].
  do 2 (split; [reflexivity |]).
  assert (Hidem : map mark (map mark (notifications (db st)))
                  = map mark (notifications (db st))).
  { rewrite map_map. apply map_ext. intros n. unfold mark at 2.
    destruct (String.eqb (n_id n) id) eqn:E; unfold mark; cbn [n_id];
      now rewrite E. }
  assert (Hcount : filter (fun n => String.eqb (n_id n) id)
                     (map mark (notifications (db st)))
                   = map mark (filter (hasId id) (notifications (db st)))).
  { clear Hidem. induction (notifications (db st)) as [|n l IH]; [reflexivity |].
    cbn [map filter]. unfold hasId at 1.
    assert (Hid : n_id (mark n) = n_id n)
      by (unfold mark; now destruct (String.eqb (n_id n) id)).
    rewrite Hid. destruct (String.eqb (n_id n) id); cbn [map]; now rewrite IH. }
  fold mark. rewrite Hidem, Hcount, length_map. reflexivity.
Qed.

(** X18. [GET /api/complaints] answers exactly the stored rows the query may
    see, each once, newest first: a citizen id selects the rows of that
    citizen whatever worker name is also given, a worker name alone selects
    the rows where it is the worker or the assigned officer, and no
    parameter selects every row. *)
Theorem listing_sorted_permutation (queryUserId queryWorkerName : option string)
    (d : Database) :
  let rows := listComplaints queryUserId queryWorkerName d in
  Permutation rows
    (filter (visibleTo queryUserId queryWorkerName) (complaints d)) /\
  StronglySorted notOlder rows /\
  (forall r, In r rows <->
             In r (complaints d) /\
             visibleTo queryUserId queryWorkerName r = true) /\
  (truthy (trim (orEmpty queryUserId)) = true ->
   forall r, In r rows -> c_userId r = trim (orEmpty queryUserId)).
Proof.
  cbv zeta.
  assert (Hperm : Permutation (listComplaints queryUserId queryWorkerName d)
            (filter (visibleTo queryUserId queryWorkerName) (complaints d))).
  { unfold listComplaints, visibleTo. cbv zeta.
    destruct (truthy (trim (orEmpty queryUserId))); [apply newestFirst_perm |].
    destruct (truthy (trim (orEmpty queryWorkerName))); [apply newestFirst_perm |].
    eapply perm_trans; [apply newestFirst_perm |].
    clear. induction (complaints d) as [|x l IH]; simpl; [constructor |].
    now apply perm_skip. }
  assert (Hin : forall r, In r (listComplaints queryUserId queryWorkerName d) <->
                  In r (complaints d) /\
                  visibleTo queryUserId queryWorkerName r = true).
  { intros r. rewrite <- filter_In. split; intros H.
    - eapply Permutation_in; [exact Hperm | exact H].
    - eapply Permutation_in; [apply Permutation_sym, Hperm | exact H]. }
  split; [exact Hperm |]. split.
  { unfold listComplaints. cbv zeta.
    destruct (truthy (trim (orEmpty queryUserId))); [apply newestFirst_sorted |].
    destruct (truthy (trim (orEmpty queryWorkerName))); apply newestFirst_sorted. }
  split; [exact Hin |].
  intros Hu r Hr. apply Hin in Hr as [_ Hv]. unfold visibleTo in Hv.
  cbv zeta in Hv. rewrite Hu in Hv. now apply String.eqb_eq.
Qed.

(** ** Accounts *)

Section AccountFacts.

Lemma find_app_skip {A} (f : A -> bool) (l1 l2 : list A) :
  (forall x, In x l1 -> f x = false) -> find f (l1 ++ l2) = find f l2.
Proof.
  induction l1 as [|x l1 IH]; intros H; simpl; [reflexivity |].
  rewrite (H x (or_introl eq_refl)). apply IH. intros y Hy. apply H. now right.
Qed.

Lemma existsb_false_In {A} (f : A -> bool) (l : list A) :
  existsb f l = false -> forall x, In x l -> f x = false.
Proof.
  intros H x Hx. destruct (f x) eqn:E; [| reflexivity].
  assert (existsb f l = true) by (apply existsb_exists; eauto). congruence.
Qed.

End AccountFacts.

(** X19. Sign-up either fails with a 400 and leaves the users as they were,
    or appends one user under the fresh id.  The stored role is citizen or
    worker, never admin, whatever role was asked for; the e-mail address and
    the id were not in use, so distinct e-mail addresses stay distinct; and
    the new user can log in at once with the same password and the stored
    role, while a login asking for the admin role is refused with a 403. *)
Theorem signup_sound (w : World) (name email password role : option string)
    (users : list UserRow) :
  match signup w name email password role users with
  | (users', Registered id n e r) =>
      (r = "citizen" \/ r = "worker") /\
      (r = "worker" <-> role = Some "worker") /\
      id = uid w 0 "USR" /\ n = orEmpty name /\ e = orEmpty email /\
      users' = (users ++ [{| u_id := id; u_name := n; u_email := e;
                             u_password := orEmpty password; u_role := r |}])%list /\
      (forall u, In u users -> u_email u <> e /\ u_id u <> id) /\
      (NoDup (map u_email users) -> NoDup (map u_email users')) /\
      login (Some e) password (Some r) users' = LoggedIn id n e r /\
      login (Some e) password (Some "admin") users'
        = AuthFailure 403 "Invalid credentials or unauthorized role"
  | (users', AuthFailure code _) => code = 400%nat /\ users' = users
  | (_, LoggedIn _ _ _ _) => False
  end.
Proof.
  unfold signup.
  destruct (present name && present email && present password) eqn:Ep;
    cbn [negb]; [| split; reflexivity].
  apply andb_true_iff in Ep as [Ep Hpw]. apply andb_true_iff in Ep as [Hn He].
  destruct (existsb _ users) eqn:Eex; [split; reflexivity |].
  pose proof (existsb_false_In _ _ Eex) as Hfree. cbv beta in Hfree.
  set (r := if optionIs role "worker" || optionIs role "citizen"
            then orEmpty role else "citizen").
  assert (Hr : (r = "citizen" \/ r = "worker") /\
               (r = "worker" <-> role = Some "worker")).
  { unfold r. destruct role as [x|]; cbn [optionIs orEmpty orb].
    - destruct (String.eqb x "worker") eqn:E1.
      + apply String.eqb_eq in E1 as ->. cbn [orb]. split; [now right | tauto].
      + cbn [orb]. apply String.eqb_neq in E1.
        destruct (String.eqb x "citizen") eqn:E2.
        * apply String.eqb_eq in E2 as ->. split; [now left |].
          split; [discriminate | intros [= H]; discriminate].
        * split; [now left |].
          split; [discriminate | intros [= H]; congruence].
    - split; [now left |]. split; discriminate. }
  destruct Hr as [Hr1 Hr2].
  assert (Hfresh : forall u, In u users ->
            u_email u <> orEmpty email /\ u_id u <> uid w 0 "USR").
  { intros u Hu. specialize (Hfree u Hu). apply orb_false_iff in Hfree as [H1 H2].
    apply String.eqb_neq in H1, H2. now split. }
  assert (Hlogin : forall asked,
            truthy asked = true ->
            login (Some (orEmpty email)) password (Some asked)
              (users ++ [{| u_id := uid w 0 "USR"; u_name := orEmpty name;
                            u_email := orEmpty email;
                            u_password := orEmpty password; u_role := r |}])
            = if negb (String.eqb r asked)
              then AuthFailure 403 "Invalid credentials or unauthorized role"
              else LoggedIn (uid w 0 "USR") (orEmpty name) (orEmpty email) r).
  { intros asked Ha. unfold login.
    change (present (Some (orEmpty email))) with (present email).
    change (present (Some asked)) with (truthy asked).
    rewrite He, Hpw, Ha. cbn [andb negb orEmpty].
    rewrite find_app_skip.
    - cbn [find u_email u_password]. now rewrite !String.eqb_refl.
    - intros u Hu. destruct (Hfresh u Hu) as [H1 _].
      apply String.eqb_neq in H1. now rewrite H1. }
  split; [exact Hr1 |]. split; [exact Hr2 |].
  do 4 (split; [reflexivity |]). split; [exact Hfresh |]. split.
  { intros Hnd. rewrite map_app. apply NoDup_snoc; [exact Hnd |].
    cbn [map u_email]. intros Hin. apply in_map_iff in Hin as (u & Hu & Hin).
    destruct (Hfresh u Hin) as [H1 _]. congruence. }
  split.
  - rewrite Hlogin; [now rewrite String.eqb_refl |].
    destruct Hr1 as [-> | ->]; reflexivity.
  - rewrite Hlogin; [| reflexivity].
    destruct Hr1 as [-> | ->]; reflexivity.
Qed.

(** X20. Login answers a user only for stored credentials and the stored
    role: a success names a stored user with that e-mail address, password
    and role; a 401 means no stored user has the e-mail address with the
    password; a 403 means the first such user has another role; a 400 means
    a field is missing. *)
Theorem login_sound (email password role : option string) (users : list UserRow) :
  let matches := fun u =>
    String.eqb (u_email u) (orEmpty email) &&
    String.eqb (u_password u) (orEmpty password) in
  match login email password role users with
  | LoggedIn id n e r =>
      exists u, In u users /\ u = {| u_id := id; u_name := n; u_email := e;
                                      u_password := orEmpty password; u_role := r |} /\
                e = orEmpty email /\ r = orEmpty role /\
                truthy e = true /\ truthy (orEmpty password) = true
  | AuthFailure code _ =>
      (code = 400%nat /\
       (present email = false \/ present password = false \/ present role = false)) \/
      (code = 401%nat /\ forall u, In u users -> matches u = false) \/
      (code = 403%nat /\
       exists u, In u users /\ matches u = true /\ u_role u <> orEmpty role)
  | Registered _ _ _ _ => False
  end.
Proof.
  cbv zeta. unfold login.
  destruct (present email) eqn:He; cbn [andb negb]; [| left; auto].
  destruct (present password) eqn:Hp; cbn [andb negb]; [| left; auto].
  destruct (present role) eqn:Hr; cbn [andb negb]; [| left; auto].
  destruct (find _ users) as [u|] eqn:Ef.
  - apply find_some in Ef as [Hin Hm].
    destruct (String.eqb (u_role u) (orEmpty role)) eqn:Er; cbn [negb].
    + apply String.eqb_eq in Er. apply andb_true_iff in Hm as [H1 H2].
      apply String.eqb_eq in H1, H2. exists u. split; [exact Hin |].
      split; [destruct u; cbn in *; congruence |].
      split; [exact H1 |]. split; [exact Er |]. rewrite H1. now split.
    + right; right. split; [reflexivity |]. exists u.
      apply String.eqb_neq in Er. auto.
  - right; left. split; [reflexivity |]. exact (find_none _ _ Ef).
Qed.

(** ** Image data URLs *)

Section DataUrlFacts.

Lemma trimStart_spaces (ws s : string) :
  allSpace ws -> trimStart (ws ++ s) = trimStart s.
Proof.
  unfold allSpace. induction ws as [|c ws IH]; simpl; [reflexivity |].
  intros H. apply andb_true_iff in H as [Hc Hws]. rewrite Hc. now apply IH.
Qed.

Lemma trimStart_allSpace (ws : string) : allSpace ws -> trimStart ws = EmptyString.
Proof.
  intros H. rewrite <- (append_nil_r ws). now rewrite trimStart_spaces.
Qed.

Lemma trimEnd_allSpace (ws : string) : allSpace ws -> trimEnd ws = EmptyString.
Proof.
  unfold allSpace. induction ws as [|c ws IH]; simpl; [reflexivity |].
  intros H. apply andb_true_iff in H as [Hc Hws]. now rewrite (IH Hws), Hc.
Qed.

Lemma trimEnd_spaces (s ws : string) :
  allSpace ws -> trimEnd (s ++ ws) = trimEnd s.
Proof.
  intros H. induction s as [|c s IH]; simpl.
  - now apply trimEnd_allSpace.
  - now rewrite IH.
Qed.

Lemma trimEnd_last (pre : string) (c : ascii) :
  isSpace c = false -> trimEnd (pre ++ String c EmptyString) = pre ++ String c EmptyString.
Proof.
  intros Hc. induction pre as [|x pre IH]; simpl.
  - now rewrite Hc.
  - rewrite IH.
    assert (E : isEmpty (pre ++ String c EmptyString) = false) by now destruct pre.
    now rewrite E, andb_false_r.
Qed.

(** The last character of a trimmed text is not white space. *)
Lemma trimEnd_ends (s pre : string) (c : ascii) :
  trimEnd s = pre ++ String c EmptyString -> isSpace c = false.
Proof.
  revert pre. induction s as [|a s IH]; intros pre; simpl.
  - destruct pre; discriminate.
  - destruct (isSpace a && isEmpty (trimEnd s)) eqn:E.
    + destruct pre; discriminate.
    + destruct pre as [|b pre]; simpl.
      * intros [= -> Hs]. rewrite Hs in E. simpl in E.
        now rewrite andb_true_r in E.
      * intros [= _ Hs]. exact (IH _ Hs).
Qed.

Lemma string_snoc (s : string) :
  s <> EmptyString -> exists body c, s = body ++ String c EmptyString.
Proof.
  induction s as [|a s IH]; [congruence | intros _].
  destruct s as [|b s].
  - now exists EmptyString, a.
  - destruct IH as (body & c & E); [discriminate |].
    exists (String a body), c. simpl. now rewrite <- E.
Qed.

(** White space around a text does not change what [trim] leaves. *)
Lemma trim_padded (ws1 ws2 s : string) :
  allSpace ws1 -> allSpace ws2 -> trim (ws1 ++ s ++ ws2) = trim s.
Proof.
  intros H1 H2. unfold trim. rewrite trimStart_spaces by exact H1.
  induction s as [|c s IH]; simpl.
  - now rewrite (trimStart_allSpace ws2 H2).
  - destruct (isSpace c); [exact IH |].
    change (String c (s ++ ws2)) with (String c s ++ ws2).
    now apply trimEnd_spaces.
Qed.

Lemma stripPrefix_app (k r : string) : stripPrefix k (k ++ r) = Some r.
Proof.
  induction k as [|a k IH]; simpl; [reflexivity |].
  now rewrite Ascii.eqb_refl.
Qed.

Lemma span_stop (p : ascii -> bool) (a : string) (c : ascii) (b : string) :
  forallChars p a = true -> p c = false ->
  span p (a ++ String c b) = (a, String c b).
Proof.
  intros Ha Hc. induction a as [|x a IH]; simpl.
  - now rewrite Hc.
  - simpl in Ha. apply andb_true_iff in Ha as [Hx Ha].
    now rewrite Hx, (IH Ha).
Qed.

Lemma span_forall (p : ascii -> bool) (s a b : string) :
  span p s = (a, b) -> forallChars p a = true.
Proof.
  revert a b. induction s as [|c s IH]; intros a b; simpl.
  - now intros [= <- <-].
  - destruct (p c) eqn:Ec.
    + destruct (span p s) as [a' b']. intros [= <- <-].
      simpl. now rewrite Ec, (IH a' b' eq_refl).
    + now intros [= <- <-].
Qed.

Lemma forallChars_app (p : ascii -> bool) (a b : string) :
  forallChars p (a ++ b) = forallChars p a && forallChars p b.
Proof.
  induction a as [|c a IH]; simpl; [reflexivity |].
  now rewrite IH, andb_assoc.
Qed.

Lemma removeAll_app (p : ascii -> bool) (a b : string) :
  removeAll p (a ++ b) = removeAll p a ++ removeAll p b.
Proof.
  induction a as [|c a IH]; simpl; [reflexivity |].
  destruct (p c); simpl; now rewrite IH.
Qed.

Lemma removeAll_clean (p q : ascii -> bool) (s : string) :
  forallChars q s = true ->
  forallChars (fun c => q c && negb (p c)) (removeAll p s) = true.
Proof.
  induction s as [|c s IH]; simpl; [reflexivity |].
  intros H. apply andb_true_iff in H as [Hc Hs].
  destruct (p c) eqn:Ep; simpl; [now apply IH |].
  now rewrite Hc, Ep, (IH Hs).
Qed.

Lemma removeAll_fixed (p q : ascii -> bool) (s : string) :
  forallChars (fun c => q c && negb (p c)) s = true -> removeAll p s = s.
Proof.
  induction s as [|c s IH]; simpl; [reflexivity |].
  intros H. apply andb_true_iff in H as [Hc Hs].
  apply andb_true_iff in Hc as [_ Hc]. apply negb_true_iff in Hc.
  now rewrite Hc, (IH Hs).
Qed.

Lemma forallChars_weaken (p q : ascii -> bool) (s : string) :
  (forall c, p c = true -> q c = true) ->
  forallChars p s = true -> forallChars q s = true.
Proof.
  intros Hpq. induction s as [|c s IH]; simpl; [reflexivity |].
  intros H. apply andb_true_iff in H as [Hc Hs].
  now rewrite (Hpq c Hc), (IH Hs).
Qed.

(** A text of the form the pattern describes is parsed. *)
Lemma parse_built (p subtype payload : string) :
  trim p = dataUrl subtype payload ->
  subtype <> EmptyString -> forallChars isMimeChar subtype = true ->
  payload <> EmptyString -> forallChars isPayloadChar payload = true ->
  parseImageDataUrl p =
  Some {| mimeType := "image/" ++ subtype; data := removeAll isSpace payload |}.
Proof.
  intros Ht Hs Hm Hp Hc. unfold parseImageDataUrl. rewrite Ht.
  unfold dataUrl. rewrite stripPrefix_app.
  change (";base64," ++ payload) with (String ";" ("base64," ++ payload)).
  rewrite (span_stop isMimeChar subtype ";" _ Hm eq_refl).
  destruct subtype; [congruence |]. cbn [isEmpty].
  change (String ";" ("base64," ++ payload)) with (";base64," ++ payload).
  rewrite stripPrefix_app.
  destruct payload; [congruence |]. cbn [isEmpty].
  now rewrite Hc.
Qed.

(** What a parsed text looks like, with the two groups not empty. *)
Lemma parse_inv (p : string) (d : ImageData) :
  parseImageDataUrl p = Some d ->
  exists subtype payload,
    trim p = dataUrl subtype payload /\
    subtype <> EmptyString /\ forallChars isMimeChar subtype = true /\
    payload <> EmptyString /\ forallChars isPayloadChar payload = true /\
    d = {| mimeType := "image/" ++ subtype; data := removeAll isSpace payload |}.
Proof.
  unfold parseImageDataUrl.
  destruct (stripPrefix "data:image/" (trim p)) as [r1|] eqn:E1; [| discriminate].
  destruct (span isMimeChar r1) as [sub r2] eqn:E2.
  destruct (isEmpty sub) eqn:Es; [discriminate |].
  destruct (stripPrefix ";base64," r2) as [payload|] eqn:E3; [| discriminate].
  destruct (isEmpty payload) eqn:Ep; [discriminate |].
  destruct (forallChars isPayloadChar payload) eqn:E4; [| discriminate].
  intros [= <-]. exists sub, payload.
  apply stripPrefix_some in E1, E3. pose proof (span_app _ _ _ _ E2) as E5.
  split; [unfold dataUrl; now rewrite E1, E5, E3 |].
  split; [now destruct sub |].
  split; [exact (span_forall _ _ _ _ E2) |].
  split; [now destruct payload |].
  split; [exact E4 | reflexivity].
Qed.

(** The payload of a trimmed data URL keeps a character that is not white
    space at its end. *)
Lemma payload_kept (p subtype payload : string) :
  trim p = dataUrl subtype payload -> payload <> EmptyString ->
  exists body c, payload = body ++ String c EmptyString /\ isSpace c = false.
Proof.
  intros Ht Hp. destruct (string_snoc payload Hp) as (body & c & E).
  exists body, c. split; [exact E |].
  unfold trim, dataUrl in Ht. rewrite E in Ht.
  rewrite <- !append_assoc in Ht. exact (trimEnd_ends _ _ _ Ht).
Qed.

End DataUrlFacts.

(** X21. The parser accepts exactly the texts that, once trimmed, read
    [data:image/<subtype>;base64,<payload>] with a subtype of one or more
    characters of [[a-zA-Z0-9.+-]] and a payload of one or more characters of
    [[A-Za-z0-9+/=\r\n]]; it answers the media type [image/<subtype>] and the
    payload without its line breaks. *)
Theorem parseImageDataUrl_language (p : string) (d : ImageData) :
  parseImageDataUrl p = Some d <->
  exists subtype payload,
    trim p = dataUrl subtype payload /\
    subtype <> EmptyString /\ forallChars isMimeChar subtype = true /\
    payload <> EmptyString /\ forallChars isPayloadChar payload = true /\
    d = {| mimeType := "image/" ++ subtype; data := removeAll isSpace payload |}.
Proof.
  split.
  - apply parse_inv.
  - intros (sub & payload & Ht & Hs & Hm & Hp & Hc & ->).
    now apply parse_built.
Qed.

(** X22. A parsed image has a media type [image/...] and data that are not
    empty and hold characters of the base64 alphabet only, no white space.
    Written back as a data URL it is parsed to the same image, and that URL
    has the fingerprint of the text it came from. *)
Theorem parse_round_trip (p : string) (d : ImageData) :
  parseImageDataUrl p = Some d ->
  (exists subtype, mimeType d = "image/" ++ subtype /\ subtype <> EmptyString) /\
  data d <> EmptyString /\
  forallChars isBase64Char (data d) = true /\
  parseImageDataUrl (toDataUrl d) = Some d /\
  computeImageHash (toDataUrl d) = computeImageHash p /\
  computeImageHash p = Some (SHA256.sha256Hex (data d)).
Proof.
  intros Hd.
  destruct (parse_inv p d Hd) as (sub & payload & Ht & Hs & Hm & Hp & Hc & ->).
  destruct (payload_kept p sub payload Ht Hp) as (body & c & -> & Hsp).
  cbn [mimeType data].
  assert (Hclean : forallChars isBase64Char
            (removeAll isSpace (body ++ String c EmptyString)) = true)
    by exact (removeAll_clean isSpace isPayloadChar _ Hc).
  assert (Hne : removeAll isSpace (body ++ String c EmptyString) <> EmptyString).
  { rewrite removeAll_app. simpl. rewrite Hsp.
    destruct (removeAll isSpace body); discriminate. }
  assert (Hback : parseImageDataUrl
            (toDataUrl {| mimeType := "image/" ++ sub;
                          data := removeAll isSpace (body ++ String c EmptyString) |})
          = Some {| mimeType := "image/" ++ sub;
                    data := removeAll isSpace (body ++ String c EmptyString) |}).
  { set (clean := removeAll isSpace (body ++ String c EmptyString)) in *.
    rewrite (parse_built _ sub clean).
    - now rewrite (removeAll_fixed isSpace isPayloadChar clean Hclean).
    - change (toDataUrl {| mimeType := "image/" ++ sub; data := clean |})
        with (dataUrl sub clean).
      unfold trim. rewrite trimStart_fixed by reflexivity.
      destruct (string_snoc clean Hne) as (b' & c' & E).
      assert (Hc' : isSpace c' = false).
      { rewrite E, forallChars_app in Hclean.
        apply andb_true_iff in Hclean as [_ H]. simpl in H.
        rewrite andb_true_r in H. unfold isBase64Char in H.
        apply andb_true_iff in H as [_ H]. now apply negb_true_iff in H. }
      unfold dataUrl. rewrite E, <- !append_assoc. now apply trimEnd_last.
    - exact Hs.
    - exact Hm.
    - exact Hne.
    - apply (forallChars_weaken isBase64Char); [| exact Hclean].
      intros x Hx. unfold isBase64Char in Hx.
      now apply andb_true_iff in Hx as [Hx _]. }
  assert (Hhash : forall x e, parseImageDataUrl x = Some e ->
            computeImageHash x = Some (SHA256.sha256Hex (data e))).
  { intros x e He. unfold computeImageHash, hashedText.
    rewrite parseImageDataUrl_trim, He.
    destruct (parse_inv x e He) as (s' & p' & -> & _). reflexivity. }
  split; [exists sub; now split |].
  split; [exact Hne |]. split; [exact Hclean |]. split; [exact Hback |].
  split.
  - now rewrite (Hhash _ _ Hback), (Hhash _ _ Hd).
  - exact (Hhash _ _ Hd).
Qed.

Lemma parse_round_trip_witness :
  parseImageDataUrl "  data:image/jpeg;base64,QU
JD
" = Some {| mimeType := "image/jpeg"; data := "QUJD" |} /\
  parseImageDataUrl "data:image/jpeg;base64,QUJD"
    = Some {| mimeType := "image/jpeg"; data := "QUJD" |} /\
  computeImageHash "data:image/jpeg;base64,QUJD" =
  computeImageHash "  data:image/jpeg;base64,QU
JD
".
Proof.
  assert (H : parseImageDataUrl "  data:image/jpeg;base64,QU
JD
" = Some {| mimeType := "image/jpeg"; data := "QUJD" |}) by reflexivity.
  split; [exact H |].
  destruct (parse_round_trip _ _ H) as (_ & _ & _ & H1 & H2 & _).
  split; [exact H1 | exact H2].
Defined.

(** X23. White space before and after the photo text changes neither what
    the parser answers nor the fingerprint. *)
Theorem photo_padding_ignored (ws1 ws2 p : string) :
  allSpace ws1 -> allSpace ws2 ->
  parseImageDataUrl (ws1 ++ p ++ ws2) = parseImageDataUrl p /\
  computeImageHash (ws1 ++ p ++ ws2) = computeImageHash p.
Proof.
  intros H1 H2. pose proof (trim_padded ws1 ws2 p H1 H2) as Ht.
  unfold computeImageHash, parseImageDataUrl. now rewrite Ht.
Qed.

Lemma photo_padding_ignored_witness :
  parseImageDataUrl (" " ++ Stale.photo ++ "
") = parseImageDataUrl Stale.photo /\
  computeImageHash (" " ++ Stale.photo ++ "
") = computeImageHash Stale.photo.
Proof. apply photo_padding_ignored; reflexivity. Defined.

(** ** The spam rules *)

Section SpamFacts.







(** On a text of ASCII characters the length is the number of bytes. *)
Lemma jsLength_ascii (s : string) :
  forallChars (fun c => (code c <? 128)%N) s = true ->
  jsLength s = String.length s.
Proof.
  induction s as [|c s IH]; simpl; [reflexivity |].
  intros H. apply andb_true_iff in H as [Hc Hs].
  unfold unitsOpened. now rewrite Hc, (IH Hs).
Qed.


End SpamFacts.


(** The length is counted in UTF-16 code units, not in bytes: a Marathi
    description of seven characters, nineteen bytes in UTF-8, is too
    short. *)
Example short_marathi_description_flagged :
  let description := "पाणी नळ" in
  String.length description = 19%nat /\ jsLength description = 7%nat /\
  detectSpamSignals (db Demo.freshStore) 0 "USR-1" description
    = {| s_isSpam := true; s_reason := "Description is too short." |}.
Proof. vm_compute. repeat split. Qed.

(** ** The zone rectangles *)

Section ZoneFacts.

(** No number is at least [a] and at most [b] when [a] is above [b]. *)
Lemma empty_range (a b x : float) :
  Num.le a b = false -> Num.ge x a = true -> Num.le x b = true -> False.
Proof.
  intros Hab Ha Hb. unfold Num.ge in Ha.
  pose proof (NumFacts.le_trans a x b Ha Hb) as H. congruence.
Qed.

Lemma inBox_sides (lat lon latLo latHi lonLo lonHi : float) :
  inBox lat lon latLo latHi lonLo lonHi = true ->
  Num.ge lat latLo = true /\ Num.le lat latHi = true /\
  Num.ge lon lonLo = true /\ Num.le lon lonHi = true.
Proof.
  unfold inBox. rewrite !andb_true_iff. tauto.
Qed.

(** Two rectangles whose latitude ranges are apart share no point. *)
Lemma boxes_apart (lat lon a1 b1 c1 d1 a2 b2 c2 d2 : float) :
  Num.le a2 b1 = false ->
  inBox lat lon a1 b1 c1 d1 = true -> inBox lat lon a2 b2 c2 d2 = false.
Proof.
  intros Hab H1. destruct (inBox lat lon a2 b2 c2 d2) eqn:H2; [| reflexivity].
  apply inBox_sides in H1 as (_ & H1 & _). apply inBox_sides in H2 as (H2 & _).
  destruct (empty_range a2 b1 lat Hab H2 H1).
Qed.

End ZoneFacts.

(** X25. The zone rectangles and the order of the rules.  Pushpak Colony
    and Panchvati meet no other rectangle, and Rajapeth meets Old City on
    the line of longitude 77.74 only, where the earlier rule makes the ward
    Rajapeth.  So coordinates in a rectangle get the ward of that rectangle,
    whatever the geocoder said, and the division of that ward. *)
Theorem zones_and_rule_order (lat lon : float) (hint : option string) :
  let ward := mapToAmravatiWard lat lon hint in
  (inPushpak lat lon = true ->
     inRajapeth lat lon = false /\ inPanchvati lat lon = false /\
     inOldCity lat lon = false /\
     ward = "Amravati Ward – Pushpak Colony Zone" /\
     mapWardToDivision ward = "Zone-1") /\
  (inPanchvati lat lon = true ->
     inPushpak lat lon = false /\ inRajapeth lat lon = false /\
     inOldCity lat lon = false /\
     ward = "Amravati Ward – Panchvati Zone" /\
     mapWardToDivision ward = "Zone-3") /\
  (inRajapeth lat lon = true ->
     inPushpak lat lon = false /\ inPanchvati lat lon = false /\
     (inOldCity lat lon = true ->
        Num.le lon 77.74 = true /\ Num.ge lon 77.74 = true) /\
     ward = "Amravati Ward – Rajapeth Zone" /\
     mapWardToDivision ward = "Zone-2") /\
  (inOldCity lat lon = true -> inRajapeth lat lon = false ->
     inPushpak lat lon = false /\ inPanchvati lat lon = false /\
     ward = "Amravati Ward – Old City Zone" /\
     mapWardToDivision ward = "Zone-4") /\
  (inRajapeth 20.92 77.74 = true /\ inOldCity 20.92 77.74 = true).
Proof.
  cbv zeta.
  assert (P_R : inPushpak lat lon = true -> inRajapeth lat lon = false)
    by (apply boxes_apart; reflexivity).
  assert (P_V : inPushpak lat lon = true -> inPanchvati lat lon = false)
    by (apply boxes_apart; reflexivity).
  assert (P_O : inPushpak lat lon = true -> inOldCity lat lon = false)
    by (apply boxes_apart; reflexivity).
  assert (R_V : inRajapeth lat lon = true -> inPanchvati lat lon = false)
    by (apply boxes_apart; reflexivity).
  assert (O_V : inOldCity lat lon = true -> inPanchvati lat lon = false)
    by (apply boxes_apart; reflexivity).
  unfold mapToAmravatiWard.
  split; [| split; [| split; [| split]]].
  - intros H. rewrite (P_R H), (P_V H), (P_O H), H.
    do 4 (split; [reflexivity |]). reflexivity.
  - intros H.
    destruct (inPushpak lat lon) eqn:EP; [rewrite (P_V eq_refl) in H; discriminate |].
    destruct (inRajapeth lat lon) eqn:ER; [rewrite (R_V eq_refl) in H; discriminate |].
    destruct (inOldCity lat lon) eqn:EO; [rewrite (O_V eq_refl) in H; discriminate |].
    rewrite H. do 4 (split; [reflexivity |]). reflexivity.
  - intros H.
    destruct (inPushpak lat lon) eqn:EP; [rewrite (P_R eq_refl) in H; discriminate |].
    rewrite (R_V H), H. split; [reflexivity |]. split; [reflexivity |].
    split; [| split; reflexivity].
    intros HO. apply inBox_sides in H as (_ & _ & H & _).
    apply inBox_sides in HO as (_ & _ & _ & HO). now split.
  - intros H HR.
    destruct (inPushpak lat lon) eqn:EP; [rewrite (P_O eq_refl) in H; discriminate |].
    rewrite (O_V H), HR, H. do 3 (split; [reflexivity |]). reflexivity.
  - split; reflexivity.
Qed.

(** ** From the worker's resolution to the admin's decision *)

Section WorkflowFacts.

(** A worker's "Resolved" on a complaint that is not pending, when the
    notification can be stored. *)
Lemma patch_resolved_run (w : World) (random6 id : string)
    (worker : option string) (st : Store) (existing : ComplaintRow) :
  selectComplaint (db st) id = Some existing ->
  c_status existing <> pendingAdmin ->
  storeFault w Notifications = None ->
  (forall n, In n (notifications (db st)) -> n_id n <> "NTF-" ++ random6) ->
  patchComplaint w random6 id (Some "Resolved") worker st =
  ({| db := {| complaints :=
                 map (onRow id (patched (Some "Resolved") worker)) (complaints (db st));
               notifications :=
                 (notifications (db st) ++
                  [resolvedNotice random6 id
                     (firstName worker (c_workerName existing))])%list;
               officers := officers (db st) |};
      outbox := outbox st |}, Return Success).
Proof.
  intros Esel Hst Hf Hfresh. destruct st as [d ob]. cbn [db outbox] in *.
  assert (Hex : existsb (fun n => String.eqb (n_id n) ("NTF-" ++ random6))
                  (notifications d) = false).
  { destruct (existsb _ _) eqn:E; [| reflexivity].
    apply existsb_exists in E as (n & Hin & Hn). apply String.eqb_eq in Hn.
    destruct (Hfresh n Hin Hn). }
  apply String.eqb_neq in Hst. unfold pendingAdmin in Hst.
  unfold patchComplaint, tryCatch, bind, getDb. cbn [db outbox]. rewrite Esel.
  unfold patched, pendingAdmin, updateComplaint, ret, notifyAdminResolved,
    insertNotification.
  fold (resolvedNotice random6 id (firstName worker (c_workerName existing))).
  change (present (Some "Resolved")) with true.
  change (orEmpty (Some "Resolved")) with "Resolved".
  change (String.eqb "Resolved" "Resolved") with true.
  rewrite Hst. cbn [negb andb].
  destruct (present worker) eqn:Pw;
    cbn [db complaints notifications officers outbox n_id resolvedNotice];
    rewrite Hf;
    change ("NTF" ++ "-" ++ random6) with ("NTF-" ++ random6); rewrite Hex;
    cbn [db complaints notifications officers outbox];
    (f_equal; f_equal; f_equal;
     unfold onRow; rewrite ?map_map; apply map_ext; intros r;
     unfold idIs; cbn [c_id setStatus setWorkerName];
     destruct (String.eqb (c_id r) id) eqn:E;
     cbn [c_id setStatus setWorkerName]; rewrite ?E; reflexivity).
Qed.

Lemma decision_run (id decided : string) (decision : option string)
    (st : Store) (existing : ComplaintRow) :
  selectComplaint (db st) id = Some existing ->
  (decision = Some "approve" /\ decided = "Closed") \/
  (decision = Some "reject" /\ decided = "In Progress") ->
  adminDecision id decision st =
  ({| db := {| complaints := map (onRow id (setStatus decided)) (complaints (db st));
               notifications := notifications (db st);
               officers := officers (db st) |};
      outbox := outbox st |}, Return (SuccessStatus decided)).
Proof.
  intros Esel [[-> ->] | [-> ->]];
    unfold adminDecision, bind, getDb; rewrite Esel; reflexivity.
Qed.

Lemma select_onRow (id : string) (f : ComplaintRow -> ComplaintRow)
    (rows : list ComplaintRow) :
  (forall r, c_id (f r) = c_id r) ->
  find (idIs id) (map (onRow id f) rows) = option_map f (find (idIs id) rows).
Proof.
  intros Hid. induction rows as [|r rows IH]; [reflexivity |].
  cbn [map find]. unfold onRow, idIs in *.
  destruct (String.eqb (c_id r) id) eqn:E.
  - now rewrite Hid, E.
  - rewrite E. exact IH.
Qed.

Lemma patched_id (status worker : option string) (r : ComplaintRow) :
  c_id (patched status worker r) = c_id r.
Proof.
  unfold patched.
  destruct (present worker), (String.eqb (orEmpty status) "Resolved"),
    (present status); reflexivity.
Qed.

End WorkflowFacts.

(** X26. From resolution to decision.  When a worker marks a stored
    complaint that is not yet pending as "Resolved" and the notification can
    be stored, the complaint becomes Resolved (Pending Admin) and one unread
    RESOLVED_PENDING notification naming the complaint is added.  The admin's
    approve then makes the complaint Closed and reject makes it In Progress;
    either way the decision changes rows with this id only and leaves the
    notification in place and unread. *)
Theorem resolve_then_decide (w : World) (random6 id decided : string)
    (worker decision : option string) (st : Store) (existing : ComplaintRow) :
  selectComplaint (db st) id = Some existing ->
  c_status existing <> pendingAdmin ->
  storeFault w Notifications = None ->
  (forall n, In n (notifications (db st)) -> n_id n <> "NTF-" ++ random6) ->
  (decision = Some "approve" /\ decided = "Closed") \/
  (decision = Some "reject" /\ decided = "In Progress") ->
  let notice :=
    resolvedNotice random6 id (firstName worker (c_workerName existing)) in
  exists st1 st2 pending,
    patchComplaint w random6 id (Some "Resolved") worker st = (st1, Return Success) /\
    selectComplaint (db st1) id = Some pending /\
    c_status pending = pendingAdmin /\
    notifications (db st1) = (notifications (db st) ++ [notice])%list /\
    adminDecision id decision st1 = (st2, Return (SuccessStatus decided)) /\
    (forall r, In r (complaints (db st2)) -> c_id r = id -> c_status r = decided) /\
    (forall r, c_id r <> id ->
               (In r (complaints (db st2)) <-> In r (complaints (db st)))) /\
    List.length (complaints (db st2)) = List.length (complaints (db st)) /\
    notifications (db st2) = (notifications (db st) ++ [notice])%list /\
    n_isRead notice = false /\ n_complaintId notice = id.
Proof.
  intros Esel Hst Hf Hfresh Hdec. cbv zeta.
  pose proof (patch_resolved_run w random6 id worker st existing Esel Hst Hf Hfresh)
    as Hrun1.
  set (st1 := {| db := {| complaints :=
                 map (onRow id (patched (Some "Resolved") worker)) (complaints (db st));
               notifications :=
                 (notifications (db st) ++
                  [resolvedNotice random6 id
                     (firstName worker (c_workerName existing))])%list;
               officers := officers (db st) |};
      outbox := outbox st |}) in *.
  assert (Esel1 : selectComplaint (db st1) id
                  = Some (patched (Some "Resolved") worker existing)).
  { unfold selectComplaint, st1. cbn [db complaints].
    rewrite select_onRow by apply patched_id.
    unfold selectComplaint in Esel. now rewrite Esel. }
  pose proof (decision_run id decided decision st1 _ Esel1 Hdec) as Hrun2.
  eexists st1, _, _. split; [exact Hrun1 |]. split; [exact Esel1 |].
  split; [unfold patched; now destruct (present worker) |].
  split; [reflexivity |]. split; [exact Hrun2 |].
  cbn [db complaints notifications st1].
  split; [| split; [| split; [| split; [| split]]]].
  - intros r Hin Hid. apply in_map_iff in Hin as (r1 & <- & _).
    unfold onRow, idIs in *.
    destruct (String.eqb (c_id r1) id) eqn:E; [reflexivity |].
    apply String.eqb_neq in E. contradiction.
  - intros r Hid. rewrite map_map. split.
    + intros Hin. apply in_map_iff in Hin as (r0 & <- & Hin0).
      unfold onRow, idIs in *.
      destruct (String.eqb (c_id r0) id) eqn:E; cbn [negb] in *.
      * rewrite patched_id, E in Hid. cbn [c_id setStatus] in Hid.
        rewrite patched_id in Hid. apply String.eqb_eq in E. contradiction.
      * rewrite E. exact Hin0.
    + intros Hin. apply in_map_iff. exists r. split; [| exact Hin].
      unfold onRow, idIs. apply String.eqb_neq in Hid. now rewrite !Hid.
  - now rewrite !length_map.
  - reflexivity.
  - reflexivity.
  - reflexivity.
Qed.

Lemma resolve_then_decide_witness :
  selectComplaint (db Stale.closedEarlier) "CMP-11111111" <> None /\
  storeFault Demo.offline Notifications = None /\
  exists st1 st2 pending,
    patchComplaint Demo.offline "123456" "CMP-11111111" (Some "Resolved") None
      Stale.closedEarlier = (st1, Return Success) /\
    selectComplaint (db st1) "CMP-11111111" = Some pending /\
    c_status pending = pendingAdmin /\
    adminDecision "CMP-11111111" (Some "approve") st1
      = (st2, Return (SuccessStatus "Closed")) /\
    List.length (notifications (db st2)) = 1%nat.
Proof.
  split; [discriminate |]. split; [reflexivity |].
  destruct (resolve_then_decide Demo.offline "123456" "CMP-11111111" "Closed"
              None (Some "approve") Stale.closedEarlier _ eq_refl)
    as (st1 & st2 & pending & H1 & H2 & H3 & _ & H5 & _ & _ & _ & H9 & _).
  - discriminate.
  - reflexivity.
  - intros n [].
  - left. split; reflexivity.
  - exists st1, st2, pending. split; [exact H1 |]. split; [exact H2 |].
    split; [exact H3 |]. split; [exact H5 |]. rewrite H9. reflexivity.
Defined.

(** ** Reading a status *)

(** X27. A status counts as resolved whatever its letter case and whatever
    white space surrounds it: two statuses that agree up to case and padding
    are read alike.  Of the statuses the routes write themselves, Closed and
    Resolved (Pending Admin) count as resolved, Submitted and In Progress
    do not. *)
Theorem isResolvedStatus_insensitive (ws1 ws2 s t : string) :
  allSpace ws1 -> allSpace ws2 -> toLowerCase t = toLowerCase s ->
  isResolvedStatus (ws1 ++ t ++ ws2) = isResolvedStatus s /\
  isResolvedStatus "Closed" = true /\ isResolvedStatus pendingAdmin = true /\
  isResolvedStatus "Submitted" = false /\ isResolvedStatus "In Progress" = false.
Proof.
  intros H1 H2 Hst. split; [| repeat split].
  unfold isResolvedStatus.
  now rewrite (trim_padded ws1 ws2 t H1 H2), <- !trim_lower, Hst.
Qed.

Lemma isResolvedStatus_insensitive_witness :
  isResolvedStatus "  CLOSED
" = isResolvedStatus "Closed".
Proof.
  exact (proj1 (isResolvedStatus_insensitive "  " "
" "Closed" "CLOSED" eq_refl eq_refl eq_refl)).
Defined.
